(** * pglookout: cluster-state merging and the failover decision

    A shallow embedding of the parts of [pglookout/pglookout.py] and
    [pglookout/cluster_monitor.py] that build the node map, track the
    replication lag, fetch observer state and decide on a failover,
    together with the properties proved about them.

    Conventions of the embedding.
    - A Python [dict] is an insertion-ordered association list with unique
      keys ([PyDict]): the code reads [list(d.values())[0]], so the order
      is part of the behaviour.  [==] on dicts ignores the order.
    - A JSON-like Python object is a [value]; numbers (ints and floats) are
      the rationals they denote, so that comparisons and [min] are exact.
    - A naive [datetime] is the number of microseconds since
      1970-01-01T00:00:00; a [timedelta] is a number of microseconds.
    - A raised exception is [None] in an [option] result; the effects on
      the outside world (commands, alert files, sleeping) are recorded as a
      list of [event]s.  Log lines are not recorded.
    - The clock, the file system and the network are inputs. *)

From Stdlib Require Import ZArith QArith List String Ascii Bool Lia.
From Stdlib Require Import Qround.
From Stdlib Require OrderedTypeEx.
Import ListNotations.

Local Open Scope string_scope.
Local Open Scope list_scope.
Local Open Scope Z_scope.

Set Implicit Arguments.
#[local] Set Warnings "-register-all".

(* ------------------------------------------------------------------ *)
(** ** Keys: the part of Python's [__eq__]/[__hash__] protocol a dict uses *)

Class KeyEq (K : Type) := {
  key_eqb : K -> K -> bool;
  key_eqb_spec : forall a b : K, key_eqb a b = true <-> a = b
}.

#[export] Instance string_KeyEq : KeyEq string :=
  {| key_eqb := String.eqb; key_eqb_spec := String.eqb_eq |}.

#[export] Instance Z_KeyEq : KeyEq Z :=
  {| key_eqb := Z.eqb; key_eqb_spec := Z.eqb_eq |}.

(* ------------------------------------------------------------------ *)
(** ** Insertion-ordered dictionaries *)

Module PyDict.
Section Dict.
Context {K V : Type} `{KeyEq K}.

Definition t := list (K * V).

(** [d.get(k)] *)
Fixpoint get (k : K) (d : t) : option V :=
  match d with
  | [] => None
  | (k', v) :: d' => if key_eqb k k' then Some v else get k d'
  end.

(** [k in d] *)
Definition contains (k : K) (d : t) : bool :=
  match get k d with Some _ => true | None => false end.

(** [d[k] = v]: an existing key keeps its place, a new key goes last. *)
Fixpoint set (k : K) (v : V) (d : t) : t :=
  match d with
  | [] => [(k, v)]
  | (k', v') :: d' =>
      if key_eqb k k' then (k, v) :: d' else (k', v') :: set k v d'
  end.

(** [d.setdefault(k, v)] as a statement (the returned value is unused) *)
Definition setdefault (k : K) (v : V) (d : t) : t :=
  if contains k d then d else set k v d.

(** [d.update(e)] *)
Definition update (d e : t) : t :=
  fold_left (fun acc kv => set (fst kv) (snd kv) acc) e d.

(** [d.pop(k, default)] as a statement *)
Fixpoint pop (k : K) (d : t) : t :=
  match d with
  | [] => []
  | (k', v) :: d' => if key_eqb k k' then d' else (k', v) :: pop k d'
  end.

(** The value that a sequence of assignments leaves for [k], if any. *)
Definition last_value (k : K) (e : t) : option V :=
  fold_left (fun acc kv => if key_eqb k (fst kv) then Some (snd kv) else acc)
    e None.

Definition keys (d : t) : list K := map fst d.
Definition values (d : t) : list V := map snd d.

(** [len(d)] *)
Definition len (d : t) : Z := Z.of_nat (List.length d).
End Dict.
Arguments t : clear implicits.
End PyDict.

Abbreviation dict := (PyDict.t string).

(* ------------------------------------------------------------------ *)
(** ** Python objects *)

Inductive value : Type :=
| VNone
| VBool (b : bool)
| VNum (q : Q)
| VStr (s : string)
| VList (l : list value)
| VDict (d : list (string * value)).

(** A state record: the dict kept per database node or per observer. *)
Definition record := dict value.

(** Truth value of an object, as [if x:] takes it. *)
Definition truthy (v : value) : bool :=
  match v with
  | VNone => false
  | VBool b => b
  | VNum q => negb (Qeq_bool q 0)
  | VStr s => negb (String.eqb s "")
  | VList l => match l with [] => false | _ => true end
  | VDict d => match d with [] => false | _ => true end
  end.

(** [x is False] *)
Definition is_False (v : value) : bool :=
  match v with VBool false => true | _ => false end.

(** [x is None] *)
Definition is_None (v : value) : bool :=
  match v with VNone => true | _ => false end.

Definition bool_num (b : bool) : Q := if b then 1%Q else 0%Q.

(** The number an object is in a numeric comparison; [bool] is a
    subclass of [int]. *)
Definition num_of (v : value) : option Q :=
  match v with
  | VBool b => Some (bool_num b)
  | VNum q => Some q
  | _ => None
  end.

(** Python's [==] on objects: numbers by value, lists pointwise, dicts
    key by key whatever the insertion order. *)
Fixpoint value_eqb (a b : value) {struct a} : bool :=
  match a, b with
  | VNone, VNone => true
  | VBool x, VBool y => Bool.eqb x y
  | VBool x, VNum q => Qeq_bool (bool_num x) q
  | VNum q, VBool x => Qeq_bool q (bool_num x)
  | VNum p, VNum q => Qeq_bool p q
  | VStr s, VStr t => String.eqb s t
  | VList l, VList m =>
      (fix go (l m : list value) {struct l} : bool :=
         match l, m with
         | [], [] => true
         | x :: l', y :: m' => value_eqb x y && go l' m'
         | _, _ => false
         end) l m
  | VDict d, VDict e =>
      Nat.eqb (List.length d) (List.length e) &&
      (fix go (d : list (string * value)) : bool :=
         match d with
         | [] => true
         | (k, v) :: d' =>
             match PyDict.get k e with
             | Some w => value_eqb v w
             | None => false
             end && go d'
         end) d
  | _, _ => false
  end.

(** [r1 == r2] on two state records *)
Definition record_eqb (r1 r2 : record) : bool :=
  value_eqb (VDict r1) (VDict r2).

(** [rec == own_state], where [own_state] is [None] when the own node has
    no entry in the cluster state. *)
Definition record_eq_opt (r : record) (own_state : option record) : bool :=
  match own_state with
  | Some o => record_eqb r o
  | None => false
  end.

(** [d.get(k, default)] on a record *)
Definition get_default (k : string) (default : value) (r : record) : value :=
  match PyDict.get k r with Some v => v | None => default end.

(** [d.get(k)] on a record: a missing key reads as [None] *)
Definition get_or_None (k : string) (r : record) : value :=
  get_default k VNone r.

(* ------------------------------------------------------------------ *)
(** ** Time *)

Definition datetime := Z.
Definition timedelta := Z.

(** [datetime.timedelta(seconds=s)] for a number [s]: microseconds, rounded
    to the nearest, ties to even.  The number is read as an exact
    rational, which is what Python computes for the whole numbers of
    seconds used here and for every number with at most six decimals
    that a float holds exactly. *)
Definition timedelta_seconds (s : Q) : timedelta :=
  let x := (s * 1000000)%Q in
  let f := Qfloor x in
  let r := (x - inject_Z f)%Q in
  match Qcompare r (1 # 2) with
  | Lt => f
  | Gt => f + 1
  | Eq => if Z.even f then f else f + 1
  end.

(** [td.total_seconds()] *)
Definition total_seconds (td : timedelta) : Q := Qmake td 1000000.

(* ------------------------------------------------------------------ *)
(** ** Calls that may raise *)

Definition bind {A B} (o : option A) (f : A -> option B) : option B :=
  match o with Some a => f a | None => None end.

Notation "x <- c ;; k" := (bind c (fun x => k))
  (at level 61, c at next level, right associativity).

(* ------------------------------------------------------------------ *)
(** ** Helpers of [pglookout/common.py] *)

(** [pglookout/common.py] is not among the sources.  The functions of the
    daemon below take its [get_iso_timestamp], [parse_iso_datetime] and
    [convert_xlog_location_to_offset] as parameters; this module is the
    instance used to run them. *)
Module Common.

Definition digit_of (c : ascii) : option Z :=
  let n := Z.of_N (N_of_ascii c) in
  if (48 <=? n) && (n <=? 57) then Some (n - 48) else None.

Definition hex_digit_of (c : ascii) : option Z :=
  let n := Z.of_N (N_of_ascii c) in
  if (48 <=? n) && (n <=? 57) then Some (n - 48)
  else if (97 <=? n) && (n <=? 102) then Some (n - 87)
  else if (65 <=? n) && (n <=? 70) then Some (n - 55)
  else None.

Definition char_of_digit (d : Z) : ascii :=
  ascii_of_N (Z.to_N (48 + d)).

(** Reads exactly [n] decimal digits. *)
Fixpoint take_digits (n : nat) (acc : Z) (s : string) : option (Z * string) :=
  match n with
  | O => Some (acc, s)
  | S n' =>
      match s with
      | String c s' =>
          match digit_of c with
          | Some d => take_digits n' (10 * acc + d) s'
          | None => None
          end
      | EmptyString => None
      end
  end.

Definition expect (c : ascii) (s : string) : option string :=
  match s with
  | String c' s' => if Ascii.eqb c c' then Some s' else None
  | EmptyString => None
  end.

(** Writes the [n] low decimal digits of [z], zero padded. *)
Fixpoint put_digits (n : nat) (z : Z) (rest : string) : string :=
  match n with
  | O => rest
  | S n' => put_digits n' (z / 10) (String (char_of_digit (z mod 10)) rest)
  end.

(** Days since 1970-01-01 of a date of the proleptic Gregorian calendar. *)
Definition days_from_civil (y m d : Z) : Z :=
  let y := if m <=? 2 then y - 1 else y in
  let era := y / 400 in
  let yoe := y - era * 400 in
  let doy := (153 * (if 2 <? m then m - 3 else m + 9) + 2) / 5 + d - 1 in
  let doe := yoe * 365 + yoe / 4 - yoe / 100 + doy in
  era * 146097 + doe - 719468.

Definition civil_from_days (z : Z) : Z * Z * Z :=
  let z := z + 719468 in
  let era := z / 146097 in
  let doe := z - era * 146097 in
  let yoe := (doe - doe / 1460 + doe / 36524 - doe / 146096) / 365 in
  let y := yoe + era * 400 in
  let doy := doe - (365 * yoe + yoe / 4 - yoe / 100) in
  let mp := (5 * doy + 2) / 153 in
  let d := doy - (153 * mp + 2) / 5 + 1 in
  let m := if mp <? 10 then mp + 3 else mp - 9 in
  (if m <=? 2 then y + 1 else y, m, d).

Definition usec_per_day : Z := 86400000000.

(** Modelled from the spec: [common.get_iso_timestamp], the "ISO-8601 UTC
    timestamp" of a datetime, as [t.isoformat() + "Z"]; the fraction is
    written only when it is not 0. *)
Definition get_iso_timestamp (t : datetime) : string :=
  let days := t / usec_per_day in
  let rest := t mod usec_per_day in
  let '(y, m, d) := civil_from_days days in
  let us := rest mod 1000000 in
  let secs := rest / 1000000 in
  let frac := if us =? 0 then "Z" else String "." (put_digits 6 us "Z") in
  put_digits 4 y (String "-" (put_digits 2 m (String "-" (put_digits 2 d
    (String "T" (put_digits 2 (secs / 3600) (String ":"
      (put_digits 2 (secs / 60 mod 60) (String ":"
        (put_digits 2 (secs mod 60) frac)))))))))).

(** Modelled from the spec: [common.parse_iso_datetime], the reading of an
    "ISO-8601 UTC timestamp" ["YYYY-MM-DDTHH:MM:SS[.ffffff]Z"]; anything
    else, or a date or time of day that does not exist, raises ([None]). *)
Definition parse_iso_datetime (s : string) : option datetime :=
  bind (take_digits 4 0 s) (fun '(y, s) =>
  bind (expect "-" s) (fun s =>
  bind (take_digits 2 0 s) (fun '(m, s) =>
  bind (expect "-" s) (fun s =>
  bind (take_digits 2 0 s) (fun '(d, s) =>
  bind (expect "T" s) (fun s =>
  bind (take_digits 2 0 s) (fun '(hh, s) =>
  bind (expect ":" s) (fun s =>
  bind (take_digits 2 0 s) (fun '(mm, s) =>
  bind (expect ":" s) (fun s =>
  bind (take_digits 2 0 s) (fun '(ss, s) =>
  bind (match expect "." s with
        | Some s' => take_digits 6 0 s'
        | None => Some (0, s)
        end) (fun '(us, s) =>
  if String.eqb s "Z" then
    let days := days_from_civil y m d in
    let '(y', m', d') := civil_from_days days in
    if (1 <=? y) && (y =? y') && (m =? m') && (d =? d')
       && (hh <? 24) && (mm <? 60) && (ss <? 60)
    then Some (days * usec_per_day
               + ((hh * 60 + mm) * 60 + ss) * 1000000 + us)
    else None
  else None)))))))))))).

(** [int(s, 16)] on a non-empty string of hexadecimal digits *)
Fixpoint hex_digits (acc : Z) (s : string) : option Z :=
  match s with
  | EmptyString => Some acc
  | String c s' =>
      match hex_digit_of c with
      | Some d => hex_digits (16 * acc + d) s'
      | None => None
      end
  end.

Definition parse_hex (s : string) : option Z :=
  match s with
  | EmptyString => None
  | _ => hex_digits 0 s
  end.

(** Splits at the first ["/"]. *)
Fixpoint split_slash (s : string) : option (string * string) :=
  match s with
  | EmptyString => None
  | String c s' =>
      if Ascii.eqb c "/" then Some (EmptyString, s')
      else match split_slash s' with
           | Some (a, b) => Some (String c a, b)
           | None => None
           end
  end.

(** Modelled from the spec: [common.convert_xlog_location_to_offset], "WAL
    position strings are of form HEX/HEX ...; conversion to an integer
    offset is (high << 32) | low". *)
Definition convert_xlog_location_to_offset (xlog_location : string) : option Z :=
  bind (split_slash xlog_location) (fun '(log_id, offset) =>
  bind (parse_hex log_id) (fun high =>
  bind (parse_hex offset) (fun low =>
  Some (Z.lor (Z.shiftl high 32) low)))).

End Common.

(* ------------------------------------------------------------------ *)
(** ** Small Python built-ins *)

(** A [for] loop whose body may raise. *)
Fixpoint for_each {A S} (body : S -> A -> option S) (l : list A) (acc : S)
  : option S :=
  match l with
  | [] => Some acc
  | a :: l' => acc' <- body acc a ;; for_each body l' acc'
  end.

Definition Qltb (a b : Q) : bool := negb (Qle_bool b a).

(** [h in l] on a list of names *)
Definition name_in (h : string) (l : list string) : bool :=
  existsb (String.eqb h) l.

(** [h == own_db], where [own_db] may be [None] *)
Definition is_own_db (h : string) (own_db : option string) : bool :=
  match own_db with Some o => String.eqb h o | None => false end.

(** [s.add(h)] on a set of names *)
Definition set_add (h : string) (s : list string) : list string :=
  if name_in h s then s else s ++ [h].

(** [max(...)] over integers, [min(...)] over names (code-point order);
    [None] on an empty argument, where Python raises [ValueError]. *)
Definition py_max (l : list Z) : option Z :=
  match l with
  | [] => None
  | x :: l' => Some (fold_left (fun m y => if m <? y then y else m) l' x)
  end.

Definition py_min (l : list string) : option string :=
  match l with
  | [] => None
  | x :: l' => Some (fold_left (fun m y => if String.ltb y m then y else m) l' x)
  end.

(** [min(a, b)] on two numeric objects: [b] when it is smaller, else [a];
    [TypeError] on anything that is not a number. *)
Definition py_min2 (a b : value) : option value :=
  qa <- num_of a ;; qb <- num_of b ;;
  Some (if Qltb qb qa then b else a).

(** [s.split()]: the maximal runs of non-blank characters; a character
    is blank when [str.isspace] holds of it (code points below 256). *)
Definition is_blank (c : ascii) : bool :=
  let n := N_of_ascii c in
  (N.eqb n 32 || (N.leb 9 n && N.leb n 13) || (N.leb 28 n && N.leb n 31)
   || N.eqb n 133 || N.eqb n 160)%bool.

Fixpoint split_words (cur : string) (s : string) : list string :=
  match s with
  | EmptyString => match cur with EmptyString => [] | _ => [cur] end
  | String c s' =>
      if is_blank c
      then match cur with
           | EmptyString => split_words EmptyString s'
           | _ => cur :: split_words EmptyString s'
           end
      else split_words (cur ++ String c EmptyString) s'
  end.

Definition split (s : string) : list string := split_words EmptyString s.

(* ------------------------------------------------------------------ *)
(** ** The daemon's state and its effects on the outside world *)

Inductive event : Type :=
| ExecuteExternalCommand (command : list string)
| CreateAlertFile (filename : string)
| DeleteAlertFile (filename : string)
| Sleep (seconds : Q).

(** The attributes of a [PgLookout] object that the functions below read or
    write.  [never_promote_these_nodes] is taken to be a list of names and
    [own_db] a name or [None], as the configuration documents them.
    [cluster_monitor_config] is [None] as long as [self.cluster_monitor]
    is. *)
Record PgLookout : Type := {
  config : record;
  own_db : option string;
  current_master : option string;
  connected_master_nodes : dict record;
  disconnected_master_nodes : dict record;
  connected_observer_nodes : dict value;
  disconnected_observer_nodes : dict value;
  never_promote_these_nodes : list string;
  failover_command : list string;
  over_warning_limit_command : value;
  replication_lag_warning_boundary : Q;
  replication_lag_failover_timeout : Q;
  replication_lag_over_warning_limit : bool;
  cluster_nodes_change_time : Q;
  primary_conninfo_template : option record;
  cluster_monitor_config : option record
}.

(** What a decision pass reads from the outside world.  The clock is read
    several times in a pass; every reading is an input of its own:
    [utcnow_default] and [utcnow_or] are the two [get_iso_timestamp()]
    calls of the contact check, [utcnow_contact] its [utcnow()], and
    [utcnow_position h] the [utcnow()] of the loop iteration for standby
    [h].  [command_result] is the return code of the external command, or
    [None] when starting it raises something other than
    [CalledProcessError]. *)
Record world : Type := {
  utcnow_default : datetime;
  utcnow_or : datetime;
  utcnow_contact : datetime;
  utcnow_position : string -> datetime;
  path_exists : string -> bool;
  command_result : list string -> option Z
}.

(** The accumulators of [create_node_map]. *)
Record node_sets : Type := {
  ns_standby_nodes : dict record;
  ns_master_node : option record;
  ns_connected_master_nodes : dict record;
  ns_disconnected_master_nodes : dict record;
  ns_connected_observer_nodes : dict value;
  ns_disconnected_observer_nodes : dict value
}.

Definition empty_node_sets : node_sets :=
  {| ns_standby_nodes := []; ns_master_node := None;
     ns_connected_master_nodes := []; ns_disconnected_master_nodes := [];
     ns_connected_observer_nodes := []; ns_disconnected_observer_nodes := [] |}.

Definition with_standby (host : string) (r : record) (a : node_sets) :=
  {| ns_standby_nodes := PyDict.set host r (ns_standby_nodes a);
     ns_master_node := ns_master_node a;
     ns_connected_master_nodes := ns_connected_master_nodes a;
     ns_disconnected_master_nodes := ns_disconnected_master_nodes a;
     ns_connected_observer_nodes := ns_connected_observer_nodes a;
     ns_disconnected_observer_nodes := ns_disconnected_observer_nodes a |}.

Definition with_connected_master (host : string) (r : record) (a : node_sets) :=
  {| ns_standby_nodes := ns_standby_nodes a;
     ns_master_node := ns_master_node a;
     ns_connected_master_nodes := PyDict.set host r (ns_connected_master_nodes a);
     ns_disconnected_master_nodes := ns_disconnected_master_nodes a;
     ns_connected_observer_nodes := ns_connected_observer_nodes a;
     ns_disconnected_observer_nodes := ns_disconnected_observer_nodes a |}.

Definition with_disconnected_master (host : string) (r : record) (a : node_sets) :=
  {| ns_standby_nodes := ns_standby_nodes a;
     ns_master_node := ns_master_node a;
     ns_connected_master_nodes := ns_connected_master_nodes a;
     ns_disconnected_master_nodes := PyDict.set host r (ns_disconnected_master_nodes a);
     ns_connected_observer_nodes := ns_connected_observer_nodes a;
     ns_disconnected_observer_nodes := ns_disconnected_observer_nodes a |}.

Definition with_master_node (m : option record) (a : node_sets) :=
  {| ns_standby_nodes := ns_standby_nodes a;
     ns_master_node := m;
     ns_connected_master_nodes := ns_connected_master_nodes a;
     ns_disconnected_master_nodes := ns_disconnected_master_nodes a;
     ns_connected_observer_nodes := ns_connected_observer_nodes a;
     ns_disconnected_observer_nodes := ns_disconnected_observer_nodes a |}.

Definition with_observer (connected : bool) (name : string) (fetch_time : value)
  (a : node_sets) :=
  {| ns_standby_nodes := ns_standby_nodes a;
     ns_master_node := ns_master_node a;
     ns_connected_master_nodes := ns_connected_master_nodes a;
     ns_disconnected_master_nodes := ns_disconnected_master_nodes a;
     ns_connected_observer_nodes :=
       if connected
       then PyDict.set name fetch_time (ns_connected_observer_nodes a)
       else ns_connected_observer_nodes a;
     ns_disconnected_observer_nodes :=
       if connected
       then ns_disconnected_observer_nodes a
       else PyDict.set name fetch_time (ns_disconnected_observer_nodes a) |}.

(** How a call that may end the process comes back. *)
Inductive completion : Type :=
| Returned
| Raised
| SystemExit (code : Z).

(** [datetime.datetime(year=2000, month=1, day=1)] *)
Definition year_2000 : datetime := 946684800000000.

Section Lookout.

(** The helpers of [pglookout/common.py]; [None] stands for a raised
    exception. *)
Variable parse_iso_datetime : string -> option datetime.
Variable get_iso_timestamp : datetime -> string.
Variable convert_xlog_location_to_offset : string -> option Z.

(** [parse_iso_datetime(v)] on an object: only a string can be parsed. *)
Definition parse_time (v : value) : option datetime :=
  match v with
  | VStr s => parse_iso_datetime s
  | _ => None
  end.

(** [parse_iso_datetime(r['fetch_time'])] *)
Definition fetch_time_of (r : record) : option datetime :=
  fetch_time <- PyDict.get "fetch_time" r ;;
  parse_time fetch_time.

(** *** [PgLookout.create_node_map] *)

(** Body of the loop over [cluster_state.items()]. *)
Definition classify_local (a : node_sets) (item : string * record)
  : option node_sets :=
  let '(host, state) := item in
  match PyDict.get "pg_is_in_recovery" state with
  | Some in_recovery =>
      if truthy in_recovery then Some (with_standby host state a)
      else
        connection <- PyDict.get "connection" state ;;
        if truthy connection
        then Some (with_connected_master host state a)
        else Some (with_disconnected_master host state a)
  | None => Some a
  end.

(** [connected_master_nodes.get(host, {})] *)
Definition connected_master_entry (host : string) (a : node_sets) : record :=
  match PyDict.get host (ns_connected_master_nodes a) with
  | Some r => r
  | None => []
  end.

(** [master_node.get("connection", False)], as a condition *)
Definition entry_connected (master_node : record) : bool :=
  truthy (get_default "connection" (VBool false) master_node).

(** Body of the loop over one observer's [state.items()]. *)
Definition merge_observed (own : option string) (cluster_state : dict record)
  (a : node_sets) (item : string * value) : option node_sets :=
  let '(host, db_state) := item in
  if negb (PyDict.contains host cluster_state) then Some a
  else
    match db_state with
    | VDict db_state =>
        own_fetch_time <-
          fetch_time_of
            match PyDict.get host cluster_state with
            | Some r => r
            | None => [("fetch_time", VStr (get_iso_timestamp year_2000))]
            end ;;
        observer_fetch_time <- fetch_time_of db_state ;;
        match PyDict.get "pg_is_in_recovery" db_state with
        | Some in_recovery =>
            if truthy in_recovery then
              if (own_fetch_time <=? observer_fetch_time)
                 && negb (is_own_db host own)
              then
                connection <-
                  PyDict.get "connection"
                    match PyDict.get host (ns_standby_nodes a) with
                    | Some r => r
                    | None => [("connection", VBool false)]
                    end ;;
                if is_False connection
                then Some (with_standby host db_state a)
                else Some a
              else Some a
            else
              let master_node := connected_master_entry host a in
              let connected := entry_connected master_node in
              let a := with_master_node (Some master_node) a in
              if (own_fetch_time <=? observer_fetch_time)
                 && negb (is_own_db host own)
              then
                if connected
                then Some (with_connected_master host db_state a)
                else Some (with_disconnected_master host db_state a)
              else Some a
        | None => Some a
        end
    | _ => Some a
    end.

(** Body of the loop over [observer_state.items()]. *)
Definition merge_observer (own : option string) (cluster_state : dict record)
  (a : node_sets) (item : string * record) : option node_sets :=
  let '(observer_name, state) := item in
  let connected := truthy (get_default "connection" (VBool false) state) in
  let a := with_observer connected observer_name
             (get_or_None "fetch_time" state) a in
  for_each (merge_observed own cluster_state) state a.

(** The two loops of [create_node_map]. *)
Definition collect_node_sets (own : option string)
  (cluster_state observer_state : dict record) : option node_sets :=
  a <- for_each classify_local cluster_state empty_node_sets ;;
  for_each (merge_observer own cluster_state) observer_state a.

Definition first_item {V} (d : dict V) : option (string * V) :=
  match d with
  | [] => None
  | kv :: _ => Some kv
  end.

(** The choice of the master after the loops: the events, then
    [(master_host, master_node)]. *)
Definition pick_master (a : node_sets)
  : list event * (option string * option record) :=
  if PyDict.len (ns_connected_master_nodes a) =? 0 then
    match first_item (ns_disconnected_master_nodes a) with
    | Some (h, r) => ([], (Some h, Some r))
    | None => ([], (None, ns_master_node a))
    end
  else if PyDict.len (ns_connected_master_nodes a) =? 1 then
    match first_item (ns_connected_master_nodes a) with
    | Some (h, r) => ([], (Some h, Some r))
    | None => ([], (None, ns_master_node a))
    end
  else ([CreateAlertFile "multiple_master_warning"], (None, ns_master_node a)).

Definition store_node_sets (self : PgLookout) (a : node_sets) : PgLookout :=
  {| config := config self;
     own_db := own_db self;
     current_master := current_master self;
     connected_master_nodes := ns_connected_master_nodes a;
     disconnected_master_nodes := ns_disconnected_master_nodes a;
     connected_observer_nodes := ns_connected_observer_nodes a;
     disconnected_observer_nodes := ns_disconnected_observer_nodes a;
     never_promote_these_nodes := never_promote_these_nodes self;
     failover_command := failover_command self;
     over_warning_limit_command := over_warning_limit_command self;
     replication_lag_warning_boundary := replication_lag_warning_boundary self;
     replication_lag_failover_timeout := replication_lag_failover_timeout self;
     replication_lag_over_warning_limit := replication_lag_over_warning_limit self;
     cluster_nodes_change_time := cluster_nodes_change_time self;
     primary_conninfo_template := primary_conninfo_template self;
     cluster_monitor_config := cluster_monitor_config self |}.

(** The object after the call, the events, and the returned
    [(master_host, master_node, standby_nodes)]; [None] when the call
    raises. *)
Definition create_node_map (self : PgLookout)
  (cluster_state observer_state : dict record)
  : option (PgLookout * list event
            * (option string * option record * dict record)) :=
  a <- collect_node_sets (own_db self) cluster_state observer_state ;;
  let self := store_node_sets self a in
  let '(events, (master_host, master_node)) := pick_master a in
  Some (self, events, (master_host, master_node, ns_standby_nodes a)).

(** *** [PgLookout.get_replication_positions] *)

Definition positions := PyDict.t Z (list string).

(** [known_replication_positions.setdefault(xlog_pos, set()).add(hostname)] *)
Definition add_position (xlog_pos : Z) (hostname : string) (p : positions)
  : positions :=
  PyDict.set xlog_pos
    (set_add hostname
       match PyDict.get xlog_pos p with Some s => s | None => [] end) p.

(** Body of the loop over [standby_nodes.items()]. *)
Definition record_position (self : PgLookout) (w : world) (p : positions)
  (item : string * record) : option positions :=
  let '(hostname, node_state) := item in
  let now := utcnow_position w hostname in
  connection <- PyDict.get "connection" node_state ;;
  if truthy connection then
    fetch_time <- PyDict.get "fetch_time" node_state ;;
    fetched <- parse_time fetch_time ;;
    if (now - fetched <? timedelta_seconds 20)
       && negb (name_in hostname (never_promote_these_nodes self))
    then
      receive_location <- PyDict.get "pg_last_xlog_receive_location" node_state ;;
      lsn <- (if truthy receive_location then Some receive_location
              else PyDict.get "pg_last_xlog_replay_location" node_state) ;;
      xlog_pos <- (if truthy lsn
                   then match lsn with
                        | VStr l => convert_xlog_location_to_offset l
                        | _ => None
                        end
                   else Some 0) ;;
      Some (add_position xlog_pos hostname p)
    else Some p
  else Some p.

Definition get_replication_positions (self : PgLookout) (w : world)
  (standby_nodes : dict record) : option positions :=
  for_each (record_position self w) standby_nodes [].

(** *** The contact check *)

(** [disconnected_master_node.get('db_time', get_iso_timestamp())
     or get_iso_timestamp()] *)
Definition contact_db_time (w : world) (disconnected_master_node : record)
  : value :=
  let v := get_default "db_time"
             (VStr (get_iso_timestamp (utcnow_default w)))
             disconnected_master_node in
  if truthy v then v else VStr (get_iso_timestamp (utcnow_or w)).

Definition _have_we_been_in_contact_with_the_master_within_the_failover_timeout
  (self : PgLookout) (w : world) : option bool :=
  if 0 <? PyDict.len (disconnected_master_nodes self) then
    match PyDict.values (disconnected_master_nodes self) with
    | disconnected_master_node :: _ =>
        contact <- parse_time (contact_db_time w disconnected_master_node) ;;
        let time_since_last_contact := utcnow_contact w - contact in
        if time_since_last_contact
           <? timedelta_seconds (replication_lag_failover_timeout self)
        then Some true
        else Some false
    | [] => None
    end
  else Some false.

(** *** [PgLookout.do_failover_decision] *)

Definition set_over_warning_limit (b : bool) (self : PgLookout) : PgLookout :=
  {| config := config self;
     own_db := own_db self;
     current_master := current_master self;
     connected_master_nodes := connected_master_nodes self;
     disconnected_master_nodes := disconnected_master_nodes self;
     connected_observer_nodes := connected_observer_nodes self;
     disconnected_observer_nodes := disconnected_observer_nodes self;
     never_promote_these_nodes := never_promote_these_nodes self;
     failover_command := failover_command self;
     over_warning_limit_command := over_warning_limit_command self;
     replication_lag_warning_boundary := replication_lag_warning_boundary self;
     replication_lag_failover_timeout := replication_lag_failover_timeout self;
     replication_lag_over_warning_limit := b;
     cluster_nodes_change_time := cluster_nodes_change_time self;
     primary_conninfo_template := primary_conninfo_template self;
     cluster_monitor_config := cluster_monitor_config self |}.

(** [check_for_maintenance_mode_file]; a configured path that is not a
    string is taken to raise. *)
Definition check_for_maintenance_mode_file (self : PgLookout) (w : world)
  : option bool :=
  match get_default "maintenance_mode_file"
          (VStr "/tmp/pglookout_maintenance_mode_file") (config self) with
  | VStr path => Some (path_exists w path)
  | _ => None
  end.

(** [min(known_replication_positions[max(known_replication_positions)])] *)
Definition furthest_along (p : positions) : option string :=
  best <- py_max (PyDict.keys p) ;;
  hosts <- PyDict.get best p ;;
  py_min hosts.

Definition total_amount_of_nodes (self : PgLookout)
  (standby_nodes : dict record) : Z :=
  let total_observers := PyDict.len (connected_observer_nodes self)
                         + PyDict.len (disconnected_observer_nodes self) in
  PyDict.len standby_nodes + 1
  - Z.of_nat (List.length (never_promote_these_nodes self))
  + total_observers.

Definition size_of_needed_majority (self : PgLookout)
  (standby_nodes : dict record) : Q :=
  (inject_Z (total_amount_of_nodes self standby_nodes) * (1 # 2))%Q.

Definition amount_of_known_replication_positions (p : positions) : Z :=
  fold_left (fun n hosts => n + Z.of_nat (List.length hosts))
    (PyDict.values p) 0.

Definition size_of_known_state (self : PgLookout) (p : positions) : Z :=
  amount_of_known_replication_positions p
  + PyDict.len (connected_observer_nodes self).

(** The last branch: run the failover command and what follows it.  The
    answer of the world for the command is taken as it is; for an empty
    command that answer is [None] in a world that stands for
    [subprocess], where [check_call([])] raises. *)
Definition run_failover (self : PgLookout) (w : world)
  : list event * option PgLookout :=
  let command := failover_command self in
  match command_result w command with
  | None => ([ExecuteExternalCommand command], None)
  | Some return_code =>
      match num_of (get_default "failover_sleep_time" (VNum 0) (config self)) with
      | Some seconds =>
          if Qltb seconds 0 then
            ([ExecuteExternalCommand command;
              CreateAlertFile "failover_has_happened"], None)
          else if return_code =? 0 then
            ([ExecuteExternalCommand command;
              CreateAlertFile "failover_has_happened";
              Sleep seconds;
              DeleteAlertFile "replication_delay_warning"],
             Some (set_over_warning_limit false self))
          else
            ([ExecuteExternalCommand command;
              CreateAlertFile "failover_has_happened";
              Sleep seconds], Some self)
      | None =>
          ([ExecuteExternalCommand command;
            CreateAlertFile "failover_has_happened"], None)
      end
  end.

(** The events of the call and the object after it ([None] when the call
    raises). *)
Definition do_failover_decision (self : PgLookout) (w : world)
  (own_state : option record) (standby_nodes : dict record)
  : list event * option PgLookout :=
  match
    (if 0 <? PyDict.len (connected_master_nodes self) then Some true
     else _have_we_been_in_contact_with_the_master_within_the_failover_timeout
            self w)
  with
  | None => ([], None)
  | Some true => ([], Some self)
  | Some false =>
      match get_replication_positions self w standby_nodes with
      | None => ([], None)
      | Some [] => ([], Some self)
      | Some known_replication_positions =>
          match furthest_along known_replication_positions with
          | None => ([], None)
          | Some furthest_along_host =>
              match PyDict.get furthest_along_host standby_nodes with
              | None => ([], None)
              | Some furthest_state =>
                  if record_eq_opt furthest_state own_state then
                    match check_for_maintenance_mode_file self w with
                    | None => ([], None)
                    | Some true => ([], Some self)
                    | Some false =>
                        if match own_db self with
                           | Some o => name_in o (never_promote_these_nodes self)
                           | None => false
                           end
                        then ([], Some self)
                        else if Qltb
                                  (inject_Z (size_of_known_state self
                                               known_replication_positions))
                                  (size_of_needed_majority self standby_nodes)
                        then ([], Some self)
                        else run_failover self w
                    end
                  else ([], Some self)
              end
          end
      end
  end.

(** The standby [h] is recorded at the offset [k]. *)
Definition recorded (p : positions) (k : Z) (h : string) : Prop :=
  exists hosts, PyDict.get k p = Some hosts /\ In h hosts.

(** The gates in the order the code goes through them. *)
Record gates_pass (self : PgLookout) (w : world) (own_state : option record)
  (standby_nodes : dict record) (p : positions) (host : string) : Prop := {
  gate_no_connected_master : PyDict.len (connected_master_nodes self) <= 0;
  gate_no_recent_contact : _have_we_been_in_contact_with_the_master_within_the_failover_timeout self w = Some false;
  gate_positions : get_replication_positions self w standby_nodes = Some p;
  gate_positions_known : p <> [];
  gate_furthest : furthest_along p = Some host;
  gate_self :
    exists furthest_state,
      PyDict.get host standby_nodes = Some furthest_state
      /\ record_eq_opt furthest_state own_state = true;
  gate_maintenance : check_for_maintenance_mode_file self w = Some false;
  gate_never_promote :
    match own_db self with
    | Some o => name_in o (never_promote_these_nodes self)
    | None => false
    end = false
}.

(** *** [PgLookout.load_config] *)

(** [pgutil.get_connection_info], taken as given; [None] is a raised
    [ValueError]. *)
Variable get_connection_info : value -> option record.

Definition names_of (v : value) : list string :=
  match v with
  | VList l =>
      flat_map (fun x => match x with VStr s => [s] | _ => [] end) l
  | _ => []
  end.

Definition name_of (v : value) : option string :=
  match v with VStr s => Some s | _ => None end.

Definition number_or (default : Q) (v : value) : Q :=
  match num_of v with Some q => q | None => default end.

(** [loaded] is what [json.load] returns for the file at [config_path],
    [None] when opening the file or parsing it raises; [time] is the
    reading of [time.time()].  The set-up of the loggers (syslog handler,
    log level) is left out; configuration values are read at the types
    the configuration documents. *)
Definition load_config (self : PgLookout) (time : Q) (loaded : option record)
  : PgLookout * completion :=
  let previous_remote_conns := get_or_None "remote_conns" (config self) in
  match loaded with
  | None => (self, SystemExit 1)
  | Some new_config =>
      let change_time :=
        if negb (value_eqb previous_remote_conns
                   (get_or_None "remote_conns" new_config))
        then time else cluster_nodes_change_time self in
      let '(new_config, template) :=
        if truthy (get_or_None "autofollow" new_config) then
          match PyDict.get "primary_conninfo_template" new_config with
          | Some t =>
              match get_connection_info t with
              | Some info => (new_config, Some info)
              | None => (PyDict.set "autofollow" (VBool false) new_config,
                         primary_conninfo_template self)
              end
          | None => (PyDict.set "autofollow" (VBool false) new_config,
                     primary_conninfo_template self)
          end
        else (new_config, primary_conninfo_template self) in
      let updated (command : option (list string)) :=
        {| config := new_config;
           own_db := name_of (get_or_None "own_db" new_config);
           current_master := current_master self;
           connected_master_nodes := connected_master_nodes self;
           disconnected_master_nodes := disconnected_master_nodes self;
           connected_observer_nodes := connected_observer_nodes self;
           disconnected_observer_nodes := disconnected_observer_nodes self;
           never_promote_these_nodes :=
             names_of (get_default "never_promote_these_nodes" (VList [])
                         new_config);
           failover_command :=
             match command with
             | Some c => c
             | None => failover_command self
             end;
           over_warning_limit_command :=
             match command with
             | Some _ => get_or_None "over_warning_limit_command" new_config
             | None => over_warning_limit_command self
             end;
           replication_lag_warning_boundary :=
             match command with
             | Some _ =>
                 number_or 30 (get_default "warning_replication_time_lag"
                                 (VNum 30) new_config)
             | None => replication_lag_warning_boundary self
             end;
           replication_lag_failover_timeout :=
             match command with
             | Some _ =>
                 number_or 120 (get_default "max_failover_replication_time_lag"
                                  (VNum 120) new_config)
             | None => replication_lag_failover_timeout self
             end;
           replication_lag_over_warning_limit :=
             replication_lag_over_warning_limit self;
           cluster_nodes_change_time := change_time;
           primary_conninfo_template := template;
           cluster_monitor_config :=
             match cluster_monitor_config self with
             | Some _ => Some new_config
             | None => None
             end |} in
      (* [self.config.get("failover_command", "").split()] raises on a value
         that is not a string; the assignments after it are then not made *)
      match get_default "failover_command" (VStr "") new_config with
      | VStr command => (updated (Some (split command)), Returned)
      | _ => (updated None, Raised)
      end
  end.

End Lookout.

(* ------------------------------------------------------------------ *)
(** ** The cluster monitor ([pglookout/cluster_monitor.py]) *)

(** What [self.session.get(fetch_uri, timeout=5.0)] and the reading of the
    response come to.  [date] is the [Date] header once through [parsedate],
    [time.mktime] and [datetime.fromtimestamp], [None] when the header is
    missing or that conversion raises; [json] is what [response.json()]
    returns, [None] when it raises. *)
Inductive http_outcome : Type :=
| HttpConnectionError
| HttpOtherError
| HttpResponse (date : option datetime) (json : option record).

(** The row the status queries leave in [f_result]. *)
Record status_row : Type := {
  db_time : datetime;
  pg_is_in_recovery : bool;
  pg_last_xact_replay_timestamp : option datetime;
  pg_last_xlog_receive_location : option string;
  pg_last_xlog_replay_location : option string;
  replication_slots : option (list value)
}.

(** The two shared state maps and the slot cache of a [ClusterMonitor].
    The worker threads of one monitoring pass write different keys; the
    calls below are the sequential steps of such a pass. *)
Record ClusterMonitor : Type := {
  cluster_state : dict record;
  observer_state : dict record;
  known_replication_slots : record
}.

Definition opt_str (o : option string) : value :=
  match o with Some s => VStr s | None => VNone end.

Section Monitor.

Variable parse_iso_datetime : string -> option datetime.
Variable get_iso_timestamp : datetime -> string.

(** *** [ClusterMonitor._fetch_observer_state] *)

(** [now] is the reading of the clock in [get_iso_timestamp()].  The result
    is [None] where the method returns [None]. *)
Definition _fetch_observer_state (now : datetime) (http : http_outcome)
  : option record :=
  let result : record :=
    [("fetch_time", VStr (get_iso_timestamp now)); ("connection", VBool true)] in
  let failed := Some (PyDict.set "connection" (VBool false) result) in
  match http with
  | HttpConnectionError => failed
  | HttpOtherError => failed
  | HttpResponse date json =>
      match date with
      | None => failed
      | Some remote_server_time =>
          match parse_iso_datetime (get_iso_timestamp now) with
          | None => failed
          | Some fetched =>
              let time_diff := fetched - remote_server_time in
              if timedelta_seconds 5 <? time_diff then
                match json with
                | Some _ => None
                | None => failed
                end
              else
                match json with
                | Some body => Some (PyDict.update result body)
                | None => failed
                end
          end
      end
  end.

(** *** [ClusterMonitor.fetch_observer_state] *)

Definition fetch_observer_state (self : ClusterMonitor) (instance : string)
  (now : datetime) (http : http_outcome) : ClusterMonitor :=
  match _fetch_observer_state now http with
  | Some result =>
      if truthy (VDict result) then
        {| cluster_state := cluster_state self;
           observer_state :=
             match PyDict.get instance (observer_state self) with
             | Some old =>
                 PyDict.set instance (PyDict.update old result)
                   (observer_state self)
             | None => PyDict.set instance result (observer_state self)
             end;
           known_replication_slots := known_replication_slots self |}
      else self
  | None => self
  end.

(** *** [ClusterMonitor._parse_status_query_result] *)

Definition _parse_status_query_result (result : option status_row) : record :=
  match result with
  | None => []
  | Some row =>
      let columns : record :=
        [("db_time", VStr (get_iso_timestamp (db_time row)));
         ("pg_is_in_recovery", VBool (pg_is_in_recovery row));
         ("pg_last_xact_replay_timestamp", VNone);
         ("pg_last_xlog_receive_location",
          opt_str (pg_last_xlog_receive_location row));
         ("pg_last_xlog_replay_location",
          opt_str (pg_last_xlog_replay_location row))]
        ++ match replication_slots row with
           | Some slots => [("replication_slots", VList slots)]
           | None => []
           end in
      let result :=
        match pg_last_xact_replay_timestamp row with
        | Some replayed =>
            let replication_time_lag := Z.abs (db_time row - replayed) in
            PyDict.set "pg_last_xact_replay_timestamp"
              (VStr (get_iso_timestamp replayed))
              (PyDict.set "replication_time_lag"
                 (VNum (total_seconds replication_time_lag)) columns)
        | None => columns
        end in
      let result :=
        if negb (pg_is_in_recovery row) then
          PyDict.update result
            [("pg_last_xlog_receive_location", VNone);
             ("pg_last_xact_replay_timestamp", VNone);
             ("pg_last_xlog_replay_location",
              opt_str (pg_last_xlog_replay_location row));
             ("replication_time_lag", VNone)]
        else result in
      PyDict.update result
        [("db_time", VStr (get_iso_timestamp (db_time row)));
         ("connection", VBool true)]
  end.

(** *** [ClusterMonitor._query_cluster_member_state] *)

(** [f_result] is the row the queries produced, [None] when there is no
    connection or the queries fail before a row is kept. *)
Definition _query_cluster_member_state (now : datetime)
  (f_result : option status_row) : record :=
  let result : record :=
    [("fetch_time", VStr (get_iso_timestamp now)); ("connection", VBool false)] in
  match f_result with
  | Some _ => PyDict.update result (_parse_status_query_result f_result)
  | None => result
  end.

(** *** [ClusterMonitor.update_cluster_member_state] *)

(** The part of [update_cluster_member_state] under "maintain lowest seen
    lag": [entry] is [self.cluster_state[instance]], [now_lag] is
    [result.get("replication_time_lag")]. *)
Definition maintain_lowest_lag (entry : record) (now_lag : value)
  : option record :=
  let min_lag := get_or_None "min_replication_time_lag" entry in
  if negb (is_None now_lag) then
    if is_None min_lag
    then Some (PyDict.set "min_replication_time_lag" now_lag entry)
    else
      lowest <- py_min2 min_lag now_lag ;;
      Some (PyDict.set "min_replication_time_lag" lowest entry)
  else Some entry.

(** [monotonic] is the reading of [time.monotonic()].  When the instance is
    new, the stored entry is the very dict [result], so that the
    [setdefault] on [result] shows in the cluster state; otherwise the
    entry is a dict of its own and does not see it. *)
Definition update_cluster_member_state (self : ClusterMonitor)
  (instance : string) (now : datetime) (monotonic : Q)
  (f_result : option status_row) : option ClusterMonitor :=
  let result := _query_cluster_member_state now f_result in
  let previous := PyDict.get instance (cluster_state self) in
  let result' :=
    if truthy (get_or_None "pg_last_xlog_receive_location" result)
    then PyDict.setdefault "replication_start_time" (VNum monotonic) result
    else result in
  let entry :=
    match previous with
    | Some old => PyDict.update old result
    | None => result'
    end in
  let now_lag := get_or_None "replication_time_lag" result' in
  entry <- maintain_lowest_lag entry now_lag ;;
  Some {| cluster_state := PyDict.set instance entry (cluster_state self);
          observer_state := observer_state self;
          known_replication_slots :=
            match PyDict.get "replication_slots" result' with
            | Some slots =>
                [("instance", VStr instance); ("slots", slots);
                 ("last_updated", VNum monotonic)]
            | None => known_replication_slots self
            end |}.

(** *** [ClusterMonitor.connect_to_cluster_nodes_and_cleanup_old_nodes] *)

(** Body of the loop over the instances that left the configuration. *)
Definition remove_leftover_state (self : ClusterMonitor)
  (leftover_instance : string) : ClusterMonitor :=
  {| cluster_state := PyDict.pop leftover_instance (cluster_state self);
     observer_state := PyDict.pop leftover_instance (observer_state self);
     known_replication_slots := known_replication_slots self |}.

(** The monitor as [__init__] leaves it. *)
Definition new_monitor : ClusterMonitor :=
  {| cluster_state := []; observer_state := []; known_replication_slots := [] |}.

(** The states a monitor goes through: from the start, by probes of
    cluster members, fetches of observers and removals of instances. *)
Inductive monitor_reachable : ClusterMonitor -> Prop :=
| reach_new : monitor_reachable new_monitor
| reach_update self instance now monotonic f_result self' :
    monitor_reachable self ->
    update_cluster_member_state self instance now monotonic f_result
    = Some self' ->
    monitor_reachable self'
| reach_fetch self instance now http :
    monitor_reachable self ->
    monitor_reachable (fetch_observer_state self instance now http)
| reach_remove self leftover_instance :
    monitor_reachable self ->
    monitor_reachable (remove_leftover_state self leftover_instance).

End Monitor.



(* ------------------------------------------------------------------ *)
(** ** Reading the node map *)

(** A peer classified from the own cluster state as a connected master is
    a record with [pg_is_in_recovery] false and [connection] true. *)
Definition locally_connected_master (cluster_state : dict record)
  (host : string) : Prop :=
  exists state in_recovery connection,
    In (host, state) cluster_state
    /\ PyDict.get "pg_is_in_recovery" state = Some in_recovery
    /\ truthy in_recovery = false
    /\ PyDict.get "connection" state = Some connection
    /\ truthy connection = true.

(* ------------------------------------------------------------------ *)
(** ** Reading the events of a call *)

Definition is_command (e : event) : bool :=
  match e with
  | ExecuteExternalCommand _ => true
  | _ => false
  end.

(** Whether an external command was run during the call. *)
Definition invokes_command (events : list event) : bool :=
  existsb is_command events.

(* ------------------------------------------------------------------ *)
(** ** Worked clusters

    The functions above, run with the helpers of [Common], on cluster
    states that the monitor itself produces from probe results. *)

Module Cluster.

Definition create_node_map :=
  create_node_map Common.parse_iso_datetime Common.get_iso_timestamp.

Definition do_failover_decision :=
  do_failover_decision Common.parse_iso_datetime Common.get_iso_timestamp
    Common.convert_xlog_location_to_offset.

Definition update_cluster_member_state :=
  update_cluster_member_state Common.get_iso_timestamp.

Definition fetch_observer_state :=
  fetch_observer_state Common.parse_iso_datetime Common.get_iso_timestamp.

Definition _fetch_observer_state :=
  _fetch_observer_state Common.parse_iso_datetime Common.get_iso_timestamp.

(** A connection info that is already a dict is copied; other forms are
    not needed here. *)
Definition get_connection_info (info : value) : option record :=
  match info with
  | VDict d => Some d
  | _ => None
  end.

Definition load_config := load_config get_connection_info.

(** The object as [__init__] has it before it calls [load_config]. *)
Definition created : PgLookout :=
  {| config := [];
     own_db := None;
     current_master := None;
     connected_master_nodes := [];
     disconnected_master_nodes := [];
     connected_observer_nodes := [];
     disconnected_observer_nodes := [];
     never_promote_these_nodes := [];
     failover_command := [];
     over_warning_limit_command := VNone;
     replication_lag_warning_boundary := 0;
     replication_lag_failover_timeout := 0;
     replication_lag_over_warning_limit := false;
     cluster_nodes_change_time := 0;
     primary_conninfo_template := None;
     cluster_monitor_config := None |}.

Definition config_for (own : string) : record :=
  [("own_db", VStr own);
   ("remote_conns", VDict []);
   ("failover_command", VStr "/usr/bin/pg_ctl promote")].

(** The daemon of node [own], started with [config_for own]. *)
Definition started (own : string) : PgLookout :=
  fst (load_config created 0 (Some (config_for own))).

(** The same daemon once [__init__] has made its [ClusterMonitor]. *)
Definition running (own : string) : PgLookout :=
  let self := started own in
  {| config := config self;
     own_db := own_db self;
     current_master := current_master self;
     connected_master_nodes := connected_master_nodes self;
     disconnected_master_nodes := disconnected_master_nodes self;
     connected_observer_nodes := connected_observer_nodes self;
     disconnected_observer_nodes := disconnected_observer_nodes self;
     never_promote_these_nodes := never_promote_these_nodes self;
     failover_command := failover_command self;
     over_warning_limit_command := over_warning_limit_command self;
     replication_lag_warning_boundary := replication_lag_warning_boundary self;
     replication_lag_failover_timeout := replication_lag_failover_timeout self;
     replication_lag_over_warning_limit := replication_lag_over_warning_limit self;
     cluster_nodes_change_time := cluster_nodes_change_time self;
     primary_conninfo_template := primary_conninfo_template self;
     cluster_monitor_config := Some (config self) |}.

(** 2025-11-04T00:00:00Z *)
Definition now : datetime := 1762214400000000.

Definition seconds (n : Z) : timedelta := n * 1000000.

Definition master_row (t : datetime) : status_row :=
  {| db_time := t;
     pg_is_in_recovery := false;
     pg_last_xact_replay_timestamp := None;
     pg_last_xlog_receive_location := None;
     pg_last_xlog_replay_location := Some "1/3";
     replication_slots := None |}.

Definition standby_row (t replayed : datetime) (lsn : string) : status_row :=
  {| db_time := t;
     pg_is_in_recovery := true;
     pg_last_xact_replay_timestamp := Some replayed;
     pg_last_xlog_receive_location := Some lsn;
     pg_last_xlog_replay_location := Some lsn;
     replication_slots := None |}.

Definition monitor : ClusterMonitor := new_monitor.

(** A sequence of probes, each with the instance, the time of the probe
    and the row it got ([None] for a failed probe). *)
Definition probes (l : list (string * datetime * option status_row))
  (m : ClusterMonitor) : option ClusterMonitor :=
  for_each (fun m '(instance, t, row) =>
              update_cluster_member_state m instance t 0 row) l m.

Definition cluster_after (l : list (string * datetime * option status_row))
  : dict record :=
  match probes l monitor with
  | Some m => cluster_state m
  | None => []
  end.

(** The world one second after [now]: no maintenance file, commands
    succeed. *)
Definition quiet : world :=
  {| utcnow_default := now + seconds 1;
     utcnow_or := now + seconds 1;
     utcnow_contact := now + seconds 1;
     utcnow_position := fun _ => now + seconds 1;
     path_exists := fun _ => false;
     command_result := fun _ => Some 0 |}.

(** The node map of a cluster state followed by the failover decision,
    with [own_state] read from the cluster state as [check_cluster_state]
    reads it. *)
Definition decide_on (self : PgLookout) (w : world)
  (cluster_state observer_state : dict record)
  : option (list event * option PgLookout) :=
  match create_node_map self cluster_state observer_state with
  | Some (self, _, (_, _, standby_nodes)) =>
      Some (do_failover_decision self w
              match own_db self with
              | Some o => PyDict.get o cluster_state
              | None => None
              end standby_nodes)
  | None => None
  end.

(** Two masters that both stopped answering: ["m1"] was last reached an
    hour ago, ["m2"] ten seconds ago; ["s"] is a standby 130 s behind. *)
Definition two_lost_masters : dict record :=
  cluster_after
    [("m1", now - seconds 3600, Some (master_row (now - seconds 3600)));
     ("m2", now - seconds 10, Some (master_row (now - seconds 10)));
     ("s", now, Some (standby_row now (now - seconds 130) "1/2"));
     ("m1", now, None);
     ("m2", now, None)].

(** One master lost an hour ago and one standby. *)
Definition one_standby : dict record :=
  cluster_after
    [("m", now - seconds 3600, Some (master_row (now - seconds 3600)));
     ("s", now, Some (standby_row now (now - seconds 130) "1/2"));
     ("m", now, None)].

(** One master lost an hour ago and two standbys whose probes gave the
    same answer at the same time. *)
Definition twin_standbys : dict record :=
  cluster_after
    [("m", now - seconds 3600, Some (master_row (now - seconds 3600)));
     ("a", now, Some (standby_row now (now - seconds 130) "1/2"));
     ("b", now, Some (standby_row now (now - seconds 130) "1/2"));
     ("m", now, None)].

(** Scenario S4: the own node ["A"], a peer ["B"] that the own probes never
    reached (last try 60 s ago), and two observers that reach ["B"] now and
    see a master. *)
Definition s4_cluster_state : dict record :=
  cluster_after
    [("A", now, Some (standby_row now (now - seconds 1) "1/2"));
     ("B", now - seconds 60, None)].

Definition as_json (cluster_state : dict record) : record :=
  map (fun '(host, state) => (host, VDict state)) cluster_state.

Definition s4_observer_view : record :=
  as_json (cluster_after [("B", now, Some (master_row now))]).

Definition s4_observer_state : dict record :=
  observer_state
    (fetch_observer_state
       (fetch_observer_state monitor "o1" now
          (HttpResponse (Some now) (Some s4_observer_view)))
       "o2" now (HttpResponse (Some now) (Some s4_observer_view))).

(** An observer ["o1"] fetched once with success. *)
Definition observed_once : ClusterMonitor :=
  fetch_observer_state monitor "o1" (now - seconds 5)
    (HttpResponse (Some (now - seconds 5)) (Some s4_observer_view)).

(** A master that answers and a standby. *)
Definition healthy : dict record :=
  cluster_after
    [("m", now, Some (master_row now));
     ("s", now, Some (standby_row now (now - seconds 1) "1/2"))].

(** The object and the standbys after [create_node_map]. *)
Definition node_map (self : PgLookout) (cluster_state observer_state : dict record)
  : PgLookout * dict record :=
  match create_node_map self cluster_state observer_state with
  | Some (self, _, (_, _, standby_nodes)) => (self, standby_nodes)
  | None => (self, [])
  end.

(** The names of the connected and of the disconnected masters after
    [create_node_map]. *)
Definition masters (self : PgLookout) (cluster_state observer_state : dict record)
  : list string * list string :=
  let self := fst (node_map self cluster_state observer_state) in
  (PyDict.keys (connected_master_nodes self),
   PyDict.keys (disconnected_master_nodes self)).

Definition get_replication_positions :=
  get_replication_positions Common.parse_iso_datetime
    Common.convert_xlog_location_to_offset.

(** The replication positions the decision works with. *)
Definition positions_on (self : PgLookout) (w : world)
  (cluster_state observer_state : dict record) : positions :=
  let '(self, standby_nodes) := node_map self cluster_state observer_state in
  match get_replication_positions self w standby_nodes with
  | Some p => p
  | None => []
  end.

(** [(size_of_known_state, total_amount_of_nodes)] of a decision. *)
Definition quorum_on (self : PgLookout) (w : world)
  (cluster_state observer_state : dict record) : Z * Z :=
  let '(self', standby_nodes) := node_map self cluster_state observer_state in
  (size_of_known_state self' (positions_on self w cluster_state observer_state),
   total_amount_of_nodes self' standby_nodes).

(** Whether the decision on a cluster state runs a command. *)
Definition promotes (self : PgLookout) (w : world)
  (cluster_state observer_state : dict record) : bool :=
  match decide_on self w cluster_state observer_state with
  | Some (events, _) => invokes_command events
  | None => false
  end.

(** What an observer has on record for a peer:
    [(fetch_time, connection, pg_is_in_recovery)]. *)
Definition observed (observer_state : dict record) (observer host : string)
  : option (value * value * value) :=
  match PyDict.get observer observer_state with
  | Some state =>
      match PyDict.get host state with
      | Some (VDict r) =>
          Some (get_or_None "fetch_time" r, get_or_None "connection" r,
                get_or_None "pg_is_in_recovery" r)
      | _ => None
      end
  | None => None
  end.

(** How long before the reading [t] of the clock the master [host] gave
    its last [db_time]. *)
Definition since_db_time (cluster_state : dict record) (host : string)
  (t : datetime) : option timedelta :=
  r <- PyDict.get host cluster_state ;;
  v <- PyDict.get "db_time" r ;;
  contact <- parse_time Common.parse_iso_datetime v ;;
  Some (t - contact).

(** The cluster state as the own probes change it between the snapshot
    and the reading of [own_state]: ["a"] has been probed once more. *)
Definition twin_standbys_later : dict record :=
  match update_cluster_member_state
          {| cluster_state := twin_standbys; observer_state := [];
             known_replication_slots := [] |}
          "a" (now + seconds 1) 0
          (Some (standby_row (now + seconds 1) (now - seconds 130) "1/2")) with
  | Some m => cluster_state m
  | None => []
  end.

(** The node sets after the loop over the own cluster state. *)
Definition local_sets (cluster_state : dict record) : node_sets :=
  match for_each classify_local cluster_state empty_node_sets with
  | Some a => a
  | None => empty_node_sets
  end.

(** What the observers of scenario S4 have on record for ["B"]. *)
Definition s4_observed_B : record :=
  match PyDict.get "B" s4_observer_view with
  | Some (VDict r) => r
  | _ => []
  end.

Definition healthy_map := node_map (running "s") healthy [].
Definition one_standby_map := node_map (running "s") one_standby [].
Definition twins_at_a := node_map (running "a") twin_standbys [].
Definition twins_at_b := node_map (running "b") twin_standbys [].

(** The monitor after a first probe of ["s"]. *)
Definition probed_once : ClusterMonitor :=
  match probes [("s", now, Some (standby_row now (now - seconds 3) "1/2"))]
          monitor with
  | Some m => m
  | None => monitor
  end.

End Cluster.

(* ------------------------------------------------------------------ *)
(** ** Reading the replication positions *)

(** The offset at which the loop of [get_replication_positions] records a
    standby with the state [node_state]: that of the receive location, of
    the replay location when there is no receive location, 0 when there is
    neither. *)
Definition standby_offset
  (convert_xlog_location_to_offset : string -> option Z)
  (node_state : record) : option Z :=
  receive_location <- PyDict.get "pg_last_xlog_receive_location" node_state ;;
  lsn <- (if truthy receive_location then Some receive_location
          else PyDict.get "pg_last_xlog_replay_location" node_state) ;;
  if truthy lsn
  then match lsn with
       | VStr l => convert_xlog_location_to_offset l
       | _ => None
       end
  else Some 0.

(** The conditions under which that loop records a standby at all:
    connected, fetched less than 20 seconds before the reading of the
    clock, and not on the never-promote list. *)
Definition eligible_standby (parse_iso_datetime : string -> option datetime)
  (self : PgLookout) (w : world) (hostname : string) (node_state : record)
  : Prop :=
  exists connection fetch_time fetched,
    PyDict.get "connection" node_state = Some connection
    /\ truthy connection = true
    /\ PyDict.get "fetch_time" node_state = Some fetch_time
    /\ parse_time parse_iso_datetime fetch_time = Some fetched
    /\ utcnow_position w hostname - fetched < timedelta_seconds 20
    /\ name_in hostname (never_promote_these_nodes self) = false.

(* ------------------------------------------------------------------ *)
(** ** Reading the lag fields *)

(** No lag on record is negative. *)
Definition lag_not_negative (r : record) : Prop :=
  forall k b,
    k = "replication_time_lag" \/ k = "min_replication_time_lag" ->
    PyDict.get k r = Some (VNum b) -> (0 <= b)%Q.

(** The row of a server that is not in recovery, as it would be had the
    server never been a standby. *)
Definition born_master (row : status_row) : status_row :=
  {| db_time := db_time row;
     pg_is_in_recovery := false;
     pg_last_xact_replay_timestamp := None;
     pg_last_xlog_receive_location := None;
     pg_last_xlog_replay_location := pg_last_xlog_replay_location row;
     replication_slots := replication_slots row |}.

(* ------------------------------------------------------------------ *)
(** ** The supervisor: lag check, failover consideration, cluster check

    As for [do_failover_decision], a call gives its events and the object
    after it has returned; [None] stands for a call that raises, with the
    events up to there (the attributes it had set by then are not
    given). *)

(** The events of two steps in sequence; the second step is not taken when
    the first raises. *)
Definition and_then {A B} (first : list event * option A)
  (next : A -> list event * option B) : list event * option B :=
  match first with
  | (events, Some a) =>
      let '(events', b) := next a in (events ++ events', b)
  | (events, None) => (events, None)
  end.

(** The argument list that [subprocess.check_call(command)] starts: a
    single string is the program alone; any other value goes through
    [list(args)], which keeps a list, gives the keys of a dict and raises
    on the rest; an argument that is not a string raises before a process
    is started. *)
Definition argv_of (command : value) : option (list string) :=
  match command with
  | VStr program => Some [program]
  | VList l =>
      for_each (fun acc x => match x with
                             | VStr s => Some (acc ++ [s])
                             | _ => None
                             end) l []
  | VDict d => Some (PyDict.keys d)
  | _ => None
  end.

(** [PgLookout.execute_external_command]: the return code, with the event
    of the command.  An empty argument list raises ([args[0]]) before a
    process is started. *)
Definition execute_external_command (w : world) (command : value)
  : list event * option Z :=
  match argv_of command with
  | Some [] => ([], None)
  | Some argv => ([ExecuteExternalCommand argv], command_result w argv)
  | None => ([], None)
  end.

Definition set_current_master (m : option string) (self : PgLookout)
  : PgLookout :=
  {| config := config self;
     own_db := own_db self;
     current_master := m;
     connected_master_nodes := connected_master_nodes self;
     disconnected_master_nodes := disconnected_master_nodes self;
     connected_observer_nodes := connected_observer_nodes self;
     disconnected_observer_nodes := disconnected_observer_nodes self;
     never_promote_these_nodes := never_promote_these_nodes self;
     failover_command := failover_command self;
     over_warning_limit_command := over_warning_limit_command self;
     replication_lag_warning_boundary := replication_lag_warning_boundary self;
     replication_lag_failover_timeout := replication_lag_failover_timeout self;
     replication_lag_over_warning_limit := replication_lag_over_warning_limit self;
     cluster_nodes_change_time := cluster_nodes_change_time self;
     primary_conninfo_template := primary_conninfo_template self;
     cluster_monitor_config := cluster_monitor_config self |}.

(** Truth value of a name that may be [None]: [if self.own_db:] *)
Definition name_truthy (n : option string) : bool :=
  match n with
  | Some s => negb (String.eqb s "")
  | None => false
  end.

(** [a == b] on two names that may be [None] *)
Definition name_eqb (a b : option string) : bool :=
  match a, b with
  | Some x, Some y => String.eqb x y
  | None, None => true
  | _, _ => false
  end.

(** The first [if]/[elif] of [check_replication_lag]: the over-warning
    flag follows the lag across the warning boundary, with the alert file
    and the command of the way up. *)
Definition update_lag_warning (self : PgLookout) (w : world)
  (replication_lag : Q) : list event * option PgLookout :=
  if Qle_bool (replication_lag_warning_boundary self) replication_lag then
    if negb (replication_lag_over_warning_limit self) then
      let self := set_over_warning_limit true self in
      if truthy (over_warning_limit_command self) then
        and_then
          (and_then ([CreateAlertFile "replication_delay_warning"], Some tt)
             (fun _ => execute_external_command w
                         (over_warning_limit_command self)))
          (fun _ => ([], Some self))
      else ([CreateAlertFile "replication_delay_warning"], Some self)
    else ([], Some self)
  else if replication_lag_over_warning_limit self then
    ([DeleteAlertFile "replication_delay_warning"],
     Some (set_over_warning_limit false self))
  else ([], Some self).

Section Supervisor.

Variable parse_iso_datetime : string -> option datetime.
Variable get_iso_timestamp : datetime -> string.
Variable convert_xlog_location_to_offset : string -> option Z.

(** [PgLookout.start_following_new_master], taken as given here: the
    events of the call and whether it returns; it is modelled further
    down. *)
Variable start_following_new_master :
  PgLookout -> string -> list event * option unit.

(** *** [PgLookout.check_replication_lag] *)

Definition check_replication_lag (self : PgLookout) (w : world)
  (own_state : option record) (standby_nodes : dict record)
  : list event * option PgLookout :=
  match own_state with
  | None => ([], None)
  | Some own =>
      let replication_lag := get_or_None "replication_time_lag" own in
      if negb (truthy replication_lag) then ([], Some self)
      else
        match num_of replication_lag with
        | None => ([], None)
        | Some lag =>
            and_then (update_lag_warning self w lag)
              (fun self =>
                 if Qle_bool (replication_lag_failover_timeout self) lag
                 then do_failover_decision parse_iso_datetime
                        get_iso_timestamp convert_xlog_location_to_offset
                        self w own_state standby_nodes
                 else ([], Some self))
        end
  end.

(** *** [PgLookout.consider_failover] *)

(** [time] is the reading of [time.time()]. *)
Definition consider_failover (self : PgLookout) (w : world) (time : Q)
  (own_state : option record) (master_node : option record)
  (standby_nodes : dict record) : list event * option PgLookout :=
  let decide :=
    do_failover_decision parse_iso_datetime get_iso_timestamp
      convert_xlog_location_to_offset self w own_state standby_nodes in
  let no_master :=
    match master_node with
    | Some r => negb (truthy (VDict r))
    | None => true
    end in
  if no_master then
    if name_truthy (current_master self) then decide
    else if Qle_bool (replication_lag_failover_timeout self)
              (time - cluster_nodes_change_time self)
    then decide
    else check_replication_lag self w own_state standby_nodes
  else check_replication_lag self w own_state standby_nodes.

(** *** [PgLookout.check_cluster_state] *)

(** [cluster_state] and [observer_state] are the deep copies taken at the
    start; [live_cluster_state] is [self.cluster_state] at the moment
    [own_state] is read from it, which the monitor may have changed in
    between. *)
Definition check_cluster_state (self : PgLookout) (w : world) (time : Q)
  (cluster_state observer_state live_cluster_state : dict record)
  : list event * option PgLookout :=
  match cluster_state with
  | [] => ([], Some self)
  | _ =>
      match create_node_map parse_iso_datetime get_iso_timestamp self
              cluster_state observer_state with
      | None => ([], None)
      | Some (self, events, (master_host, master_node, standby_nodes)) =>
          and_then
            (and_then (events, Some tt)
               (fun _ =>
                  if name_truthy master_host
                     && negb (name_eqb master_host (current_master self))
                  then
                    let self := set_current_master master_host self in
                    if name_truthy (own_db self)
                       && negb (name_eqb (own_db self) master_host)
                       && truthy (get_or_None "autofollow" (config self))
                    then
                      and_then
                        (start_following_new_master self
                           match master_host with Some h => h | None => "" end)
                        (fun _ => ([], Some self))
                    else ([], Some self)
                  else ([], Some self)))
            (fun self =>
               let own_state :=
                 match own_db self with
                 | Some o => PyDict.get o live_cluster_state
                 | None => None
                 end in
               if name_truthy (own_db self) then
                 if name_eqb (own_db self) (current_master self)
                 then ([], Some self)
                 else
                   match standby_nodes with
                   | [] => ([], Some self)
                   | _ => consider_failover self w time own_state
                            master_node standby_nodes
                   end
               else ([], Some self))
      end
  end.

End Supervisor.

(** The events that the handling of the warning boundary can cause: the
    alert file [replication_delay_warning], made or removed, and the
    over-warning command. *)
Definition lag_warning_event (self : PgLookout) (e : event) : Prop :=
  e = CreateAlertFile "replication_delay_warning"
  \/ e = DeleteAlertFile "replication_delay_warning"
  \/ exists argv, e = ExecuteExternalCommand argv
                  /\ argv_of (over_warning_limit_command self) = Some argv.

(** The master that [check_cluster_state] remembers after it has seen
    [master_host] in the node map. *)
Definition remembered_master (master_host : option string) (self : PgLookout)
  : option string :=
  if name_truthy master_host then master_host else current_master self.

(* ------------------------------------------------------------------ *)
(** ** Connection strings ([pgutil.py])

    A string is taken over the code points below 256, one [ascii] each. *)

Module Pgutil.

(** How a call ends: it returns, raises [ValueError], or raises something
    else.  [Unfinished] belongs to the model alone: the rounds given to a
    loop did not suffice. *)
Inductive outcome (A : Type) : Type :=
| Returns (a : A)
| ValueError
| OtherError
| Unfinished.

Arguments Returns {A} a.
Arguments ValueError {A}.
Arguments OtherError {A}.
Arguments Unfinished {A}.

(** The fields of a connection string, in the order they were first set. *)
Definition conninfo := PyDict.t string string.

(** [str.isspace] on one character: the whitespace that [strip()] and
    [split()] without a separator remove. *)
Definition is_space (c : ascii) : bool :=
  let n := nat_of_ascii c in
  (((9 <=? n) && (n <=? 13)) || ((28 <=? n) && (n <=? 32))
   || (n =? 133) || (n =? 160))%nat.

Fixpoint lstrip (s : string) : string :=
  match s with
  | EmptyString => EmptyString
  | String c s' => if is_space c then lstrip s' else s
  end.

Fixpoint rstrip (s : string) : string :=
  match s with
  | EmptyString => EmptyString
  | String c s' =>
      match rstrip s' with
      | EmptyString => if is_space c then EmptyString
                       else String c EmptyString
      | r => String c r
      end
  end.

(** [s.strip()] *)
Definition strip (s : string) : string := rstrip (lstrip s).

(** [s.split("=", 1)] when ["=" in s]: what stands before the first ["="]
    and what stands after it; [None] when there is no ["="]. *)
Fixpoint split_at_equals (s : string) : option (string * string) :=
  match s with
  | EmptyString => None
  | String c s' =>
      if Ascii.eqb c "="%char then Some (EmptyString, s')
      else match split_at_equals s' with
           | Some (key, rem) => Some (String c key, rem)
           | None => None
           end
  end.

(** The [for] loop over a quoted value, from [rem[i:]] on with the
    current [asis] and [value]: the value and [rem[i + 1:]] at the closing
    quote, [None] when the loop runs to its [else]. *)
Fixpoint quoted_value (rem : string) (asis : bool) (value : string)
  : option (string * string) :=
  match rem with
  | EmptyString => None
  | String c rest =>
      if asis then quoted_value rest false (value ++ String c EmptyString)
      else if Ascii.eqb c "'"%char then Some (value, rest)
      else if Ascii.eqb c "\"%char then quoted_value rest true value
      else quoted_value rest false (value ++ String c EmptyString)
  end.

(** A value as it is written between quotes: a backslash before every
    quote and every backslash. *)
Fixpoint escape (value : string) : string :=
  match value with
  | EmptyString => EmptyString
  | String c value' =>
      if Ascii.eqb c "'"%char || Ascii.eqb c "\"%char
      then String "\"%char (String c (escape value'))
      else String c (escape value')
  end.

(** The longest run of characters that are not whitespace at the start of
    [s], and what follows it. *)
Fixpoint token (s : string) : string * string :=
  match s with
  | EmptyString => (EmptyString, EmptyString)
  | String c s' =>
      if is_space c then (EmptyString, s)
      else let (t, r) := token s' in (String c t, r)
  end.

(** [s.split(None, 1)] *)
Definition split_once (s : string) : list string :=
  match lstrip s with
  | EmptyString => []
  | s1 =>
      let (t, r) := token s1 in
      match lstrip r with
      | EmptyString => [t]
      | r' => [t; r']
      end
  end.

(** *** [parse_connection_string_libpq] *)

(** [rem.startswith("'")] *)
Definition starts_with_quote (rem : string) : bool :=
  match rem with
  | String c _ => Ascii.eqb c "'"%char
  | EmptyString => false
  end.

(** [rem[1:]] *)
Definition tail (rem : string) : string :=
  match rem with
  | String _ rem' => rem'
  | EmptyString => EmptyString
  end.

(** The body of the loop up to [fields[key] = value], on the stripped
    string: [key], [value] and the [connection_string] left for the next
    round; [None] is one of the two [ValueError]s. *)
Definition parse_fragment (connection_string : string)
  : option (string * string * string) :=
  match split_at_equals connection_string with
  | None => None
  | Some (key, rem) =>
      if starts_with_quote rem then
        match quoted_value (tail rem) false "" with
        | None => None
        | Some (value, connection_string) =>
            Some (key, value, connection_string)
        end
      else
        match split_once rem with
        | [value; connection_string] => Some (key, value, connection_string)
        | _ => Some (key, rem, EmptyString)
        end
  end.

(** The [while True] loop, for at most [rounds] rounds. *)
Fixpoint parse_loop (rounds : nat) (fields : conninfo)
  (connection_string : string) : outcome conninfo :=
  match rounds with
  | O => Unfinished
  | S rounds =>
      let connection_string := strip connection_string in
      if String.eqb connection_string "" then Returns fields
      else
        match parse_fragment connection_string with
        | None => ValueError
        | Some (key, value, connection_string) =>
            parse_loop rounds (PyDict.set key value fields)
              connection_string
        end
  end.

(** The loop from the state [fields]; every round shortens the string, so
    one round more than it has characters is enough. *)
Definition parse_from (fields : conninfo) (connection_string : string)
  : outcome conninfo :=
  parse_loop (S (String.length connection_string)) fields connection_string.

Definition parse_connection_string_libpq (connection_string : string)
  : outcome conninfo :=
  parse_from [] connection_string.

(** Keywords and values written one after the other in the quoted form
    of the format, [key='value'] with the value escaped and a space after
    each. *)
Fixpoint quoted_fragments (pairs : list (string * string)) : string :=
  match pairs with
  | [] => EmptyString
  | (key, value) :: pairs =>
      (key ++ "='" ++ escape value ++ "' " ++ quoted_fragments pairs)%string
  end.

(** A keyword that the loop reads back as it is: no ["="] in it and no
    whitespace in front. *)
Definition plain_key (key : string) : Prop :=
  split_at_equals key = None /\ lstrip key = key.

(** *** [get_connection_info] *)

(** The dict of strings as a record. *)
Definition as_record (fields : conninfo) : record :=
  map (fun kv => (fst kv, VStr (snd kv))) fields.

Definition outcome_map {A B} (f : A -> B) (o : outcome A) : outcome B :=
  match o with
  | Returns a => Returns (f a)
  | ValueError => ValueError
  | OtherError => OtherError
  | Unfinished => Unfinished
  end.

Section ConnectionInfo.

(** [parse_connection_string_url], which rests on [urllib.parse], is
    taken as given. *)
Variable parse_connection_string_url : string -> outcome conninfo.

(** A dict is copied, a string is parsed; anything else has no
    [startswith]. *)
Definition get_connection_info (info : value) : outcome record :=
  match info with
  | VDict d => Returns d
  | VStr s =>
      if String.prefix "postgres://" s || String.prefix "postgresql://" s
      then outcome_map as_record (parse_connection_string_url s)
      else outcome_map as_record (parse_connection_string_libpq s)
  | _ => OtherError
  end.

(** [s[1:-1]] *)
Fixpoint without_last (s : string) : string :=
  match s with
  | EmptyString => EmptyString
  | String c EmptyString => EmptyString
  | String c s' => String c (without_last s')
  end.

Definition slice_1_m1 (s : string) : string :=
  match s with
  | EmptyString => EmptyString
  | String _ s' => without_last s'
  end.

(** [s.replace("''", "'")]: from the left, each pair of quotes becomes
    one. *)
Fixpoint replace_two_quotes (s : string) : string :=
  match s with
  | EmptyString => EmptyString
  | String c s' =>
      match s' with
      | String c' s'' =>
          if Ascii.eqb c "'"%char && Ascii.eqb c' "'"%char
          then String "'"%char (replace_two_quotes s'')
          else String c (replace_two_quotes s')
      | EmptyString => s
      end
  end.

(** A string with every quote written twice, as it stands between the
    quotes of a configuration line. *)
Fixpoint double_quotes (s : string) : string :=
  match s with
  | EmptyString => EmptyString
  | String c s' =>
      if Ascii.eqb c "'"%char
      then String "'"%char (String "'"%char (double_quotes s'))
      else String c (double_quotes s')
  end.

(** [get_connection_info_from_config_line]: the unpacking of
    [line.split("=", 1)] raises [ValueError] when the line has no ["="]. *)
Definition get_connection_info_from_config_line (line : string)
  : outcome record :=
  match split_at_equals line with
  | None => ValueError
  | Some (_, value) =>
      get_connection_info
        (VStr (replace_two_quotes (slice_1_m1 (strip value))))
  end.

End ConnectionInfo.

End Pgutil.

(* ------------------------------------------------------------------ *)
(** ** Following a new master *)

(** [s.split()]: the runs of characters that are not whitespace;
    [current] is the run being read. *)
Fixpoint split_whitespace (s current : string) : list string :=
  match s with
  | EmptyString =>
      match current with EmptyString => [] | _ => [current] end
  | String c s' =>
      if Pgutil.is_space c then
        match current with
        | EmptyString => split_whitespace s' EmptyString
        | _ => current :: split_whitespace s' EmptyString
        end
      else split_whitespace s' (current ++ String c EmptyString)
  end.

(** The three variables of the loop over the lines of [recovery.conf]. *)
Record conf_scan : Type := {
  has_recovery_target_timeline : bool;
  new_conf : list string;
  old_conn_info : option record
}.

(** What [start_following_new_master] leaves behind: the commands run,
    the lines written to [recovery.conf] ([None] when the file is not
    touched) and whether the call returns rather than raises. *)
Record following : Type := {
  follow_events : list event;
  recovery_conf : option (list string);
  follow_returns : bool
}.

Definition is_primary_conninfo (line : string) : bool :=
  String.prefix "primary_conninfo" line.

Definition is_recovery_target_timeline (line : string) : bool :=
  String.prefix "recovery_target_timeline" line.

Section Follow.

Variable get_iso_timestamp : datetime -> string.

(** [common.get_connection_info_from_config_line], taken as given. *)
Variable get_connection_info_from_config_line :
  string -> Pgutil.outcome record.

(** ["{0}".format(adapt(create_connection_string(info)))], which rests on
    [psycopg2]; [None] when it raises. *)
Variable adapted_connection_string : record -> option string.

(** Body of the loop over [old_conf]. *)
Definition scan_line (st : conf_scan) (line : string) : option conf_scan :=
  let has_recovery_target_timeline :=
    if is_recovery_target_timeline line then true
    else has_recovery_target_timeline st in
  if is_primary_conninfo line then
    match get_connection_info_from_config_line line with
    | Pgutil.Returns info =>
        Some {| has_recovery_target_timeline := has_recovery_target_timeline;
                new_conf := new_conf st;
                old_conn_info := Some info |}
    | Pgutil.ValueError =>
        Some {| has_recovery_target_timeline := has_recovery_target_timeline;
                new_conf := new_conf st;
                old_conn_info := old_conn_info st |}
    | _ => None
    end
  else
    Some {| has_recovery_target_timeline := has_recovery_target_timeline;
            new_conf := new_conf st ++ [line];
            old_conn_info := old_conn_info st |}.

(** *** [PgLookout.modify_recovery_conf_to_point_at_new_master_host] *)

(** [old_conf] is the lines read from [recovery.conf], [now] the reading
    of the clock for the tag.  [None] when the call raises, [Some None]
    when it returns [False] and writes nothing, [Some (Some lines)] when
    it writes [lines] and returns [True]. *)
Definition modify_recovery_conf_to_point_at_new_master_host
  (self : PgLookout) (now : datetime) (old_conf : list string)
  (new_master_host : string) : option (option (list string)) :=
  match PyDict.get "pg_data_directory" (config self) with
  | Some (VStr _) =>
      st <- for_each scan_line old_conf
              {| has_recovery_target_timeline := false;
                 new_conf := [];
                 old_conn_info := None |} ;;
      template <- primary_conninfo_template self ;;
      let new_conn_info := PyDict.set "host" (VStr new_master_host) template in
      if match old_conn_info st with
         | Some old => record_eqb new_conn_info old
         | None => false
         end && has_recovery_target_timeline st
      then Some None
      else
        adapted <- adapted_connection_string new_conn_info ;;
        let lines := new_conf st ++ [("primary_conninfo = " ++ adapted)%string] in
        let lines :=
          if has_recovery_target_timeline st then lines
          else lines ++ ["recovery_target_timeline = 'latest'"%string] in
        Some (Some (("# pglookout updated primary_conninfo for host "
                     ++ new_master_host ++ " at "
                     ++ get_iso_timestamp now)%string :: lines))
  | _ => None
  end.

(** *** [PgLookout.start_following_new_master] *)

(** [config.get(key, "").split()] *)
Definition command_of (key : string) (self : PgLookout)
  : option (list string) :=
  match get_default key (VStr "") (config self) with
  | VStr s => Some (split_whitespace s "")
  | _ => None
  end.

Definition start_following_new_master (self : PgLookout) (w : world)
  (now : datetime) (old_conf : list string) (new_master_host : string)
  : following :=
  match modify_recovery_conf_to_point_at_new_master_host self now old_conf
          new_master_host with
  | None =>
      {| follow_events := []; recovery_conf := None; follow_returns := false |}
  | Some None =>
      {| follow_events := []; recovery_conf := None; follow_returns := true |}
  | Some (Some lines) =>
      match command_of "pg_start_command" self,
            command_of "pg_stop_command" self with
      | Some start_command, Some stop_command =>
          let commands :=
            and_then
              (execute_external_command w (VList (map VStr stop_command)))
              (fun _ =>
                 execute_external_command w (VList (map VStr start_command))) in
          {| follow_events := fst commands;
             recovery_conf := Some lines;
             follow_returns :=
               match snd commands with Some _ => true | None => false end |}
      | _, _ =>
          {| follow_events := []; recovery_conf := Some lines;
             follow_returns := false |}
      end
  end.

End Follow.

(* ------------------------------------------------------------------ *)
(** ** Worked daemons

    Daemons and worlds for the worked instances of the properties
    below, on the clusters of [Cluster]. *)

Module Worked.

(** The daemon of node [own], started with [Cluster.config_for own] and
    the further keys [more]. *)
Definition started_with (own : string) (more : record) : PgLookout :=
  fst (Cluster.load_config Cluster.created 0
         (Some (Cluster.config_for own ++ more))).

(** A standby that must never be promoted, after the node map of a cluster
    whose master is lost. *)
Definition shy : PgLookout :=
  fst (Cluster.node_map
         (started_with "s" [("never_promote_these_nodes", VList [VStr "s"])])
         Cluster.one_standby []).

(** [Cluster.quiet] with the maintenance-mode file in place. *)
Definition maintenance : world :=
  {| utcnow_default := utcnow_default Cluster.quiet;
     utcnow_or := utcnow_or Cluster.quiet;
     utcnow_contact := utcnow_contact Cluster.quiet;
     utcnow_position := utcnow_position Cluster.quiet;
     path_exists := fun _ => true;
     command_result := command_result Cluster.quiet |}.

(** A master that was a standby until its promotion. *)
Definition promoted_row : status_row :=
  {| db_time := Cluster.now;
     pg_is_in_recovery := false;
     pg_last_xact_replay_timestamp := Some (Cluster.now - Cluster.seconds 100);
     pg_last_xlog_receive_location := Some "1/2";
     pg_last_xlog_replay_location := Some "1/3";
     replication_slots := None |}.

(** The record of [host] in a dict of records. *)
Definition record_of (host : string) (nodes : dict record) : record :=
  match PyDict.get host nodes with
  | Some r => r
  | None => []
  end.

(** A master that answers and a standby that is 40 seconds behind. *)
Definition lagging : dict record :=
  Cluster.cluster_after
    [("m", Cluster.now, Some (Cluster.master_row Cluster.now));
     ("s", Cluster.now,
      Some (Cluster.standby_row Cluster.now
              (Cluster.now - Cluster.seconds 40) "1/2"))].

Definition lagging_map := Cluster.node_map (Cluster.running "s") lagging [].

Definition consider_failover :=
  consider_failover Common.parse_iso_datetime Common.get_iso_timestamp
    Common.convert_xlog_location_to_offset.

(** [check_cluster_state] of a daemon that is not set to follow a new
    master by itself. *)
Definition check_cluster_state :=
  check_cluster_state Common.parse_iso_datetime Common.get_iso_timestamp
    Common.convert_xlog_location_to_offset
    (fun _ _ => ([], Some tt)).

(** Connection strings without the URL form. *)
Definition get_connection_info_from_config_line :=
  Pgutil.get_connection_info_from_config_line (fun _ => Pgutil.OtherError).

(** A value that [make_dsn] writes as it is: not empty and free of
    whitespace, quotes and backslashes. *)
Fixpoint needs_no_quoting (value : string) : bool :=
  match value with
  | EmptyString => true
  | String c value' =>
      negb (Pgutil.is_space c || Ascii.eqb c "'"%char || Ascii.eqb c "\"%char)
      && needs_no_quoting value'
  end.

(** [" ".join(fragments)] *)
Fixpoint join_with_blanks (fragments : list string) : string :=
  match fragments with
  | [] => EmptyString
  | [fragment] => fragment
  | fragment :: fragments =>
      (fragment ++ " " ++ join_with_blanks fragments)%string
  end.

(** A stand-in for [adapt(create_connection_string(info))] on the
    connection infos of the worked instances, whose values are strings
    that need no quoting: the fragments [key=value] with a blank between
    them, the whole between quotes.  Other infos are not covered and give
    [None]. *)
Definition adapted_connection_string (info : record) : option string :=
  fragments <- for_each
                 (fun acc kv =>
                    match snd kv with
                    | VStr v =>
                        if needs_no_quoting v && negb (String.eqb v "")
                        then Some (acc ++ [(fst kv ++ "=" ++ v)%string])
                        else None
                    | _ => None
                    end) info [] ;;
  Some ("'" ++ join_with_blanks fragments ++ "'")%string.

Definition modify_recovery_conf_to_point_at_new_master_host :=
  modify_recovery_conf_to_point_at_new_master_host Common.get_iso_timestamp
    get_connection_info_from_config_line adapted_connection_string.

Definition start_following_new_master :=
  start_following_new_master Common.get_iso_timestamp
    get_connection_info_from_config_line adapted_connection_string.

(** A standby that is set to follow a new master. *)
Definition follower : PgLookout :=
  started_with "s"
    [("autofollow", VBool true);
     ("primary_conninfo_template", VDict [("user", VStr "replication")]);
     ("pg_data_directory", VStr "/var/lib/pgsql/data");
     ("pg_stop_command", VStr "pg_ctl stop");
     ("pg_start_command", VStr "pg_ctl start")].

(** Its [recovery.conf], pointing at the master ["old"]. *)
Definition old_conf : list string :=
  ["standby_mode = 'on'"%string;
   "primary_conninfo = 'user=replication host=old'"%string].

(** A cluster whose master never answered a probe, and a standby. *)
Definition never_probed : dict record :=
  Cluster.cluster_after
    [("m", Cluster.now, None);
     ("s", Cluster.now,
      Some (Cluster.standby_row Cluster.now
              (Cluster.now - Cluster.seconds 130) "1/2"))].





End Worked.

(* ================================================================== *)
(** * Properties *)

(** ** Dictionaries *)

Lemma key_eqb_refl {K} `{KeyEq K} (a : K) : key_eqb a a = true.
Proof. now apply key_eqb_spec. Qed.

Lemma key_eqb_neq {K} `{KeyEq K} (a b : K) : a <> b -> key_eqb a b = false.
Proof.
  intros Hab. destruct (key_eqb a b) eqn:E; [|reflexivity].
  apply key_eqb_spec in E. contradiction.
Qed.

Lemma get_set {K V} `{KeyEq K} (k k' : K) (v : V) (d : PyDict.t K V) :
  PyDict.get k (PyDict.set k' v d)
  = if key_eqb k k' then Some v else PyDict.get k d.
Proof.
  induction d as [|[k0 v0] d IH]; simpl.
  - reflexivity.
  - destruct (key_eqb k' k0) eqn:E'; simpl.
    + apply key_eqb_spec in E'. subst k0.
      destruct (key_eqb k k'); reflexivity.
    + rewrite IH. destruct (key_eqb k k0) eqn:E0; [|reflexivity].
      apply key_eqb_spec in E0. subst k0.
      destruct (key_eqb k k') eqn:E1; [|reflexivity].
      apply key_eqb_spec in E1. subst k'.
      rewrite key_eqb_refl in E'. discriminate.
Qed.

Lemma get_set_same {K V} `{KeyEq K} (k : K) (v : V) (d : PyDict.t K V) :
  PyDict.get k (PyDict.set k v d) = Some v.
Proof. rewrite get_set, key_eqb_refl. reflexivity. Qed.

Lemma get_set_other {K V} `{KeyEq K} (k k' : K) (v : V) (d : PyDict.t K V) :
  k <> k' -> PyDict.get k (PyDict.set k' v d) = PyDict.get k d.
Proof. intros Hk. rewrite get_set, (key_eqb_neq Hk). reflexivity. Qed.

Lemma get_In {K V} `{KeyEq K} (k : K) (v : V) (d : PyDict.t K V) :
  PyDict.get k d = Some v -> In (k, v) d.
Proof.
  induction d as [|[k0 v0] d IH]; simpl; [discriminate|].
  destruct (key_eqb k k0) eqn:E.
  - apply key_eqb_spec in E. intros [= ->]. subst. now left.
  - intros Hg. right. now apply IH.
Qed.

Lemma get_In_keys {K V} `{KeyEq K} (k : K) (v : V) (d : PyDict.t K V) :
  PyDict.get k d = Some v -> In k (PyDict.keys d).
Proof.
  intros Hg. apply get_In in Hg. unfold PyDict.keys.
  change k with (fst (k, v)). now apply in_map.
Qed.

Lemma In_keys_get {K V} `{KeyEq K} (k : K) (d : PyDict.t K V) :
  In k (PyDict.keys d) -> exists v, PyDict.get k d = Some v.
Proof.
  induction d as [|[k0 v0] d IH]; simpl; [contradiction|].
  intros [->|Hin].
  - rewrite key_eqb_refl. eauto.
  - destruct (key_eqb k k0); eauto.
Qed.

(** ** Loops *)

Lemma for_each_invariant {A S} (P : S -> Prop) (body : S -> A -> option S)
  (l : list A) (acc r : S) :
  P acc ->
  (forall s a s', P s -> body s a = Some s' -> P s') ->
  for_each body l acc = Some r -> P r.
Proof.
  intros Hacc Hstep. revert acc Hacc.
  induction l as [|a l IH]; simpl; intros acc Hacc.
  - intros [= <-]. exact Hacc.
  - destruct (body acc a) as [acc'|] eqn:E; simpl; [|discriminate].
    apply IH. eapply Hstep; eauto.
Qed.

Lemma for_each_invariant_In {A S} (P : S -> Prop) (body : S -> A -> option S)
  (l : list A) (acc r : S) :
  P acc ->
  (forall s a s', In a l -> P s -> body s a = Some s' -> P s') ->
  for_each body l acc = Some r -> P r.
Proof.
  revert acc. induction l as [|a l IH]; simpl; intros acc Hacc Hstep.
  - intros [= <-]. exact Hacc.
  - destruct (body acc a) as [acc'|] eqn:E; simpl; [|discriminate].
    apply IH.
    + eapply Hstep; eauto.
    + intros s a0 s' Hin. apply Hstep. now right.
Qed.

(** ** Numbers *)

Lemma Qltb_lt (a b : Q) : Qltb a b = true <-> (a < b)%Q.
Proof.
  unfold Qltb. rewrite negb_true_iff. split.
  - intros Hf. apply Qnot_le_lt. intros Hle.
    apply Qle_bool_iff in Hle. congruence.
  - intros Hlt. destruct (Qle_bool b a) eqn:E; [|reflexivity].
    apply Qle_bool_iff in E. exfalso. now apply (Qlt_not_le a b).
Qed.

Lemma Qltb_ge (a b : Q) : Qltb a b = false <-> (b <= a)%Q.
Proof.
  unfold Qltb. rewrite negb_false_iff. apply Qle_bool_iff.
Qed.

(** ** The failover decision *)

Section DecisionProperties.

Variable parse_iso_datetime : string -> option datetime.
Variable get_iso_timestamp : datetime -> string.
Variable convert_xlog_location_to_offset : string -> option Z.

Local Abbreviation decide :=
  (do_failover_decision parse_iso_datetime get_iso_timestamp
     convert_xlog_location_to_offset).
Local Abbreviation contact_check :=
  (_have_we_been_in_contact_with_the_master_within_the_failover_timeout
     parse_iso_datetime get_iso_timestamp).
Local Abbreviation gates :=
  (gates_pass parse_iso_datetime get_iso_timestamp
     convert_xlog_location_to_offset).
Local Abbreviation replication_positions :=
  (get_replication_positions parse_iso_datetime
     convert_xlog_location_to_offset).

Lemma run_failover_invokes (self : PgLookout) (w : world) :
  invokes_command (fst (run_failover self w)) = true.
Proof.
  unfold run_failover.
  destruct (command_result w (failover_command self)) as [rc|]; [|reflexivity].
  destruct (num_of _) as [q|]; [|reflexivity].
  destruct (Qltb q 0); [reflexivity|].
  destruct (rc =? 0); reflexivity.
Qed.

(** Past the gates only the quorum test is left. *)
Lemma decision_after_gates self w own_state standby_nodes p host :
  gates self w own_state standby_nodes p host ->
  decide self w own_state standby_nodes
  = if Qltb (inject_Z (size_of_known_state self p))
            (size_of_needed_majority self standby_nodes)
    then ([], Some self)
    else run_failover self w.
Proof.
  intros [Hc Hcontact Hp Hne Hf [st [Hst Heq]] Hm Hn].
  unfold do_failover_decision.
  assert (Hlen : (0 <? PyDict.len (connected_master_nodes self)) = false)
    by (apply Z.ltb_ge; exact Hc).
  rewrite Hlen, Hcontact, Hp.
  destruct p as [|kv p']; [contradiction|].
  rewrite Hf, Hst, Heq, Hm, Hn. reflexivity.
Qed.

(** A command is run only when every gate has been passed. *)
Lemma decision_invokes_only_after_gates self w own_state standby_nodes :
  invokes_command (fst (decide self w own_state standby_nodes)) = true ->
  exists p host,
    gates self w own_state standby_nodes p host
    /\ Qltb (inject_Z (size_of_known_state self p))
            (size_of_needed_majority self standby_nodes) = false.
Proof.
  unfold do_failover_decision.
  destruct (0 <? PyDict.len (connected_master_nodes self)) eqn:Hlen;
    [discriminate|].
  destruct (contact_check self w) as [[|]|] eqn:Hcontact; try discriminate.
  destruct (replication_positions self w standby_nodes) as [p|] eqn:Hp;
    [|discriminate].
  destruct p as [|kv p'] eqn:Ep; [discriminate|]. rewrite <- Ep in *.
  assert (Hne : p <> []) by (rewrite Ep; discriminate).
  replace (match p with [] => ([], Some self) | _ :: _ => _ end)
    with (match furthest_along p with
          | Some furthest_along_host =>
              match PyDict.get furthest_along_host standby_nodes with
              | Some furthest_state =>
                  if record_eq_opt furthest_state own_state
                  then
                    match check_for_maintenance_mode_file self w with
                    | Some true => ([], Some self)
                    | Some false =>
                        if match own_db self with
                           | Some o => name_in o (never_promote_these_nodes self)
                           | None => false
                           end
                        then ([], Some self)
                        else
                          if Qltb (inject_Z (size_of_known_state self p))
                               (size_of_needed_majority self standby_nodes)
                          then ([], Some self)
                          else run_failover self w
                    | None => ([], None)
                    end
                  else ([], Some self)
              | None => ([], None)
              end
          | None => ([], None)
          end : list event * option PgLookout)
    by (rewrite Ep; reflexivity).
  destruct (furthest_along p) as [host|] eqn:Hf; [|discriminate].
  destruct (PyDict.get host standby_nodes) as [st|] eqn:Hst; [|discriminate].
  destruct (record_eq_opt st own_state) eqn:Heq; [|discriminate].
  destruct (check_for_maintenance_mode_file self w) as [[|]|] eqn:Hm;
    try discriminate.
  destruct (match own_db self with Some o => _ | None => false end) eqn:Hn;
    [discriminate|].
  destruct (Qltb _ _) eqn:Hq; [discriminate|].
  intros _. exists p, host. split; [|exact Hq].
  constructor; auto.
  - apply Z.ltb_ge. exact Hlen.
  - eauto.
Qed.

(** The contact check stops the decision. *)
Lemma contact_check_stops :
  forall (self : PgLookout) (w : world) (own_state : option record)
         (standby_nodes : dict record) host first rest contact,
    disconnected_master_nodes self = (host, first) :: rest ->
    parse_time parse_iso_datetime (contact_db_time get_iso_timestamp w first)
    = Some contact ->
    utcnow_contact w - contact
    < timedelta_seconds (replication_lag_failover_timeout self) ->
    decide self w own_state standby_nodes = ([], Some self).
Proof.
  intros self w own_state standby_nodes host first rest contact Hd Hparse Hlt.
  unfold do_failover_decision.
  destruct (0 <? PyDict.len (connected_master_nodes self)); [reflexivity|].
  unfold _have_we_been_in_contact_with_the_master_within_the_failover_timeout.
  rewrite Hd. cbn [PyDict.values map snd].
  replace (0 <? PyDict.len ((host, first) :: rest)) with true
    by (symmetry; apply Z.ltb_lt; unfold PyDict.len; cbn [List.length]; lia).
  rewrite Hparse. cbn [bind].
  apply Z.ltb_lt in Hlt. rewrite Hlt. reflexivity.
Qed.

(** C2 (as amended).  [do_failover_decision] returns at once, without any
    event and so without running the failover command, when at least one
    connected master exists; it does the same when the first disconnected
    master, in the insertion order of the node map, has a [db_time] less
    than [max_failover_replication_time_lag] seconds before the reading of
    the clock.  Only that first entry is looked at. *)
Theorem C2_master_presence_gate :
  forall (self : PgLookout) (w : world) (own_state : option record)
         (standby_nodes : dict record),
    (0 < PyDict.len (connected_master_nodes self)
     \/ exists host first rest contact,
          disconnected_master_nodes self = (host, first) :: rest
          /\ parse_time parse_iso_datetime (contact_db_time get_iso_timestamp w first)
             = Some contact
          /\ utcnow_contact w - contact
             < timedelta_seconds (replication_lag_failover_timeout self)) ->
    decide self w own_state standby_nodes = ([], Some self).
Proof.
  intros self w own_state standby_nodes [Hconn | (host & first & rest & contact & Hd & Hparse & Hlt)].
  - unfold do_failover_decision.
    apply Z.ltb_lt in Hconn. rewrite Hconn. reflexivity.
  - eapply contact_check_stops; eauto.
Qed.

(** C3 (as amended).  With [total = |standbys| + 1 - |never_promote| +
    |connected observers| + |disconnected observers|] and [known = (number
    of standbys with a recorded replication position) + |connected
    observers|]: whenever [known < total/2] no command is run; and once the
    earlier gates are passed, [known >= total/2], in particular [known]
    exactly half of [total], lets the decision go on to the failover
    command. *)
Theorem C3_quorum_gate :
  forall (self : PgLookout) (w : world) (own_state : option record)
         (standby_nodes : dict record) (p : positions),
    replication_positions self w standby_nodes = Some p ->
    ((inject_Z (size_of_known_state self p)
      < size_of_needed_majority self standby_nodes)%Q ->
     invokes_command (fst (decide self w own_state standby_nodes)) = false)
    /\ (forall host,
          gates self w own_state standby_nodes p host ->
          (size_of_needed_majority self standby_nodes
           <= inject_Z (size_of_known_state self p))%Q ->
          decide self w own_state standby_nodes = run_failover self w
          /\ invokes_command (fst (decide self w own_state standby_nodes))
             = true).
Proof.
  intros self w own_state standby_nodes p Hp. split.
  - intros Hlt.
    destruct (invokes_command (fst (decide self w own_state standby_nodes)))
      eqn:Hinv; [|reflexivity].
    apply decision_invokes_only_after_gates in Hinv.
    destruct Hinv as (p' & host & Hg & Hq).
    pose proof (gate_positions Hg) as Hp'. rewrite Hp in Hp'.
    injection Hp' as <-.
    apply Qltb_lt in Hlt. congruence.
  - intros host Hg Hge.
    rewrite (decision_after_gates Hg).
    apply Qltb_ge in Hge. rewrite Hge.
    split; [reflexivity | apply run_failover_invokes].
Qed.


End DecisionProperties.

(** ** The node map *)

(** What [merge_observed] does with a peer that an observer reports as a
    master, when the report is not older than the own record and the peer
    is not the own node. *)
Lemma merge_observed_master :
  forall parse_iso_datetime get_iso_timestamp
         (own : option string) (cluster_state : dict record) (a : node_sets)
         (host : string) (local db_state : record)
         (own_fetch_time observer_fetch_time : datetime) (in_recovery : value),
    PyDict.get host cluster_state = Some local ->
    fetch_time_of parse_iso_datetime local = Some own_fetch_time ->
    fetch_time_of parse_iso_datetime db_state = Some observer_fetch_time ->
    PyDict.get "pg_is_in_recovery" db_state = Some in_recovery ->
    truthy in_recovery = false ->
    own_fetch_time <= observer_fetch_time ->
    is_own_db host own = false ->
    merge_observed parse_iso_datetime get_iso_timestamp own cluster_state a
      (host, VDict db_state)
    = Some
        (let a' := with_master_node (Some (connected_master_entry host a)) a in
         if entry_connected (connected_master_entry host a)
         then with_connected_master host db_state a'
         else with_disconnected_master host db_state a').
Proof.
  intros parse get own cs a host local db own_t obs_t in_rec
    Hlocal Hown Hobs Hrec Hfalsy Hle Hnot_own.
  unfold merge_observed, PyDict.contains.
  rewrite Hlocal. cbn [negb].
  rewrite Hown. cbn [bind]. rewrite Hobs. cbn [bind].
  rewrite Hrec, Hfalsy, Hnot_own.
  apply Z.leb_le in Hle. rewrite Hle. cbn [andb negb].
  destruct (entry_connected (connected_master_entry host a)); reflexivity.
Qed.

Lemma contains_set {K V} `{KeyEq K} (h k : K) (v : V) (d : PyDict.t K V) :
  PyDict.contains h (PyDict.set k v d)
  = (key_eqb h k || PyDict.contains h d)%bool.
Proof.
  unfold PyDict.contains. rewrite get_set.
  destruct (key_eqb h k); reflexivity.
Qed.

(** An entry that counts as connected is an entry that is there. *)
Lemma entry_connected_contains (host : string) (a : node_sets) :
  entry_connected (connected_master_entry host a) = true ->
  PyDict.contains host (ns_connected_master_nodes a) = true.
Proof.
  unfold entry_connected, connected_master_entry, PyDict.contains.
  destruct (PyDict.get host (ns_connected_master_nodes a)); [reflexivity|].
  discriminate.
Qed.

(** What an observer reports never changes which peers are connected
    masters. *)
Lemma merge_observed_connected_keys :
  forall parse_iso_datetime get_iso_timestamp
         (own : option string) (cluster_state : dict record)
         (a a' : node_sets) (item : string * value),
    merge_observed parse_iso_datetime get_iso_timestamp own cluster_state a item
    = Some a' ->
    forall h, PyDict.contains h (ns_connected_master_nodes a')
              = PyDict.contains h (ns_connected_master_nodes a).
Proof.
  intros parse get own cs a a' [host v]. unfold merge_observed.
  destruct (negb (PyDict.contains host cs)); [intros [= <-]; reflexivity|].
  destruct v as [| | | | |db]; try (intros [= <-]; reflexivity).
  destruct (fetch_time_of parse _) as [own_t|]; [|discriminate].
  cbn [bind].
  destruct (fetch_time_of parse db) as [obs_t|]; [|discriminate].
  cbn [bind].
  destruct (PyDict.get "pg_is_in_recovery" db) as [in_rec|];
    [|intros [= <-]; reflexivity].
  destruct (truthy in_rec).
  - destruct (_ && _); [|intros [= <-]; reflexivity].
    destruct (PyDict.get "connection" _) as [c|]; [|discriminate].
    cbn [bind]. destruct (is_False c); intros [= <-]; reflexivity.
  - destruct (_ && _); [|intros [= <-]; reflexivity].
    destruct (entry_connected (connected_master_entry host a)) eqn:E;
      intros [= <-] h; cbn; [|reflexivity].
    rewrite contains_set.
    destruct (key_eqb h host) eqn:Eh; [|reflexivity].
    apply key_eqb_spec in Eh. subst h. cbn.
    symmetry. now apply entry_connected_contains.
Qed.

Lemma merge_observer_connected_keys :
  forall parse_iso_datetime get_iso_timestamp
         (own : option string) (cluster_state : dict record)
         (a a' : node_sets) (item : string * record),
    merge_observer parse_iso_datetime get_iso_timestamp own cluster_state a item
    = Some a' ->
    forall h, PyDict.contains h (ns_connected_master_nodes a')
              = PyDict.contains h (ns_connected_master_nodes a).
Proof.
  intros parse get own cs a a' [name state]. unfold merge_observer.
  set (a0 := with_observer _ _ _ a).
  change (ns_connected_master_nodes a) with (ns_connected_master_nodes a0).
  generalize a0. clear a0. intros a0 Hfe.
  refine (@for_each_invariant _ _
            (fun x => forall h,
                 PyDict.contains h (ns_connected_master_nodes x)
                 = PyDict.contains h (ns_connected_master_nodes a0))
            _ _ _ _ _ _ Hfe).
  - reflexivity.
  - intros s item s' Hs Hbody h.
    rewrite (merge_observed_connected_keys _ _ _ _ _ _ Hbody). apply Hs.
Qed.

Lemma classify_local_connected (cluster_state : dict record) (a : node_sets) :
  for_each classify_local cluster_state empty_node_sets = Some a ->
  forall h, PyDict.contains h (ns_connected_master_nodes a) = true ->
            locally_connected_master cluster_state h.
Proof.
  refine (@for_each_invariant_In _ _
            (fun x => forall h,
                 PyDict.contains h (ns_connected_master_nodes x) = true ->
                 locally_connected_master cluster_state h)
            _ _ _ _ _ _).
  - intros h. discriminate.
  - intros s [host state] s' Hin Hs. unfold classify_local.
    destruct (PyDict.get "pg_is_in_recovery" state) as [in_rec|] eqn:Er;
      [|intros [= <-]; exact Hs].
    destruct (truthy in_rec) eqn:Et; [intros [= <-]; exact Hs|].
    destruct (PyDict.get "connection" state) as [c|] eqn:Ec; [|discriminate].
    cbn [bind]. destruct (truthy c) eqn:Etc; intros [= <-] h; cbn;
      [|apply Hs].
    rewrite contains_set. destruct (key_eqb h host) eqn:Eh; [|apply Hs].
    apply key_eqb_spec in Eh. subst h. intros _.
    exists state, in_rec, c. auto.
Qed.

(** C1 (as amended).  For a peer that an observer reports with
    [pg_is_in_recovery] false, with a fetch time not older than the own
    one, and that is not the own node: the observed record replaces the
    peer's entry among the connected masters when the node map already
    holds the peer there with a true [connection] (from the own probe or
    from an earlier observer), and otherwise goes to the disconnected
    masters; the [connection] field of the observed record itself is not
    read.  So after [create_node_map] the connected masters are peers that
    the own cluster state has with [pg_is_in_recovery] false and
    [connection] true, whatever the observers report. *)
Theorem C1_observed_master_placement :
  (forall parse_iso_datetime get_iso_timestamp
          (own : option string) (cluster_state : dict record) (a : node_sets)
          (host : string) (local db_state : record)
          (own_fetch_time observer_fetch_time : datetime) (in_recovery : value),
      PyDict.get host cluster_state = Some local ->
      fetch_time_of parse_iso_datetime local = Some own_fetch_time ->
      fetch_time_of parse_iso_datetime db_state = Some observer_fetch_time ->
      PyDict.get "pg_is_in_recovery" db_state = Some in_recovery ->
      truthy in_recovery = false ->
      own_fetch_time <= observer_fetch_time ->
      is_own_db host own = false ->
      exists a',
        merge_observed parse_iso_datetime get_iso_timestamp own cluster_state a
          (host, VDict db_state) = Some a'
        /\ if entry_connected (connected_master_entry host a)
           then PyDict.get host (ns_connected_master_nodes a') = Some db_state
                /\ ns_disconnected_master_nodes a'
                   = ns_disconnected_master_nodes a
           else PyDict.get host (ns_disconnected_master_nodes a') = Some db_state
                /\ ns_connected_master_nodes a' = ns_connected_master_nodes a)
  /\ (forall parse_iso_datetime get_iso_timestamp (self self' : PgLookout)
             (cluster_state observer_state : dict record)
             (events : list event)
             (returned : option string * option record * dict record),
         create_node_map parse_iso_datetime get_iso_timestamp self
           cluster_state observer_state = Some (self', events, returned) ->
         forall host,
           PyDict.contains host (connected_master_nodes self') = true ->
           locally_connected_master cluster_state host).
Proof.
  split.
  - intros parse get own cs a host local db own_t obs_t in_rec
      Hlocal Hown Hobs Hrec Hfalsy Hle Hnot_own.
    eexists. split.
    + eapply merge_observed_master; eauto.
    + cbv zeta.
      destruct (entry_connected (connected_master_entry host a)); cbn;
        (split; [apply get_set_same | reflexivity]).
  - intros parse get self self' cs os events returned.
    unfold create_node_map, collect_node_sets.
    destruct (for_each classify_local cs empty_node_sets) as [a0|] eqn:Hlocal;
      [|discriminate].
    cbn [bind].
    destruct (for_each (merge_observer parse get (own_db self) cs) os a0)
      as [a1|] eqn:Hobs; [|discriminate].
    cbn [bind]. destruct (pick_master a1) as [ev [mh mn]].
    intros [= <- _ _] host. cbn.
    assert (Hkeys : forall h,
               PyDict.contains h (ns_connected_master_nodes a1)
               = PyDict.contains h (ns_connected_master_nodes a0)).
    { refine (@for_each_invariant _ _
                (fun x => forall h,
                     PyDict.contains h (ns_connected_master_nodes x)
                     = PyDict.contains h (ns_connected_master_nodes a0))
                _ _ _ _ _ _ Hobs).
      - reflexivity.
      - intros s item s' Hs Hbody h.
        rewrite (merge_observer_connected_keys _ _ _ _ _ _ Hbody). apply Hs. }
    rewrite Hkeys. now apply classify_local_connected.
Qed.

(** ** Observers *)

Section ObserverProperties.

Variable parse_iso_datetime : string -> option datetime.
Variable get_iso_timestamp : datetime -> string.

Local Abbreviation fetch :=
  (_fetch_observer_state parse_iso_datetime get_iso_timestamp).

(** A response whose date is more than five seconds behind the own clock
    is dropped, provided its body can be read for the log line. *)
Lemma fetch_discards_observer_behind (now remote : datetime) (body : record) :
  parse_iso_datetime (get_iso_timestamp now) = Some now ->
  timedelta_seconds 5 < now - remote ->
  fetch now (HttpResponse (Some remote) (Some body)) = None.
Proof.
  intros Hparse Hlt. unfold _fetch_observer_state. rewrite Hparse.
  apply Z.ltb_lt in Hlt. rewrite Hlt. reflexivity.
Qed.

(** C5 (the code at fault).  A response whose date
    is more than five seconds ahead of the own clock is not dropped: its
    body is merged into the record that is returned. *)
Theorem C5_observer_ahead_is_merged :
  forall (now remote : datetime) (body : record),
    parse_iso_datetime (get_iso_timestamp now) = Some now ->
    timedelta_seconds 5 < remote - now ->
    fetch now (HttpResponse (Some remote) (Some body))
    = Some (PyDict.update
              [("fetch_time", VStr (get_iso_timestamp now));
               ("connection", VBool true)] body).
Proof.
  intros now remote body Hparse Hlt. unfold _fetch_observer_state.
  rewrite Hparse.
  assert (H5 : 0 <= timedelta_seconds 5) by (vm_compute; discriminate).
  replace (timedelta_seconds 5 <? now - remote) with false
    by (symmetry; apply Z.ltb_ge; lia).
  reflexivity.
Qed.

(** C6 (as amended).  When the response of an observer is dropped because
    its date is more than five seconds (ten, say) behind the own clock, and
    its body is readable, [fetch_observer_state] leaves the monitor as it
    was: a record stored before keeps the [connection] it had, and no
    record is made when there was none. *)
Theorem C6_discarded_response_keeps_state :
  forall (self : ClusterMonitor) (instance : string) (now remote : datetime)
         (body : record),
    parse_iso_datetime (get_iso_timestamp now) = Some now ->
    timedelta_seconds 5 < now - remote ->
    fetch_observer_state parse_iso_datetime get_iso_timestamp self instance now
      (HttpResponse (Some remote) (Some body)) = self.
Proof.
  intros self instance now remote body Hparse Hlt.
  unfold fetch_observer_state.
  rewrite (@fetch_discards_observer_behind now remote body Hparse Hlt). reflexivity.
Qed.

End ObserverProperties.

(** ** Loading the configuration *)


(** ** The worked clusters *)

(** C1, counterexample (scenario S4).  The own record of ["B"] is 60 s old
    with [connection] false; two observers report ["B"] now, with
    [connection] true and [pg_is_in_recovery] false; ["B"] is not the own
    node ["A"].  After [create_node_map], ["B"] is among the disconnected
    masters and not among the connected ones. *)
Lemma C1_counterexample_S4 :
  PyDict.get "B" Cluster.s4_cluster_state
  = Some [("fetch_time", VStr "2025-11-03T23:59:00Z");
          ("connection", VBool false)]
  /\ Cluster.observed Cluster.s4_observer_state "o1" "B"
     = Some (VStr "2025-11-04T00:00:00Z", VBool true, VBool false)
  /\ Cluster.observed Cluster.s4_observer_state "o2" "B"
     = Some (VStr "2025-11-04T00:00:00Z", VBool true, VBool false)
  /\ own_db (Cluster.running "A") = Some "A"
  /\ Cluster.masters (Cluster.running "A") Cluster.s4_cluster_state
       Cluster.s4_observer_state
     = ([], ["B"]).
Proof. vm_compute. repeat split; reflexivity. Qed.

(** C2, counterexample.  Two disconnected masters, no connected one; the
    first has a [db_time] an hour old, the second one of 11 s ago, well
    within the 120 s of [max_failover_replication_time_lag]; the decision
    runs the failover command all the same. *)
Lemma C2_counterexample_second_master_recent :
  Cluster.masters (Cluster.running "s") Cluster.two_lost_masters []
  = ([], ["m1"; "m2"])
  /\ Cluster.since_db_time Cluster.two_lost_masters "m2"
       (utcnow_contact Cluster.quiet) = Some (Cluster.seconds 11)
  /\ timedelta_seconds
       (replication_lag_failover_timeout (Cluster.running "s"))
     = Cluster.seconds 120
  /\ Cluster.promotes (Cluster.running "s") Cluster.quiet
       Cluster.two_lost_masters [] = true.
Proof. vm_compute. repeat split; reflexivity. Qed.

(** C3, counterexample.  One standby, the lost master, no observers:
    [total = 2] and [known = 1], exactly half, and the decision runs the
    failover command. *)
Lemma C3_counterexample_exactly_half :
  Cluster.quorum_on (Cluster.running "s") Cluster.quiet Cluster.one_standby []
  = (1, 2)
  /\ Cluster.promotes (Cluster.running "s") Cluster.quiet
       Cluster.one_standby [] = true.
Proof. vm_compute. split; reflexivity. Qed.

(** C5, the failing input.  The date of the response is 10 s ahead of the
    own clock; the body is merged. *)
Lemma C5_observer_ten_seconds_ahead :
  Cluster._fetch_observer_state Cluster.now
    (HttpResponse (Some (Cluster.now + Cluster.seconds 10))
       (Some Cluster.s4_observer_view))
  = Some ([("fetch_time", VStr "2025-11-04T00:00:00Z");
           ("connection", VBool true)]
          ++ Cluster.s4_observer_view).
Proof. vm_compute. reflexivity. Qed.

(** C6, counterexample.  The observer ["o1"] was fetched with success 5 s
    ago; the response now is dated 10 s behind the own clock and is
    dropped; the record of ["o1"] still says [connection] true. *)
Lemma C6_counterexample_connection_stays_true :
  Cluster._fetch_observer_state Cluster.now
    (HttpResponse (Some (Cluster.now - Cluster.seconds 10))
       (Some Cluster.s4_observer_view)) = None
  /\ (r <- PyDict.get "o1"
            (observer_state
               (Cluster.fetch_observer_state Cluster.observed_once "o1"
                  Cluster.now
                  (HttpResponse (Some (Cluster.now - Cluster.seconds 10))
                     (Some Cluster.s4_observer_view)))) ;;
      PyDict.get "connection" r) = Some (VBool true)
  /\ PyDict.get "o1"
       (observer_state
          (Cluster.fetch_observer_state Cluster.monitor "o1" Cluster.now
             (HttpResponse (Some (Cluster.now - Cluster.seconds 10))
                (Some Cluster.s4_observer_view)))) = None.
Proof. vm_compute. repeat split; reflexivity. Qed.



(** A master that never answered a probe has no [pg_is_in_recovery] on
    record: the node map puts it in neither set of masters, and without
    a report from an observer it stops nothing. *)
Lemma never_probed_master_is_no_master :
  Cluster.masters (Cluster.running "s") Worked.never_probed [] = ([], [])
  /\ Cluster.promotes (Cluster.running "s") Cluster.quiet
       Worked.never_probed [] = true.
Proof. split; vm_compute; reflexivity. Qed.

(** C9.  Whenever [do_failover_decision] runs a command, the state record
    of the chosen candidate is equal, as a value, to [own_state]; the name
    of the candidate is not compared with [own_db].  So with the two
    standbys ["a"] and ["b"] carrying identical records, the daemon of
    ["b"] finds the candidate ["a"], passes the self check and runs the
    failover command (as the daemon of ["a"] does); and the daemon of
    ["a"], whose own record has changed since the snapshot, is the
    candidate by name and yet does nothing. *)
Theorem C9_self_check_compares_records :
  (forall parse_iso_datetime get_iso_timestamp convert_xlog_location_to_offset
          (self : PgLookout) (w : world) (own_state : option record)
          (standby_nodes : dict record),
      invokes_command
        (fst (do_failover_decision parse_iso_datetime get_iso_timestamp
                convert_xlog_location_to_offset self w own_state
                standby_nodes)) = true ->
      exists p host furthest_state,
        get_replication_positions parse_iso_datetime
          convert_xlog_location_to_offset self w standby_nodes = Some p
        /\ furthest_along p = Some host
        /\ PyDict.get host standby_nodes = Some furthest_state
        /\ record_eq_opt furthest_state own_state = true)
  /\ (own_db (fst Cluster.twins_at_b) = Some "b"
      /\ furthest_along
           (Cluster.positions_on (Cluster.running "b") Cluster.quiet
              Cluster.twin_standbys []) = Some "a"
      /\ PyDict.get "a" (snd Cluster.twins_at_b)
         = PyDict.get "b" (snd Cluster.twins_at_b)
      /\ Cluster.promotes (Cluster.running "b") Cluster.quiet
           Cluster.twin_standbys [] = true
      /\ Cluster.promotes (Cluster.running "a") Cluster.quiet
           Cluster.twin_standbys [] = true)
  /\ (own_db (fst Cluster.twins_at_a) = Some "a"
      /\ furthest_along
           (Cluster.positions_on (Cluster.running "a") Cluster.quiet
              Cluster.twin_standbys []) = Some "a"
      /\ Cluster.do_failover_decision (fst Cluster.twins_at_a) Cluster.quiet
           (PyDict.get "a" Cluster.twin_standbys_later)
           (snd Cluster.twins_at_a)
         = ([], Some (fst Cluster.twins_at_a))).
Proof.
  split; [|split].
  - intros parse get convert self w own_state standby_nodes Hinv.
    apply decision_invokes_only_after_gates in Hinv.
    destruct Hinv as (p & host & Hg & _).
    destruct (gate_self Hg) as (st & Hst & Heq).
    exists p, host, st. repeat split; auto.
    + exact (gate_positions Hg).
    + exact (gate_furthest Hg).
  - vm_compute. repeat split; reflexivity.
  - vm_compute. repeat split; reflexivity.
Qed.

(** ** The theorems at work on the worked clusters *)

Lemma C1_observed_master_placement_witness :
  entry_connected
    (connected_master_entry "B" (Cluster.local_sets Cluster.s4_cluster_state))
  = false
  /\ exists a',
       merge_observed Common.parse_iso_datetime Common.get_iso_timestamp
         (Some "A") Cluster.s4_cluster_state
         (Cluster.local_sets Cluster.s4_cluster_state)
         ("B", VDict Cluster.s4_observed_B) = Some a'
       /\ PyDict.get "B" (ns_disconnected_master_nodes a')
          = Some Cluster.s4_observed_B.
Proof.
  split; [vm_compute; reflexivity|].
  destruct (proj1 C1_observed_master_placement
              Common.parse_iso_datetime Common.get_iso_timestamp
              (Some "A") Cluster.s4_cluster_state
              (Cluster.local_sets Cluster.s4_cluster_state)
              "B"
              [("fetch_time", VStr "2025-11-03T23:59:00Z");
               ("connection", VBool false)]
              Cluster.s4_observed_B
              (Cluster.now - Cluster.seconds 60) Cluster.now (VBool false))
    as (a' & Hmerge & Hplace).
  - vm_compute; reflexivity.
  - vm_compute; reflexivity.
  - vm_compute; reflexivity.
  - vm_compute; reflexivity.
  - reflexivity.
  - unfold Cluster.now, Cluster.seconds; lia.
  - vm_compute; reflexivity.
  - exists a'. split; [exact Hmerge|].
    change (entry_connected
              (connected_master_entry "B"
                 (Cluster.local_sets Cluster.s4_cluster_state)))
      with false in Hplace.
    exact (proj1 Hplace).
Defined.

Lemma C2_master_presence_gate_witness :
  0 < PyDict.len (connected_master_nodes (fst Cluster.healthy_map))
  /\ Cluster.do_failover_decision (fst Cluster.healthy_map) Cluster.quiet
       (PyDict.get "s" Cluster.healthy) (snd Cluster.healthy_map)
     = ([], Some (fst Cluster.healthy_map)).
Proof.
  split; [vm_compute; reflexivity|].
  apply C2_master_presence_gate. left. vm_compute; reflexivity.
Defined.

Lemma C3_quorum_gate_witness :
  Cluster.get_replication_positions (fst Cluster.one_standby_map) Cluster.quiet
    (snd Cluster.one_standby_map)
  = Some [(4294967298, ["s"])]
  /\ Cluster.do_failover_decision (fst Cluster.one_standby_map) Cluster.quiet
       (PyDict.get "s" Cluster.one_standby) (snd Cluster.one_standby_map)
     = run_failover (fst Cluster.one_standby_map) Cluster.quiet.
Proof.
  assert (Hp : Cluster.get_replication_positions (fst Cluster.one_standby_map)
                 Cluster.quiet (snd Cluster.one_standby_map)
               = Some [(4294967298, ["s"])]) by (vm_compute; reflexivity).
  split; [exact Hp|].
  refine (proj1 (proj2 (@C3_quorum_gate
            Common.parse_iso_datetime Common.get_iso_timestamp
            Common.convert_xlog_location_to_offset
            (fst Cluster.one_standby_map) Cluster.quiet
            (PyDict.get "s" Cluster.one_standby) (snd Cluster.one_standby_map)
            [(4294967298, ["s"])] Hp) "s" _ _)).
  - constructor.
    + vm_compute; discriminate.
    + vm_compute; reflexivity.
    + exact Hp.
    + discriminate.
    + vm_compute; reflexivity.
    + exists (match PyDict.get "s" (snd Cluster.one_standby_map) with
              | Some r => r
              | None => []
              end).
      split; vm_compute; reflexivity.
    + vm_compute; reflexivity.
    + vm_compute; reflexivity.
  - vm_compute; discriminate.
Defined.

Lemma C5_observer_ahead_is_merged_witness :
  timedelta_seconds 5 < (Cluster.now + Cluster.seconds 10) - Cluster.now
  /\ Cluster._fetch_observer_state Cluster.now
       (HttpResponse (Some (Cluster.now + Cluster.seconds 10))
          (Some Cluster.s4_observer_view))
     = Some (PyDict.update
               [("fetch_time", VStr (Common.get_iso_timestamp Cluster.now));
                ("connection", VBool true)] Cluster.s4_observer_view).
Proof.
  split; [vm_compute; reflexivity|].
  apply C5_observer_ahead_is_merged; vm_compute; reflexivity.
Defined.

Lemma C6_discarded_response_keeps_state_witness :
  timedelta_seconds 5 < Cluster.now - (Cluster.now - Cluster.seconds 10)
  /\ Cluster.fetch_observer_state Cluster.observed_once "o1" Cluster.now
       (HttpResponse (Some (Cluster.now - Cluster.seconds 10))
          (Some Cluster.s4_observer_view))
     = Cluster.observed_once.
Proof.
  split; [vm_compute; reflexivity|].
  apply C6_discarded_response_keeps_state; vm_compute; reflexivity.
Defined.

Lemma C9_self_check_compares_records_witness :
  exists p host furthest_state,
    Cluster.get_replication_positions (fst Cluster.twins_at_b) Cluster.quiet
      (snd Cluster.twins_at_b) = Some p
    /\ furthest_along p = Some host
    /\ PyDict.get host (snd Cluster.twins_at_b) = Some furthest_state
    /\ record_eq_opt furthest_state (PyDict.get "b" Cluster.twin_standbys)
       = true.
Proof.
  apply (proj1 C9_self_check_compares_records
           Common.parse_iso_datetime Common.get_iso_timestamp
           Common.convert_xlog_location_to_offset
           (fst Cluster.twins_at_b) Cluster.quiet
           (PyDict.get "b" Cluster.twin_standbys) (snd Cluster.twins_at_b)).
  vm_compute; reflexivity.
Defined.


(** ** The lowest replication lag *)

Lemma get_update {K V} `{KeyEq K} (k : K) (d e : PyDict.t K V) :
  PyDict.get k (PyDict.update d e)
  = match PyDict.last_value k e with
    | Some v => Some v
    | None => PyDict.get k d
    end.
Proof.
  induction e as [|[k0 v0] e IH] using rev_ind.
  - reflexivity.
  - unfold PyDict.update, PyDict.last_value in *.
    rewrite !fold_left_app. simpl. rewrite get_set.
    destruct (key_eqb k k0); [reflexivity | exact IH].
Qed.

Lemma get_setdefault_other {K V} `{KeyEq K} (k k' : K) (v : V)
  (d : PyDict.t K V) :
  k <> k' -> PyDict.get k (PyDict.setdefault k' v d) = PyDict.get k d.
Proof.
  intros Hk. unfold PyDict.setdefault.
  destruct (PyDict.contains k' d); [reflexivity|].
  now apply get_set_other.
Qed.

Lemma In_set {K V} `{KeyEq K} (x : K * V) (k : K) (v : V) (d : PyDict.t K V) :
  In x (PyDict.set k v d) -> x = (k, v) \/ In x d.
Proof.
  induction d as [|[k0 v0] d IH]; simpl.
  - intros [<-|[]]. now left.
  - destruct (key_eqb k k0); simpl.
    + intros [<-|Hin]; auto.
    + intros [<-|Hin]; auto. destruct (IH Hin); auto.
Qed.

Lemma In_pop {K V} `{KeyEq K} (x : K * V) (k : K) (d : PyDict.t K V) :
  In x (PyDict.pop k d) -> In x d.
Proof.
  induction d as [|[k0 v0] d IH]; simpl; [auto|].
  destruct (key_eqb k k0); simpl; intuition.
Qed.

Section LagProperties.

Variable parse_iso_datetime : string -> option datetime.
Variable get_iso_timestamp : datetime -> string.

Local Abbreviation query := (_query_cluster_member_state get_iso_timestamp).
Local Abbreviation update_member :=
  (update_cluster_member_state get_iso_timestamp).

(** What a probe result says about the two lag fields: it never carries a
    lowest lag, and its current lag is missing, [None] or a number. *)
Lemma query_lag_fields (now : datetime) (f_result : option status_row) :
  PyDict.get "min_replication_time_lag" (query now f_result) = None
  /\ PyDict.last_value "min_replication_time_lag" (query now f_result) = None
  /\ exists lag,
       PyDict.get "replication_time_lag" (query now f_result) = lag
       /\ PyDict.last_value "replication_time_lag" (query now f_result) = lag
       /\ (lag = None \/ lag = Some VNone \/ exists b, lag = Some (VNum b)).
Proof.
  destruct f_result as [[t rec ts recv rep slots]|].
  - destruct rec, ts as [ts|], slots as [slots|];
      (split; [reflexivity|]); (split; [reflexivity|]);
      eexists; (split; [reflexivity|]); (split; [reflexivity|]);
      cbv [query _query_cluster_member_state _parse_status_query_result
             PyDict.update PyDict.set PyDict.get fold_left app key_eqb
             string_KeyEq fst snd negb pg_is_in_recovery
             pg_last_xact_replay_timestamp replication_slots];
      cbn; eauto.
  - split; [reflexivity|]. split; [reflexivity|].
    exists None. auto.
Qed.





End LagProperties.


(** ** The promotion candidate *)

Lemma string_leb_refl (a : string) : String.leb a a = true.
Proof. destruct (String.leb_total a a); assumption. Qed.

Lemma string_compare_lt_trans (a b c : string) :
  String.compare a b = Lt -> String.compare b c = Lt -> String.compare a c = Lt.
Proof.
  intros Hab Hbc.
  apply OrderedTypeEx.String_as_OT.cmp_lt in Hab, Hbc.
  apply OrderedTypeEx.String_as_OT.cmp_lt.
  eapply OrderedTypeEx.String_as_OT.lt_trans; eauto.
Qed.

Lemma string_leb_cases (a b : string) :
  String.leb a b = true <-> a = b \/ String.compare a b = Lt.
Proof.
  unfold String.leb. destruct (String.compare a b) eqn:E; split; auto.
  - intros _. left. now apply String.compare_eq_iff.
  - discriminate.
  - intros [-> | ?]; [|discriminate].
    pose proof (string_leb_refl b) as Hr. unfold String.leb in Hr.
    now rewrite E in Hr.
Qed.

Lemma string_leb_trans (a b c : string) :
  String.leb a b = true -> String.leb b c = true -> String.leb a c = true.
Proof.
  rewrite !string_leb_cases.
  intros [-> | Hab] [-> | Hbc]; auto.
  right. eapply string_compare_lt_trans; eauto.
Qed.

Lemma string_ltb_leb (a b : string) :
  String.ltb a b = true -> String.leb a b = true.
Proof.
  unfold String.ltb, String.leb. destruct (String.compare a b); auto.
Qed.

Lemma string_ltb_false_leb (a b : string) :
  String.ltb a b = false -> String.leb b a = true.
Proof.
  unfold String.ltb, String.leb. rewrite (String.compare_antisym b a).
  destruct (String.compare a b); simpl; auto.
Qed.

(** [min] of names: a member, and below every member. *)
Lemma py_min_least (l : list string) (m : string) :
  py_min l = Some m ->
  In m l /\ forall h, In h l -> String.leb m h = true.
Proof.
  destruct l as [|x l]; [discriminate|]. simpl. intros [= <-].
  assert (Hfold : forall (l : list string) (m0 : string),
             let r := fold_left (fun m y => if String.ltb y m then y else m) l m0 in
             (r = m0 \/ In r l)
             /\ String.leb r m0 = true
             /\ forall h, In h l -> String.leb r h = true).
  { clear. induction l as [|y l IH]; intros m0; simpl.
    - repeat split; auto using string_leb_refl; try (intros h []).
    - destruct (IH (if String.ltb y m0 then y else m0)) as (Hin & Hle & Hall).
      destruct (String.ltb y m0) eqn:E.
      + repeat split.
        * destruct Hin as [-> | Hin]; auto.
        * eapply string_leb_trans; [exact Hle|]. now apply string_ltb_leb.
        * intros h [<- | Hh]; auto.
      + repeat split.
        * destruct Hin as [-> | Hin]; auto.
        * exact Hle.
        * intros h [<- | Hh]; auto.
          eapply string_leb_trans; [exact Hle|].
          now apply string_ltb_false_leb. }
  destruct (Hfold l x) as (Hin & Hle & Hall). split.
  - destruct Hin as [-> | Hin]; [now left | now right].
  - intros h [<- | Hh]; auto.
Qed.

(** [max] of integers: a member, and above every member. *)
Lemma py_max_greatest (l : list Z) (m : Z) :
  py_max l = Some m ->
  In m l /\ forall k, In k l -> k <= m.
Proof.
  destruct l as [|x l]; [discriminate|]. simpl. intros [= <-].
  assert (Hfold : forall (l : list Z) (m0 : Z),
             let r := fold_left (fun m y => if m <? y then y else m) l m0 in
             (r = m0 \/ In r l) /\ m0 <= r /\ forall k, In k l -> k <= r).
  { clear. induction l as [|y l IH]; intros m0; simpl.
    - repeat split; auto; try lia; try (intros k []).
    - destruct (IH (if m0 <? y then y else m0)) as (Hin & Hle & Hall).
      destruct (m0 <? y) eqn:E.
      + apply Z.ltb_lt in E. repeat split.
        * destruct Hin as [-> | Hin]; auto.
        * lia.
        * intros k [<- | Hk]; auto.
      + apply Z.ltb_ge in E. repeat split.
        * destruct Hin as [-> | Hin]; auto.
        * exact Hle.
        * intros k [<- | Hk]; auto. lia. }
  destruct (Hfold l x) as (Hin & Hle & Hall). split.
  - destruct Hin as [-> | Hin]; [now left | now right].
  - intros k [<- | Hk]; auto.
Qed.

Lemma set_add_not_empty (h : string) (s : list string) : set_add h s <> [].
Proof.
  unfold set_add. destruct (name_in h s) eqn:E.
  - destruct s; [discriminate E | discriminate].
  - destruct s; discriminate.
Qed.

Section CandidateProperties.

Variable parse_iso_datetime : string -> option datetime.
Variable convert_xlog_location_to_offset : string -> option Z.

(** One iteration over the standbys leaves the positions as they are or
    records the standby at one offset. *)
Lemma record_position_cases (self : PgLookout) (w : world) (p p' : positions)
  (item : string * record) :
  record_position parse_iso_datetime convert_xlog_location_to_offset
    self w p item = Some p' ->
  p' = p \/ exists k, p' = add_position k (fst item) p.
Proof.
  unfold record_position. destruct item as [hostname node_state].
  destruct (PyDict.get "connection" node_state) as [c|]; [|discriminate].
  cbn [bind]. destruct (truthy c); [|intros [= <-]; auto].
  destruct (PyDict.get "fetch_time" node_state) as [ft|]; [|discriminate].
  cbn [bind]. destruct (parse_time parse_iso_datetime ft) as [t|];
    [|discriminate].
  cbn [bind]. destruct (_ && _); [|intros [= <-]; auto].
  destruct (PyDict.get "pg_last_xlog_receive_location" node_state) as [recv|];
    [|discriminate].
  cbn [bind].
  destruct (if truthy recv then Some recv
            else PyDict.get "pg_last_xlog_replay_location" node_state)
    as [lsn|]; [|discriminate].
  cbn [bind].
  destruct (if truthy lsn
            then match lsn with
                 | VStr l => convert_xlog_location_to_offset l
                 | _ => None
                 end
            else Some 0) as [k|]; [|discriminate].
  cbn [bind fst]. intros [= <-]. eauto.
Qed.

(** No offset of the map has an empty set of standbys. *)
Lemma positions_sets_not_empty (self : PgLookout) (w : world)
  (standby_nodes : dict record) (p : positions) :
  get_replication_positions parse_iso_datetime
    convert_xlog_location_to_offset self w standby_nodes = Some p ->
  forall k hosts, PyDict.get k p = Some hosts -> hosts <> [].
Proof.
  unfold get_replication_positions.
  refine (@for_each_invariant _ _
            (fun p : positions =>
               forall k hosts, PyDict.get k p = Some hosts -> hosts <> [])
            _ _ _ _ _ _).
  - intros k hosts. discriminate.
  - intros s a s' Hs Hbody.
    apply record_position_cases in Hbody.
    destruct Hbody as [-> | [k0 ->]]; [exact Hs|].
    intros k hosts. unfold add_position. rewrite get_set.
    destruct (key_eqb k k0); [|apply Hs].
    intros [= <-]. apply set_add_not_empty.
Qed.

End CandidateProperties.

(** The candidate of a map whose sets are not empty. *)
Lemma furthest_along_spec (p : positions) :
  p <> [] ->
  (forall k hosts, PyDict.get k p = Some hosts -> hosts <> []) ->
  exists best hosts candidate,
    furthest_along p = Some candidate
    /\ PyDict.get best p = Some hosts
    /\ (forall k hs, PyDict.get k p = Some hs -> k <= best)
    /\ In candidate hosts
    /\ (forall h, In h hosts -> String.leb candidate h = true).
Proof.
  intros Hne Hwf. unfold furthest_along.
  destruct (py_max (PyDict.keys p)) as [best|] eqn:Hmax.
  - destruct (py_max_greatest _ Hmax) as [Hin Hgreatest].
    destruct (In_keys_get _ _ Hin) as [hosts Hhosts].
    cbn [bind]. rewrite Hhosts. cbn [bind].
    destruct (py_min hosts) as [candidate|] eqn:Hmin.
    + destruct (py_min_least _ Hmin) as [Hc Hleast].
      exists best, hosts, candidate. repeat split; auto.
      intros k hs Hk. apply Hgreatest. eapply get_In_keys; eauto.
    + destruct hosts; [|discriminate Hmin].
      exfalso. eapply Hwf; eauto.
  - destruct p; [contradiction | discriminate Hmax].
Qed.

(** C4.  For every non-empty map of known replication positions, the
    candidate that [do_failover_decision] picks is a standby recorded at
    the greatest offset of the map and is, in the order of the names, the
    least of the standbys recorded there.  Any other decider whose map
    records the same standbys at the same offsets, in whatever order they
    were entered, picks the same candidate. *)
Theorem C4_candidate_is_least_at_greatest_offset :
  forall parse_iso_datetime convert_xlog_location_to_offset
         (self : PgLookout) (w : world) (standby_nodes : dict record)
         (p : positions),
    get_replication_positions parse_iso_datetime
      convert_xlog_location_to_offset self w standby_nodes = Some p ->
    p <> [] ->
    exists best hosts candidate,
      furthest_along p = Some candidate
      /\ PyDict.get best p = Some hosts
      /\ (forall k hs, PyDict.get k p = Some hs -> k <= best)
      /\ In candidate hosts
      /\ (forall h, In h hosts -> String.leb candidate h = true)
      /\ (forall parse_iso_datetime' convert_xlog_location_to_offset'
                 (self' : PgLookout) (w' : world)
                 (standby_nodes' : dict record) (p' : positions),
             get_replication_positions parse_iso_datetime'
               convert_xlog_location_to_offset' self' w' standby_nodes'
             = Some p' ->
             (forall k h, recorded p k h <-> recorded p' k h) ->
             furthest_along p' = Some candidate).
Proof.
  intros parse convert self w standby_nodes p Hp Hne.
  pose proof (positions_sets_not_empty _ _ _ _ _ Hp) as Hwf.
  destruct (furthest_along_spec Hne Hwf)
    as (best & hosts & candidate & Hf & Hbest & Hmax & Hin & Hleast).
  exists best, hosts, candidate. repeat split; auto.
  intros parse' convert' self' w' standby_nodes' p' Hp' Hsame.
  pose proof (positions_sets_not_empty _ _ _ _ _ Hp') as Hwf'.
  assert (Hrec : recorded p' best candidate)
    by (apply Hsame; exists hosts; auto).
  assert (Hne' : p' <> []).
  { destruct Hrec as (hs & Hget & _). destruct p'; [discriminate Hget|].
    discriminate. }
  destruct (furthest_along_spec Hne' Hwf')
    as (best' & hosts' & candidate' & Hf' & Hbest' & Hmax' & Hin' & Hleast').
  rewrite Hf'. f_equal.
  assert (Hrec' : recorded p best' candidate')
    by (apply Hsame; exists hosts'; auto).
  assert (best' = best).
  { destruct Hrec as (hs & Hget & _). destruct Hrec' as (hs' & Hget' & _).
    pose proof (Hmax' _ _ Hget). pose proof (Hmax _ _ Hget'). lia. }
  subst best'.
  apply String.leb_antisym.
  - apply Hleast'. destruct Hrec as (hs & Hget & Hc).
    rewrite Hbest' in Hget. injection Hget as <-. exact Hc.
  - apply Hleast. destruct Hrec' as (hs' & Hget' & Hc').
    rewrite Hbest in Hget'. injection Hget' as <-. exact Hc'.
Qed.

Lemma C4_candidate_is_least_at_greatest_offset_witness :
  Cluster.get_replication_positions (fst Cluster.twins_at_b) Cluster.quiet
    (snd Cluster.twins_at_b)
  = Some [(4294967298, ["a"; "b"])]
  /\ exists best hosts candidate,
       furthest_along [(4294967298, ["a"; "b"])] = Some candidate
       /\ PyDict.get best [(4294967298, ["a"; "b"])] = Some hosts
       /\ In candidate hosts
       /\ (forall h, In h hosts -> String.leb candidate h = true).
Proof.
  assert (Hp : Cluster.get_replication_positions (fst Cluster.twins_at_b)
                 Cluster.quiet (snd Cluster.twins_at_b)
               = Some [(4294967298, ["a"; "b"])]) by (vm_compute; reflexivity).
  split; [exact Hp|].
  destruct (@C4_candidate_is_least_at_greatest_offset
              Common.parse_iso_datetime Common.convert_xlog_location_to_offset
              (fst Cluster.twins_at_b) Cluster.quiet (snd Cluster.twins_at_b)
              [(4294967298, ["a"; "b"])] Hp)
    as (best & hosts & candidate & Hf & Hbest & _ & Hin & Hleast & _).
  - discriminate.
  - exists best, hosts, candidate. auto.
Defined.

(* ================================================================== *)
(** * Further properties *)

(** ** The node map as a whole *)

Lemma In_contains {K V} `{KeyEq K} (k : K) (v : V) (d : PyDict.t K V) :
  In (k, v) d -> PyDict.contains k d = true.
Proof.
  unfold PyDict.contains.
  induction d as [|[k0 v0] d IH]; simpl; [contradiction|].
  intros [[= -> ->] | Hin].
  - now rewrite key_eqb_refl.
  - destruct (key_eqb k k0); [reflexivity | auto].
Qed.

(** The loop over the own cluster state only adds connected masters, and
    adds every peer that is one. *)
Lemma classify_local_adds (l : list (string * record)) (acc a : node_sets) :
  for_each classify_local l acc = Some a ->
  (forall h, PyDict.contains h (ns_connected_master_nodes acc) = true ->
             PyDict.contains h (ns_connected_master_nodes a) = true)
  /\ (forall h, locally_connected_master l h ->
                PyDict.contains h (ns_connected_master_nodes a) = true).
Proof.
  revert acc. induction l as [|[host state] l IH]; cbn [for_each]; intros acc.
  - intros [= <-]. split; [auto|].
    intros h (st & r & c & [] & _).
  - destruct (classify_local acc (host, state)) as [acc'|] eqn:E;
      cbn [bind]; [|discriminate].
    intros Hfe. destruct (IH _ Hfe) as [Hkeep Hadd].
    assert (Hstep : forall h,
               PyDict.contains h (ns_connected_master_nodes acc) = true ->
               PyDict.contains h (ns_connected_master_nodes acc') = true).
    { unfold classify_local in E.
      destruct (PyDict.get "pg_is_in_recovery" state) as [r|];
        [|injection E as <-; auto].
      destruct (truthy r); [injection E as <-; auto|].
      destruct (PyDict.get "connection" state) as [c|]; [|discriminate].
      cbn [bind] in E. destruct (truthy c); injection E as <-; cbn; auto.
      intros h Hh. rewrite contains_set, Hh. apply orb_true_r. }
    split; [auto|].
    intros h (st & r & c & [[= -> ->] | Hin] & Hr & Hfalsy & Hc & Hconn).
    + apply Hkeep. unfold classify_local in E.
      rewrite Hr, Hfalsy, Hc in E. cbn [bind] in E. rewrite Hconn in E.
      injection E as <-. cbn. rewrite contains_set, key_eqb_refl. reflexivity.
    + apply Hadd. exists st, r, c. auto.
Qed.

Section NodeMapProperties.

Variable parse_iso_datetime : string -> option datetime.
Variable get_iso_timestamp : datetime -> string.

Local Abbreviation node_map :=
  (create_node_map parse_iso_datetime get_iso_timestamp).
Local Abbreviation observed :=
  (merge_observed parse_iso_datetime get_iso_timestamp).
Local Abbreviation observer :=
  (merge_observer parse_iso_datetime get_iso_timestamp).

(** The two loops, as [create_node_map] runs them. *)
Lemma create_node_map_loops (self self' : PgLookout)
  (cluster_state observer_state : dict record) (events : list event)
  (returned : option string * option record * dict record) :
  node_map self cluster_state observer_state = Some (self', events, returned) ->
  exists a0 a,
    for_each classify_local cluster_state empty_node_sets = Some a0
    /\ for_each (observer (own_db self) cluster_state) observer_state a0
       = Some a
    /\ self' = store_node_sets self a
    /\ events = fst (pick_master a)
    /\ returned = (fst (snd (pick_master a)), snd (snd (pick_master a)),
                   ns_standby_nodes a).
Proof.
  unfold create_node_map, collect_node_sets.
  destruct (for_each classify_local cluster_state empty_node_sets)
    as [a0|] eqn:E0; [|discriminate].
  cbn [bind].
  destruct (for_each _ observer_state a0) as [a|] eqn:E1; [|discriminate].
  cbn [bind]. destruct (pick_master a) as [ev [mh mn]] eqn:Ep.
  intros [= <- <- <-]. exists a0, a. rewrite Ep. cbn [fst snd].
  repeat split; auto.
Qed.

(** X1.  A peer that the own cluster state has with [pg_is_in_recovery]
    false and [connection] true is among the connected masters after
    [create_node_map], whatever the observers report. *)
Theorem create_node_map_keeps_connected_master :
  forall (self self' : PgLookout) (cluster_state observer_state : dict record)
         (events : list event)
         (returned : option string * option record * dict record)
         (host : string),
    node_map self cluster_state observer_state = Some (self', events, returned) ->
    locally_connected_master cluster_state host ->
    PyDict.contains host (connected_master_nodes self') = true.
Proof.
  intros self self' cs os events returned host Hmap Hlocal.
  destruct (create_node_map_loops _ _ _ Hmap)
    as (a0 & a & Hl & Ho & -> & _ & _).
  cbn.
  assert (Hkeys : forall h,
             PyDict.contains h (ns_connected_master_nodes a)
             = PyDict.contains h (ns_connected_master_nodes a0)).
  { refine (@for_each_invariant _ _
              (fun x => forall h,
                   PyDict.contains h (ns_connected_master_nodes x)
                   = PyDict.contains h (ns_connected_master_nodes a0))
              _ _ _ _ _ _ Ho).
    - reflexivity.
    - intros s item s' Hs Hbody h.
      rewrite (merge_observer_connected_keys _ _ _ _ _ _ Hbody). apply Hs. }
  rewrite Hkeys. now apply (proj2 (classify_local_adds _ _ Hl)).
Qed.

(** The shapes of one step over an observer's view of a peer: nothing
    changes, only [master_node] changes, or the observed record of a peer
    of the own cluster, not the own node, is put in one of the three
    dicts. *)
Lemma merge_observed_cases (own : option string) (cluster_state : dict record)
  (a a' : node_sets) (host : string) (v : value) :
  observed own cluster_state a (host, v) = Some a' ->
  a' = a
  \/ a' = with_master_node (Some (connected_master_entry host a)) a
  \/ (PyDict.contains host cluster_state = true
      /\ is_own_db host own = false
      /\ exists db_state,
           v = VDict db_state
           /\ (a' = with_standby host db_state a
               \/ a' = with_connected_master host db_state
                         (with_master_node
                            (Some (connected_master_entry host a)) a)
               \/ a' = with_disconnected_master host db_state
                         (with_master_node
                            (Some (connected_master_entry host a)) a))).
Proof.
  unfold merge_observed.
  destruct (PyDict.contains host cluster_state) eqn:Hc; cbn [negb];
    [|intros [= <-]; auto].
  destruct v as [| | | | |db]; try (intros [= <-]; auto).
  destruct (fetch_time_of parse_iso_datetime _) as [own_t|]; [|discriminate].
  cbn [bind].
  destruct (fetch_time_of parse_iso_datetime db) as [obs_t|]; [|discriminate].
  cbn [bind].
  destruct (PyDict.get "pg_is_in_recovery" db) as [in_rec|];
    [|intros [= <-]; auto].
  destruct (truthy in_rec).
  - destruct (own_t <=? obs_t); cbn [andb]; [|intros [= <-]; auto].
    destruct (is_own_db host own) eqn:Ho; cbn [negb]; [intros [= <-]; auto|].
    destruct (PyDict.get "connection" _) as [c|]; [|discriminate].
    cbn [bind]. destruct (is_False c); intros [= <-]; auto.
    right. right. repeat split; auto. exists db. auto.
  - destruct (own_t <=? obs_t); cbn [andb]; [|intros [= <-]; auto].
    destruct (is_own_db host own) eqn:Ho; cbn [negb]; [intros [= <-]; auto|].
    destruct (entry_connected _); intros [= <-];
      right; right; repeat split; auto; exists db; auto.
Qed.

(** A property of the node sets that each step over an observed peer
    keeps, and that does not look at the observer dicts, is kept by the
    loop over the observers. *)
Lemma observers_invariant (P : node_sets -> Prop) (own : option string)
  (cluster_state observer_state : dict record) (a0 a : node_sets) :
  (forall x c n f, P x -> P (with_observer c n f x)) ->
  (forall x item x', P x -> observed own cluster_state x item = Some x' ->
                     P x') ->
  P a0 ->
  for_each (observer own cluster_state) observer_state a0 = Some a ->
  P a.
Proof.
  intros Hobs Hstep H0 Hfe.
  refine (@for_each_invariant _ _ P _ _ _ _ H0 _ Hfe).
  intros s [name state] s' Hs. unfold merge_observer.
  refine (@for_each_invariant _ _ P _ _ _ _ (Hobs _ _ _ _ Hs) Hstep).
Qed.

(** X2.  After [create_node_map] every standby, connected master and
    disconnected master is a peer of the own cluster state: what observers
    report about other nodes is left out. *)
Theorem create_node_map_only_own_cluster :
  forall (self self' : PgLookout) (cluster_state observer_state : dict record)
         (events : list event) (master_host : option string)
         (master_node : option record) (standby_nodes : dict record)
         (host : string),
    node_map self cluster_state observer_state
    = Some (self', events, (master_host, master_node, standby_nodes)) ->
    (PyDict.contains host standby_nodes
     || PyDict.contains host (connected_master_nodes self')
     || PyDict.contains host (disconnected_master_nodes self'))%bool = true ->
    PyDict.contains host cluster_state = true.
Proof.
  intros self self' cs os events mh mn sb host Hmap.
  destruct (create_node_map_loops _ _ _ Hmap)
    as (a0 & a & Hl & Ho & -> & _ & [= _ _ ->]).
  cbn.
  set (P := fun x : node_sets =>
              forall h,
                (PyDict.contains h (ns_standby_nodes x)
                 || PyDict.contains h (ns_connected_master_nodes x)
                 || PyDict.contains h (ns_disconnected_master_nodes x))%bool
                = true ->
                PyDict.contains h cs = true).
  assert (P0 : P a0).
  { refine (@for_each_invariant_In _ _ P _ _ _ _ _ _ Hl).
    - intros h. discriminate.
    - intros s [h0 st] s' Hin Hs. unfold classify_local.
      destruct (PyDict.get "pg_is_in_recovery" st) as [r|];
        [|intros [= <-]; exact Hs].
      assert (Hh0 : PyDict.contains h0 cs = true)
        by (eapply In_contains; eauto).
      destruct (truthy r).
      + intros [= <-] h. cbn. rewrite contains_set.
        destruct (key_eqb h h0) eqn:E; [|apply Hs].
        apply key_eqb_spec in E. now subst.
      + destruct (PyDict.get "connection" st) as [c|]; [|discriminate].
        cbn [bind].
        destruct (truthy c); intros [= <-] h; cbn; rewrite contains_set;
          (destruct (key_eqb h h0) eqn:E;
           [apply key_eqb_spec in E; subst; intros _; exact Hh0|]);
          cbn [orb]; apply Hs. }
  refine (@observers_invariant P _ _ _ _ _ _ _ P0 Ho host).
  - intros x c n f Hx. exact Hx.
  - intros x [h0 v] x' Hx Hbody.
    destruct (merge_observed_cases _ _ _ _ _ Hbody)
      as [-> | [-> | (Hc & _ & db & _ & [-> | [-> | ->]])]];
      try exact Hx; intros h; cbn; rewrite ?contains_set;
      (destruct (key_eqb h h0) eqn:E;
       [apply key_eqb_spec in E; subst; intros _; exact Hc|]);
      cbn [orb]; apply Hx.
Qed.

(** X3.  The observers change nothing about the own node: its entries in
    the three dicts of the node map are those that the own cluster state
    alone gives. *)
Theorem create_node_map_trusts_own_state :
  forall (self self' : PgLookout) (cluster_state observer_state : dict record)
         (events : list event) (master_host : option string)
         (master_node : option record) (standby_nodes : dict record)
         (own : string),
    node_map self cluster_state observer_state
    = Some (self', events, (master_host, master_node, standby_nodes)) ->
    own_db self = Some own ->
    exists self0 events0 master_host0 master_node0 standby_nodes0,
      node_map self cluster_state []
      = Some (self0, events0, (master_host0, master_node0, standby_nodes0))
      /\ PyDict.get own standby_nodes = PyDict.get own standby_nodes0
      /\ PyDict.get own (connected_master_nodes self')
         = PyDict.get own (connected_master_nodes self0)
      /\ PyDict.get own (disconnected_master_nodes self')
         = PyDict.get own (disconnected_master_nodes self0).
Proof.
  intros self self' cs os events mh mn sb own Hmap Hown.
  destruct (create_node_map_loops _ _ _ Hmap)
    as (a0 & a & Hl & Ho & -> & _ & [= _ _ ->]).
  unfold create_node_map, collect_node_sets. rewrite Hl. cbn [bind for_each].
  destruct (pick_master a0) as [ev0 [mh0 mn0]].
  eexists _, _, _, _, _. split; [reflexivity|]. cbn.
  set (P := fun x : node_sets =>
              PyDict.get own (ns_standby_nodes x)
              = PyDict.get own (ns_standby_nodes a0)
              /\ PyDict.get own (ns_connected_master_nodes x)
                 = PyDict.get own (ns_connected_master_nodes a0)
              /\ PyDict.get own (ns_disconnected_master_nodes x)
                 = PyDict.get own (ns_disconnected_master_nodes a0)).
  refine (@observers_invariant P _ _ _ _ _ _ _ _ Ho).
  - intros x c n f Hx. exact Hx.
  - intros x [h0 v] x' Hx Hbody. rewrite Hown in Hbody.
    destruct (merge_observed_cases _ _ _ _ _ Hbody)
      as [-> | [-> | (_ & Hno & db & _ & Hshape)]]; try exact Hx.
    assert (Hne : own <> h0).
    { intros <-. cbn in Hno. now rewrite String.eqb_refl in Hno. }
    destruct Hx as (H1 & H2 & H3).
    destruct Hshape as [-> | [-> | ->]]; unfold P; cbn;
      rewrite ?(get_set_other _ _ Hne); repeat split; auto.
  - repeat split.
Qed.

(** X4.  The choice of the master: with exactly one connected master it
    is returned, with its record, and no alert is raised; with more than
    one, and only then, the alert [multiple_master_warning] is raised, and
    no master is returned; with none, the first disconnected master, if
    there is one, is returned. *)
Theorem create_node_map_master_selection :
  forall (self self' : PgLookout) (cluster_state observer_state : dict record)
         (events : list event) (master_host : option string)
         (master_node : option record) (standby_nodes : dict record),
    node_map self cluster_state observer_state
    = Some (self', events, (master_host, master_node, standby_nodes)) ->
    (PyDict.len (connected_master_nodes self') = 1 ->
     exists host state,
       connected_master_nodes self' = [(host, state)]
       /\ master_host = Some host /\ master_node = Some state
       /\ events = [])
    /\ (1 < PyDict.len (connected_master_nodes self') ->
        events = [CreateAlertFile "multiple_master_warning"]
        /\ master_host = None)
    /\ (events <> [] -> 1 < PyDict.len (connected_master_nodes self'))
    /\ (PyDict.len (connected_master_nodes self') = 0 ->
        events = []
        /\ master_host
           = option_map fst (first_item (disconnected_master_nodes self'))).
Proof.
  intros self self' cs os events mh mn sb Hmap.
  destruct (create_node_map_loops _ _ _ Hmap)
    as (a0 & a & _ & _ & -> & -> & [= -> -> _]).
  cbn. unfold pick_master, PyDict.len.
  destruct (ns_connected_master_nodes a) as [|[h r] [|kv rest]].
  - change (Z.of_nat (List.length (@nil (string * record))) =? 0) with true.
    cbv iota.
    destruct (ns_disconnected_master_nodes a) as [|[hd d] ?]; cbn;
      (split; [discriminate|]); (split; [lia|]);
      (split; [congruence|]); auto.
  - cbn. split; [|split; [lia|split; [congruence|discriminate]]].
    intros _. exists h, r. auto.
  - replace (Z.of_nat (List.length ((h, r) :: kv :: rest)) =? 0) with false
      by (symmetry; apply Z.eqb_neq; cbn [List.length]; lia).
    replace (Z.of_nat (List.length ((h, r) :: kv :: rest)) =? 1) with false
      by (symmetry; apply Z.eqb_neq; cbn [List.length]; lia).
    cbn [fst snd List.length].
    split; [lia|]. split; [auto|]. split; [lia|]. lia.
Qed.

End NodeMapProperties.

(** ** The replication positions *)

Lemma set_add_In (h x : string) (s : list string) :
  In x (set_add h s) <-> x = h \/ In x s.
Proof.
  unfold set_add. destruct (name_in h s) eqn:E.
  - split; [auto|]. intros [-> | Hin]; [|exact Hin].
    unfold name_in in E. apply existsb_exists in E.
    destruct E as (y & Hy & Heq). apply String.eqb_eq in Heq. now subst.
  - rewrite in_app_iff. cbn. intuition.
Qed.

Lemma recorded_add_position (p : positions) (k0 k : Z) (host h : string) :
  recorded (add_position k0 host p) k h
  <-> (k = k0 /\ h = host) \/ recorded p k h.
Proof.
  unfold recorded, add_position. split.
  - intros (hosts & Hget & Hin). rewrite get_set in Hget.
    destruct (key_eqb k k0) eqn:E.
    + apply key_eqb_spec in E. subst k0. injection Hget as <-.
      apply set_add_In in Hin. destruct Hin as [-> | Hin]; [auto|].
      right. destruct (PyDict.get k p) as [old|]; [eauto | contradiction].
    + right. eauto.
  - intros [[-> ->] | (hosts & Hget & Hin)].
    + eexists. rewrite get_set_same. split; [reflexivity|].
      apply set_add_In. auto.
    + rewrite get_set. destruct (key_eqb k k0) eqn:E.
      * apply key_eqb_spec in E. subst k0. rewrite Hget.
        eexists. split; [reflexivity|]. apply set_add_In. auto.
      * eauto.
Qed.

Section PositionProperties.

Variable parse_iso_datetime : string -> option datetime.
Variable convert_xlog_location_to_offset : string -> option Z.

Local Abbreviation replication_positions :=
  (get_replication_positions parse_iso_datetime
     convert_xlog_location_to_offset).
Local Abbreviation step :=
  (record_position parse_iso_datetime convert_xlog_location_to_offset).
Local Abbreviation eligible := (eligible_standby parse_iso_datetime).
Local Abbreviation offset := (standby_offset convert_xlog_location_to_offset).

(** One iteration: a standby that is not eligible is passed over, an
    eligible one is recorded at its offset; the iteration raises only for
    a state that lacks a field it reads or has an unreadable one. *)
Lemma record_position_spec (self : PgLookout) (w : world) (p p' : positions)
  (hostname : string) (node_state : record) :
  step self w p (hostname, node_state) = Some p' ->
  (p' = p /\ ~ eligible self w hostname node_state)
  \/ (eligible self w hostname node_state
      /\ exists k, offset node_state = Some k
                   /\ p' = add_position k hostname p).
Proof.
  unfold record_position, eligible_standby, standby_offset.
  destruct (PyDict.get "connection" node_state) as [c|]; [|discriminate].
  cbn [bind]. destruct (truthy c) eqn:Ec.
  2:{ intros [= <-]. left. split; [reflexivity|].
      intros (c' & ft & t & [= <-] & Hc & _). congruence. }
  destruct (PyDict.get "fetch_time" node_state) as [ft|]; [|discriminate].
  cbn [bind]. destruct (parse_time parse_iso_datetime ft) as [t|] eqn:Et;
    [|discriminate].
  cbn [bind].
  destruct (utcnow_position w hostname - t <? timedelta_seconds 20) eqn:Efresh;
    cbn [andb].
  2:{ intros [= <-]. left. split; [reflexivity|].
      intros (c' & ft' & t' & _ & _ & [= <-] & Ht' & Hlt & _).
      rewrite Et in Ht'. injection Ht' as <-.
      apply Z.ltb_ge in Efresh. lia. }
  destruct (name_in hostname (never_promote_these_nodes self)) eqn:Enever;
    cbn [negb].
  { intros [= <-]. left. split; [reflexivity|].
    intros (c' & ft' & t' & _ & _ & _ & _ & _ & Hn). congruence. }
  intros Hrest. right. split.
  { exists c, ft, t. apply Z.ltb_lt in Efresh. repeat split; auto. }
  destruct (PyDict.get "pg_last_xlog_receive_location" node_state) as [recv|];
    [|discriminate].
  cbn [bind] in *.
  destruct (if truthy recv then Some recv
            else PyDict.get "pg_last_xlog_replay_location" node_state)
    as [lsn|]; [|discriminate].
  cbn [bind] in *.
  destruct (if truthy lsn
            then match lsn with
                 | VStr l => convert_xlog_location_to_offset l
                 | _ => None
                 end
            else Some 0) as [k|]; [|discriminate].
  cbn [bind] in Hrest. injection Hrest as <-. eauto.
Qed.

(** A recorded standby is an eligible standby of the node map, at its
    offset. *)
Lemma recorded_is_eligible (self : PgLookout) (w : world)
  (standby_nodes : dict record) (p : positions) :
  replication_positions self w standby_nodes = Some p ->
  forall k h,
    recorded p k h ->
    exists node_state,
      In (h, node_state) standby_nodes
      /\ eligible self w h node_state
      /\ offset node_state = Some k.
Proof.
  intros Hp. unfold get_replication_positions in Hp.
  refine (@for_each_invariant_In _ _
            (fun p : positions =>
               forall k h,
                 recorded p k h ->
                 exists node_state,
                   In (h, node_state) standby_nodes
                   /\ eligible self w h node_state
                   /\ offset node_state = Some k)
            _ _ _ _ _ _ Hp).
  - intros k h (hosts & Hget & _). discriminate.
  - intros s [hostname node_state] s' Hin Hs Hbody k h Hrec.
    destruct (record_position_spec _ _ _ _ _ Hbody)
      as [[-> _] | (Hel & k0 & Hoff & ->)]; [auto|].
    apply recorded_add_position in Hrec.
    destruct Hrec as [[-> ->] | Hrec]; eauto.
Qed.

(** X5.  Every standby that [get_replication_positions] records is a
    standby of the node map that is connected, was fetched less than 20
    seconds ago and is not on the never-promote list, and it is recorded
    at the offset of its receive location (of its replay location without
    one, 0 without both).  So the candidate of a failover is never a node
    of the never-promote list. *)
Theorem get_replication_positions_sound :
  forall (self : PgLookout) (w : world) (standby_nodes : dict record)
         (p : positions),
    replication_positions self w standby_nodes = Some p ->
    (forall k h,
        recorded p k h ->
        exists node_state,
          In (h, node_state) standby_nodes
          /\ eligible self w h node_state
          /\ offset node_state = Some k)
    /\ (forall candidate,
           furthest_along p = Some candidate ->
           name_in candidate (never_promote_these_nodes self) = false).
Proof.
  intros self w standby_nodes p Hp.
  split; [exact (fun k h => @recorded_is_eligible _ _ _ _ Hp k h)|].
  intros candidate Hf.
  destruct p as [|kv p']; [discriminate|].
  destruct (furthest_along_spec (p := kv :: p'))
    as (best & hosts & c & Hf' & Hbest & _ & Hin & _).
  - discriminate.
  - eapply positions_sets_not_empty; eauto.
  - rewrite Hf in Hf'. injection Hf' as <-.
    destruct (@recorded_is_eligible _ _ _ _ Hp best candidate)
      as (st & _ & Hel & _).
    + exists hosts. auto.
    + destruct Hel as (c & ft & t & _ & _ & _ & _ & _ & Hn). exact Hn.
Qed.

(** X6.  Every standby of the node map that is connected, fetched less
    than 20 seconds ago and not on the never-promote list is recorded, at
    its offset, whenever [get_replication_positions] returns. *)
Theorem get_replication_positions_complete :
  forall (self : PgLookout) (w : world) (standby_nodes : dict record)
         (p : positions) (h : string) (node_state : record),
    replication_positions self w standby_nodes = Some p ->
    In (h, node_state) standby_nodes ->
    eligible self w h node_state ->
    exists k, offset node_state = Some k /\ recorded p k h.
Proof.
  intros self w standby_nodes p h node_state.
  unfold get_replication_positions.
  generalize (@nil (Z * list string)). revert p.
  induction standby_nodes as [|[h0 st0] l IH]; intros p acc; cbn [for_each].
  - intros _ [].
  - destruct (step self w acc (h0, st0)) as [acc'|] eqn:E; cbn [bind];
      [|discriminate].
    intros Hfe [[= -> ->] | Hin] Hel.
    + destruct (record_position_spec _ _ _ _ _ E)
        as [[_ Hno] | (_ & k & Hoff & ->)]; [contradiction|].
      exists k. split; [exact Hoff|].
      assert (Hmono : forall l acc p k h,
                 for_each (step self w) l acc = Some p ->
                 recorded acc k h -> recorded p k h).
      { clear. induction l as [|[h1 st1] l IHl]; intros acc p k h;
          cbn [for_each].
        - intros [= <-]. auto.
        - destruct (step self w acc (h1, st1)) as [acc'|] eqn:E;
            cbn [bind]; [|discriminate].
          intros Hfe Hrec. apply (IHl _ _ _ _ Hfe).
          destruct (record_position_spec _ _ _ _ _ E)
            as [[-> _] | (_ & k1 & _ & ->)]; [exact Hrec|].
          apply recorded_add_position. auto. }
      apply (Hmono _ _ _ _ _ Hfe). apply recorded_add_position. auto.
    + eapply IH; eauto.
Qed.

End PositionProperties.

(** ** What the failover decision never does, and what follows a failover *)

Section DecisionSafety.

Variable parse_iso_datetime : string -> option datetime.
Variable get_iso_timestamp : datetime -> string.
Variable convert_xlog_location_to_offset : string -> option Z.

Local Abbreviation decide :=
  (do_failover_decision parse_iso_datetime get_iso_timestamp
     convert_xlog_location_to_offset).

(** X7.  A node that is on its own never-promote list never runs the
    failover command, however far along it is. *)
Theorem never_promoted_node_never_fails_over :
  forall (self : PgLookout) (w : world) (own_state : option record)
         (standby_nodes : dict record) (own : string),
    own_db self = Some own ->
    name_in own (never_promote_these_nodes self) = true ->
    invokes_command (fst (decide self w own_state standby_nodes)) = false.
Proof.
  intros self w own_state standby_nodes own Hown Hnever.
  destruct (invokes_command (fst (decide self w own_state standby_nodes)))
    eqn:Hinv; [|reflexivity].
  apply decision_invokes_only_after_gates in Hinv.
  destruct Hinv as (p & host & Hg & _).
  pose proof (gate_never_promote Hg) as Hn.
  rewrite Hown, Hnever in Hn. discriminate.
Qed.

(** X8.  While the maintenance-mode file exists, no failover command is
    run. *)
Theorem maintenance_mode_blocks_failover :
  forall (self : PgLookout) (w : world) (own_state : option record)
         (standby_nodes : dict record) (path : string),
    get_default "maintenance_mode_file"
      (VStr "/tmp/pglookout_maintenance_mode_file") (config self) = VStr path ->
    path_exists w path = true ->
    invokes_command (fst (decide self w own_state standby_nodes)) = false.
Proof.
  intros self w own_state standby_nodes path Hpath Hexists.
  destruct (invokes_command (fst (decide self w own_state standby_nodes)))
    eqn:Hinv; [|reflexivity].
  apply decision_invokes_only_after_gates in Hinv.
  destruct Hinv as (p & host & Hg & _).
  pose proof (gate_maintenance Hg) as Hm.
  unfold check_for_maintenance_mode_file in Hm.
  rewrite Hpath, Hexists in Hm. discriminate.
Qed.

(** X9.  The candidate that a failover promotes is always a standby of the
    node map that is connected, fetched less than 20 seconds ago and not on
    the never-promote list: a command is run only with such a candidate,
    and with a record of the own node equal to the candidate's. *)
Theorem failover_candidate_is_eligible :
  forall (self : PgLookout) (w : world) (own_state : option record)
         (standby_nodes : dict record),
    invokes_command (fst (decide self w own_state standby_nodes)) = true ->
    exists candidate node_state own,
      In (candidate, node_state) standby_nodes
      /\ eligible_standby parse_iso_datetime self w candidate node_state
      /\ own_state = Some own.
Proof.
  intros self w own_state standby_nodes Hinv.
  apply decision_invokes_only_after_gates in Hinv.
  destruct Hinv as (p & host & Hg & _).
  pose proof (gate_positions Hg) as Hp.
  pose proof (gate_furthest Hg) as Hf.
  destruct (gate_self Hg) as (st & _ & Heq).
  destruct own_state as [own|]; [|discriminate Heq].
  destruct (furthest_along_spec (gate_positions_known Hg)
              (positions_sets_not_empty _ _ _ _ _ Hp))
    as (best & hosts & c & Hf' & Hbest & _ & Hin & _).
  rewrite Hf in Hf'. injection Hf' as <-.
  destruct (@recorded_is_eligible _ _ _ _ _ _ Hp best host)
    as (node_state & Hmem & Hel & _).
  - exists hosts. auto.
  - exists host, node_state, own. auto.
Qed.

(** X10.  What follows a failover: when the failover command returns, the
    alert [failover_has_happened] is raised whatever the return code; the
    over-warning flag is cleared and the alert [replication_delay_warning]
    deleted exactly when the return code is 0; nothing else of the object
    changes. *)
Theorem failover_aftermath :
  forall (self : PgLookout) (w : world) (own_state : option record)
         (standby_nodes : dict record) (return_code : Z),
    invokes_command (fst (decide self w own_state standby_nodes)) = true ->
    command_result w (failover_command self) = Some return_code ->
    let events := fst (decide self w own_state standby_nodes) in
    let after := snd (decide self w own_state standby_nodes) in
    (exists rest,
        events = ExecuteExternalCommand (failover_command self)
                 :: CreateAlertFile "failover_has_happened" :: rest)
    /\ (In (DeleteAlertFile "replication_delay_warning") events
        <-> return_code = 0 /\ after <> None)
    /\ (forall self', after = Some self' ->
                      self' = if return_code =? 0
                              then set_over_warning_limit false self
                              else self).
Proof.
  intros self w own_state standby_nodes rc Hinv Hrc.
  pose proof Hinv as Hinv'.
  apply decision_invokes_only_after_gates in Hinv'.
  destruct Hinv' as (p & host & Hg & Hq).
  cbv zeta. rewrite (decision_after_gates Hg), Hq.
  unfold run_failover. rewrite Hrc.
  destruct (num_of _) as [seconds|].
  - destruct (Qltb seconds 0).
    + cbn. split; [eauto|]. split.
      * split; [intros [H|[H|[]]]; discriminate | intros [_ H]; congruence].
      * discriminate.
    + destruct (rc =? 0) eqn:E.
      * apply Z.eqb_eq in E. cbn. split; [eauto|]. split.
        -- split; [intros _; split; [exact E | discriminate] | auto].
        -- intros self' [= <-]. reflexivity.
      * apply Z.eqb_neq in E. cbn. split; [eauto|]. split.
        -- split; [intros [H|[H|[H|[]]]]; discriminate | intros [H _]; lia].
        -- intros self' [= <-]. reflexivity.
  - cbn. split; [eauto|]. split.
    + split; [intros [H|[H|[]]]; discriminate | intros [_ H]; congruence].
    + discriminate.
Qed.

End DecisionSafety.

(** ** Probes of cluster members *)

(** An assignment keeps the order of the keys; a new key goes last. *)
Lemma keys_set {K V} `{KeyEq K} (k : K) (v : V) (d : PyDict.t K V) :
  PyDict.keys (PyDict.set k v d)
  = if PyDict.contains k d then PyDict.keys d else PyDict.keys d ++ [k].
Proof.
  unfold PyDict.contains, PyDict.keys.
  induction d as [|[k0 v0] d IH]; cbn [PyDict.set PyDict.get map fst app].
  - reflexivity.
  - destruct (key_eqb k k0) eqn:E; cbn [map fst].
    + apply key_eqb_spec in E. now subst.
    + rewrite IH. destruct (PyDict.get k d); reflexivity.
Qed.

Section ProbeProperties.

Variable get_iso_timestamp : datetime -> string.

Local Abbreviation query := (_query_cluster_member_state get_iso_timestamp).
Local Abbreviation parse_row :=
  (_parse_status_query_result get_iso_timestamp).
Local Abbreviation update_member :=
  (update_cluster_member_state get_iso_timestamp).

(** X11.  A master that was promoted from a standby gives the same record
    as a master that never was one: its replay timestamp, receive location
    and lag are [None]. *)
Theorem promoted_master_looks_like_born_master :
  forall (row : status_row),
    pg_is_in_recovery row = false ->
    parse_row (Some row) = parse_row (Some (born_master row))
    /\ PyDict.get "replication_time_lag" (parse_row (Some row)) = Some VNone
    /\ PyDict.get "pg_last_xact_replay_timestamp" (parse_row (Some row))
       = Some VNone
    /\ PyDict.get "pg_last_xlog_receive_location" (parse_row (Some row))
       = Some VNone
    /\ PyDict.get "connection" (parse_row (Some row)) = Some (VBool true).
Proof.
  intros [t rec ts recv rep slots]. cbn [pg_is_in_recovery]. intros ->.
  destruct ts as [ts|], slots as [slots|]; repeat split; reflexivity.
Qed.

(** The record of a probe that got no row. *)
Lemma query_failed (now : datetime) :
  query now None
  = [("fetch_time", VStr (get_iso_timestamp now)); ("connection", VBool false)].
Proof. reflexivity. Qed.

(** The pieces of one call of [update_cluster_member_state]. *)
Lemma update_member_shape (self self' : ClusterMonitor) (instance : string)
  (now : datetime) (monotonic : Q) (f_result : option status_row) :
  update_member self instance now monotonic f_result = Some self' ->
  exists entry,
    maintain_lowest_lag
      match PyDict.get instance (cluster_state self) with
      | Some old => PyDict.update old (query now f_result)
      | None =>
          if truthy (get_or_None "pg_last_xlog_receive_location"
                       (query now f_result))
          then PyDict.setdefault "replication_start_time" (VNum monotonic)
                 (query now f_result)
          else query now f_result
      end
      (get_or_None "replication_time_lag" (query now f_result))
    = Some entry
    /\ cluster_state self' = PyDict.set instance entry (cluster_state self)
    /\ observer_state self' = observer_state self.
Proof.
  unfold update_cluster_member_state. cbv zeta.
  destruct (truthy (get_or_None "pg_last_xlog_receive_location"
                      (query now f_result))).
  - unfold get_or_None at 1 2. unfold get_default.
    rewrite get_setdefault_other by discriminate.
    fold (get_default "replication_time_lag" VNone (query now f_result)).
    fold (get_or_None "replication_time_lag" (query now f_result)).
    destruct (maintain_lowest_lag _ _) as [entry|]; [|discriminate].
    cbn [bind]. intros [= <-]. exists entry. auto.
  - destruct (maintain_lowest_lag _ _) as [entry|]; [|discriminate].
    cbn [bind]. intros [= <-]. exists entry. auto.
Qed.

(** What "maintain lowest seen lag" changes: only the lowest lag, which
    stays or becomes the current lag. *)
Lemma maintain_lowest_lag_frame (entry entry' : record) (now_lag : value) :
  maintain_lowest_lag entry now_lag = Some entry' ->
  (forall k, k <> "min_replication_time_lag" ->
             PyDict.get k entry' = PyDict.get k entry)
  /\ (PyDict.get "min_replication_time_lag" entry'
      = PyDict.get "min_replication_time_lag" entry
      \/ PyDict.get "min_replication_time_lag" entry' = Some now_lag).
Proof.
  unfold maintain_lowest_lag.
  destruct (is_None now_lag); cbn [negb]; [intros [= <-]; auto|].
  unfold get_or_None, get_default.
  destruct (PyDict.get "min_replication_time_lag" entry) as [m|] eqn:Em.
  - destruct (is_None m).
    + intros [= <-]. split.
      * intros k Hk. now apply get_set_other.
      * right. apply get_set_same.
    + unfold py_min2. destruct (num_of m) as [qa|]; [|discriminate].
      cbn [bind]. destruct (num_of now_lag) as [qb|]; [|discriminate].
      cbn [bind]. intros [= <-]. split.
      * intros k Hk. now apply get_set_other.
      * rewrite get_set_same. destruct (Qltb qb qa); auto.
  - cbn [is_None]. intros [= <-]. split.
    + intros k Hk. now apply get_set_other.
    + right. apply get_set_same.
Qed.

(** X12.  A probe that fails degrades the record of the member and keeps
    what earlier probes found: [connection] becomes false, [fetch_time]
    the time of the probe, every other field stays; a member seen for the
    first time gets a record of just these two fields. *)
Theorem failed_probe_keeps_earlier_fields :
  forall (self : ClusterMonitor) (instance : string) (now : datetime)
         (monotonic : Q),
    exists self' entry,
      update_member self instance now monotonic None = Some self'
      /\ PyDict.get instance (cluster_state self') = Some entry
      /\ PyDict.get "connection" entry = Some (VBool false)
      /\ PyDict.get "fetch_time" entry = Some (VStr (get_iso_timestamp now))
      /\ known_replication_slots self' = known_replication_slots self
      /\ match PyDict.get instance (cluster_state self) with
         | Some old =>
             forall k, k <> "connection" -> k <> "fetch_time" ->
                       PyDict.get k entry = PyDict.get k old
         | None => entry = query now None
         end.
Proof.
  intros self instance now monotonic.
  unfold update_cluster_member_state. rewrite query_failed. cbv zeta.
  set (result := [("fetch_time", VStr (get_iso_timestamp now));
                  ("connection", VBool false)]).
  change (truthy (get_or_None "pg_last_xlog_receive_location" result))
    with false.
  cbv iota.
  change (get_or_None "replication_time_lag" result) with VNone.
  change (PyDict.get "replication_slots" result) with (@None value).
  unfold maintain_lowest_lag. cbn [is_None negb bind].
  eexists _, _. split; [reflexivity|]. cbn [cluster_state].
  rewrite get_set_same. split; [reflexivity|].
  destruct (PyDict.get instance (cluster_state self)) as [old|].
  - rewrite !get_update.
    change (PyDict.last_value "connection" result) with (Some (VBool false)).
    change (PyDict.last_value "fetch_time" result)
      with (Some (VStr (get_iso_timestamp now))).
    repeat split.
    intros k Hc Hf. rewrite get_update. subst result.
    unfold PyDict.last_value. cbn.
    destruct (String.eqb_spec k "connection"); [contradiction|].
    destruct (String.eqb_spec k "fetch_time"); [contradiction|].
    reflexivity.
  - repeat split.
Qed.

(** X13.  A probe of one member changes the record of no other member and
    nothing of the observer state; the order of the members stays, a new
    member goes last. *)
Theorem probe_touches_one_member :
  forall (self self' : ClusterMonitor) (instance : string) (now : datetime)
         (monotonic : Q) (f_result : option status_row),
    update_member self instance now monotonic f_result = Some self' ->
    observer_state self' = observer_state self
    /\ (forall other, other <> instance ->
                      PyDict.get other (cluster_state self')
                      = PyDict.get other (cluster_state self))
    /\ PyDict.keys (cluster_state self')
       = if PyDict.contains instance (cluster_state self)
         then PyDict.keys (cluster_state self)
         else PyDict.keys (cluster_state self) ++ [instance].
Proof.
  intros self self' instance now monotonic f_result Hstep.
  destruct (update_member_shape _ _ _ _ _ Hstep) as (entry & _ & Hcs & Hos).
  rewrite Hcs. split; [exact Hos|]. split.
  - intros other Hne. now apply get_set_other.
  - apply keys_set.
Qed.

(** The lag that a probe computes is not negative, also when the replay
    timestamp is ahead of the time of the database. *)
Lemma query_lag_not_negative (now : datetime) (f_result : option status_row)
  (b : Q) :
  PyDict.get "replication_time_lag" (query now f_result) = Some (VNum b) ->
  (0 <= b)%Q.
Proof.
  destruct f_result as [[t rec ts recv rep slots]|]; [|discriminate].
  destruct rec, ts as [ts|], slots as [slots|]; cbn; try discriminate;
    intros [= <-]; unfold total_seconds, Qle; cbn; lia.
Qed.

Lemma update_member_not_negative (self self' : ClusterMonitor)
  (instance : string) (now : datetime) (monotonic : Q)
  (f_result : option status_row) :
  (forall host r, In (host, r) (cluster_state self) -> lag_not_negative r) ->
  update_member self instance now monotonic f_result = Some self' ->
  forall host r, In (host, r) (cluster_state self') -> lag_not_negative r.
Proof.
  intros Hinv Hstep.
  destruct (update_member_shape _ _ _ _ _ Hstep) as (entry & Hm & Hcs & _).
  destruct (maintain_lowest_lag_frame _ _ Hm) as [Hframe Hmin].
  destruct (query_lag_fields get_iso_timestamp now f_result)
    as (Qmin & Qlmin & lag & Qlag & Qllag & _).
  rewrite Hcs. intros host r Hin. apply In_set in Hin.
  destruct Hin as [[= -> ->] | Hin]; [|eauto].
  assert (Hold : forall k b,
             k = "replication_time_lag" \/ k = "min_replication_time_lag" ->
             PyDict.get k
               match PyDict.get instance (cluster_state self) with
               | Some old => PyDict.update old (query now f_result)
               | None =>
                   if truthy (get_or_None "pg_last_xlog_receive_location"
                                (query now f_result))
                   then PyDict.setdefault "replication_start_time"
                          (VNum monotonic) (query now f_result)
                   else query now f_result
               end = Some (VNum b) ->
             (0 <= b)%Q).
  { intros k b Hk.
    destruct (PyDict.get instance (cluster_state self)) as [old|] eqn:Eold.
    - rewrite get_update. apply get_In in Eold.
      destruct Hk as [-> | ->].
      + rewrite Qllag, <- Qlag.
        destruct (PyDict.get "replication_time_lag" (query now f_result))
          as [v|] eqn:Ev.
        * intros [= ->]. eapply query_lag_not_negative; eauto.
        * apply (Hinv _ _ Eold). auto.
      + rewrite Qlmin. apply (Hinv _ _ Eold). auto.
    - assert (Hsame : PyDict.get k
                        (if truthy (get_or_None "pg_last_xlog_receive_location"
                                      (query now f_result))
                         then PyDict.setdefault "replication_start_time"
                                (VNum monotonic) (query now f_result)
                         else query now f_result)
                      = PyDict.get k (query now f_result)).
      { destruct (truthy _); [|reflexivity].
        apply get_setdefault_other. destruct Hk as [-> | ->]; discriminate. }
      rewrite Hsame. destruct Hk as [-> | ->].
      + apply query_lag_not_negative.
      + rewrite Qmin. discriminate. }
  intros k b Hk Hget.
  destruct Hk as [-> | ->].
  - rewrite Hframe in Hget by discriminate.
    apply (Hold "replication_time_lag" b); auto.
  - destruct Hmin as [Hsame | Hnew].
    + rewrite Hsame in Hget.
      apply (Hold "min_replication_time_lag" b); auto.
    + rewrite Hnew in Hget. injection Hget as Hget.
      unfold get_or_None, get_default in Hget.
      destruct (PyDict.get "replication_time_lag" (query now f_result))
        as [v|] eqn:Ev; [|discriminate].
      subst v. eapply query_lag_not_negative; eauto.
Qed.

(** X14.  In every state the monitor goes through, no record of the
    cluster state has a negative [replication_time_lag] or
    [min_replication_time_lag]: the lag is the distance between the time
    of the database and the replay timestamp, whichever is ahead. *)
Theorem recorded_lag_is_never_negative :
  forall parse_iso_datetime (self : ClusterMonitor) (host : string)
         (r : record),
    monitor_reachable parse_iso_datetime get_iso_timestamp self ->
    In (host, r) (cluster_state self) ->
    lag_not_negative r.
Proof.
  intros parse self host r Hreach. revert host r.
  induction Hreach as [|self instance now monotonic f_result self' _ IH Hstep
                       |self instance now http _ IH
                       |self leftover _ IH].
  - intros host r [].
  - eapply update_member_not_negative; eauto.
  - unfold fetch_observer_state.
    destruct (_fetch_observer_state _ _ _ _) as [result|]; [|exact IH].
    destruct (truthy (VDict result)); exact IH.
  - intros host r Hin. cbn in Hin. apply In_pop in Hin. eauto.
Qed.

(** X15.  The replication slots are remembered for when the master goes
    away: a probe that brings slots replaces the cache, with the instance
    and the time; any other probe, failed or of a server without slot
    data, leaves the cache as it is. *)
Theorem replication_slots_are_remembered :
  forall (self self' : ClusterMonitor) (instance : string) (now : datetime)
         (monotonic : Q) (f_result : option status_row),
    update_member self instance now monotonic f_result = Some self' ->
    known_replication_slots self'
    = match f_result with
      | Some row =>
          match replication_slots row with
          | Some slots =>
              [("instance", VStr instance); ("slots", VList slots);
               ("last_updated", VNum monotonic)]
          | None => known_replication_slots self
          end
      | None => known_replication_slots self
      end.
Proof.
  intros self self' instance now monotonic f_result.
  unfold update_cluster_member_state. cbv zeta.
  destruct (maintain_lowest_lag _ _) as [entry|]; [|discriminate].
  cbn [bind]. intros [= <-]. cbn [known_replication_slots].
  assert (Hslots : forall r : record,
             PyDict.get "replication_slots"
               (if truthy (get_or_None "pg_last_xlog_receive_location" r)
                then PyDict.setdefault "replication_start_time"
                       (VNum monotonic) r
                else r)
             = PyDict.get "replication_slots" r).
  { intros r. destruct (truthy _); [|reflexivity].
    now rewrite get_setdefault_other by discriminate. }
  rewrite Hslots.
  destruct f_result as [[t rec ts recv rep slots]|]; [|reflexivity].
  destruct rec, ts as [ts|], slots as [slots|]; reflexivity.
Qed.

(** X16.  [replication_start_time] is written only into the record that a
    first probe creates, when that probe finds a receive location; a
    record that is already there never gets or changes it. *)
Theorem replication_start_time_only_at_creation :
  forall (self self' : ClusterMonitor) (instance : string) (now : datetime)
         (monotonic : Q) (f_result : option status_row) (entry : record),
    update_member self instance now monotonic f_result = Some self' ->
    PyDict.get instance (cluster_state self') = Some entry ->
    PyDict.get "replication_start_time" entry
    = match PyDict.get instance (cluster_state self) with
      | Some old => PyDict.get "replication_start_time" old
      | None =>
          if truthy (get_or_None "pg_last_xlog_receive_location"
                       (query now f_result))
          then Some (VNum monotonic)
          else None
      end.
Proof.
  intros self self' instance now monotonic f_result entry Hstep Hentry.
  destruct (update_member_shape _ _ _ _ _ Hstep) as (entry' & Hm & Hcs & _).
  rewrite Hcs, get_set_same in Hentry. injection Hentry as <-.
  destruct (maintain_lowest_lag_frame _ _ Hm) as [Hframe _].
  rewrite Hframe by discriminate.
  assert (Hnone : PyDict.get "replication_start_time" (query now f_result)
                  = None
                  /\ PyDict.last_value "replication_start_time"
                       (query now f_result) = None).
  { destruct f_result as [[t rec ts recv rep slots]|]; [|split; reflexivity].
    destruct rec, ts as [ts|], slots as [slots|]; split; reflexivity. }
  destruct Hnone as [Hget Hlast].
  destruct (PyDict.get instance (cluster_state self)) as [old|].
  - rewrite get_update, Hlast. reflexivity.
  - destruct (truthy _); [|exact Hget].
    unfold PyDict.setdefault, PyDict.contains. rewrite Hget.
    apply get_set_same.
Qed.

End ProbeProperties.

(** ** Fetches of observers *)

Lemma not_In_keys_get {K V} `{KeyEq K} (k : K) (d : PyDict.t K V) :
  ~ In k (PyDict.keys d) <-> PyDict.get k d = None.
Proof.
  split.
  - intros Hno. destruct (PyDict.get k d) as [v|] eqn:E; [|reflexivity].
    exfalso. apply Hno. eapply get_In_keys; eauto.
  - intros Hget Hin. destruct (In_keys_get _ _ Hin) as [v Hv]. congruence.
Qed.

Lemma set_keeps_NoDup {K V} `{KeyEq K} (k : K) (v : V) (d : PyDict.t K V) :
  NoDup (PyDict.keys d) -> NoDup (PyDict.keys (PyDict.set k v d)).
Proof.
  intros Hd. rewrite keys_set. unfold PyDict.contains.
  destruct (PyDict.get k d) eqn:E; [exact Hd|].
  apply not_In_keys_get in E.
  apply NoDup_app; [exact Hd | repeat constructor; intros [] |].
  intros x Hx [<- | []]. contradiction.
Qed.

Lemma update_keeps_NoDup {K V} `{KeyEq K} (d e : PyDict.t K V) :
  NoDup (PyDict.keys d) -> NoDup (PyDict.keys (PyDict.update d e)).
Proof.
  unfold PyDict.update. revert d.
  induction e as [|[k v] e IH]; intros d Hd; cbn [fold_left fst snd].
  - exact Hd.
  - apply IH. now apply set_keeps_NoDup.
Qed.

Lemma last_value_from {K V} `{KeyEq K} (k : K) (d : PyDict.t K V)
  (acc : option V) :
  fold_left (fun a kv => if key_eqb k (fst kv) then Some (snd kv) else a) d acc
  = match PyDict.last_value k d with
    | Some v => Some v
    | None => acc
    end.
Proof.
  unfold PyDict.last_value. revert acc.
  induction d as [|[k0 v0] d IH]; intros acc; cbn [fold_left fst snd].
  - reflexivity.
  - rewrite (IH (if key_eqb k k0 then Some v0 else acc)),
            (IH (if key_eqb k k0 then Some v0 else None)).
    destruct (fold_left _ d None); [reflexivity|].
    destruct (key_eqb k k0); reflexivity.
Qed.

(** In a dict, where no key comes twice, the last value of a key is its
    value. *)
Lemma last_value_get {K V} `{KeyEq K} (k : K) (d : PyDict.t K V) :
  NoDup (PyDict.keys d) -> PyDict.last_value k d = PyDict.get k d.
Proof.
  induction d as [|[k0 v0] d IH]; intros Hd.
  - reflexivity.
  - cbn in Hd. inversion Hd as [|? ? Hno Hd']; subst.
    unfold PyDict.last_value. cbn [fold_left fst snd PyDict.get].
    rewrite last_value_from.
    destruct (key_eqb k k0) eqn:E.
    + apply key_eqb_spec in E. subst k0.
      change (~ In k (PyDict.keys d)) in Hno.
      apply not_In_keys_get in Hno.
      rewrite (IH Hd'), Hno. reflexivity.
    + rewrite (IH Hd'). destruct (PyDict.get k d); reflexivity.
Qed.

Lemma last_value_update_unique {K V} `{KeyEq K} (k : K) (d e : PyDict.t K V) :
  NoDup (PyDict.keys d) ->
  PyDict.last_value k (PyDict.update d e) = PyDict.get k (PyDict.update d e).
Proof.
  intros Hd. apply last_value_get. now apply update_keeps_NoDup.
Qed.

Section FetchProperties.

Variable parse_iso_datetime : string -> option datetime.
Variable get_iso_timestamp : datetime -> string.

Local Abbreviation fetch :=
  (_fetch_observer_state parse_iso_datetime get_iso_timestamp).
Local Abbreviation fetch_and_store :=
  (fetch_observer_state parse_iso_datetime get_iso_timestamp).

(** X17.  [_fetch_observer_state] returns [None] in one case only: a
    response with a readable date that is more than five seconds behind
    the own clock, and with a readable body. *)
Theorem fetch_returns_None_only_on_skew :
  forall (now : datetime) (http : http_outcome),
    parse_iso_datetime (get_iso_timestamp now) = Some now ->
    (fetch now http = None
     <-> exists remote body,
           http = HttpResponse (Some remote) (Some body)
           /\ timedelta_seconds 5 < now - remote).
Proof.
  intros now http Hparse. unfold _fetch_observer_state. rewrite Hparse.
  destruct http as [| |[remote|] [body|]]; cbn [PyDict.set];
    try (split; [discriminate | intros (r & b & [=] & _)]).
  - destruct (timedelta_seconds 5 <? now - remote) eqn:E.
    + apply Z.ltb_lt in E. split; [eauto|reflexivity].
    + apply Z.ltb_ge in E. split; [discriminate|].
      intros (r & b & [= <- <-] & Hlt). lia.
  - destruct (timedelta_seconds 5 <? now - remote);
      (split; [discriminate | intros (r & b & [=] & _)]).
Qed.

(** The ways a fetch fails: no connection, another error, a response
    without a readable date or without a readable body. *)
Lemma fetch_failures (now : datetime) (http : http_outcome) :
  match http with
  | HttpConnectionError | HttpOtherError => True
  | HttpResponse date json => date = None \/ json = None
  end ->
  fetch now http
  = Some [("fetch_time", VStr (get_iso_timestamp now));
          ("connection", VBool false)].
Proof.
  unfold _fetch_observer_state.
  destruct http as [| |[remote|] [body|]]; try reflexivity.
  - intros [[=] | [=]].
  - intros _. destruct (parse_iso_datetime _); [|reflexivity].
    destruct (_ <? _); reflexivity.
Qed.

(** X18.  A fetch that fails, for want of a connection, by another error,
    or on a response without a readable date or body, marks the observer
    as not connected and keeps what it reported before: [connection]
    becomes false, [fetch_time] the time of the fetch, every other key of
    the record stays. *)
Theorem failed_fetch_keeps_earlier_views :
  forall (self : ClusterMonitor) (instance : string) (now : datetime)
         (http : http_outcome),
    match http with
    | HttpConnectionError | HttpOtherError => True
    | HttpResponse date json => date = None \/ json = None
    end ->
    exists r,
      PyDict.get instance (observer_state (fetch_and_store self instance now http))
      = Some r
      /\ PyDict.get "connection" r = Some (VBool false)
      /\ PyDict.get "fetch_time" r = Some (VStr (get_iso_timestamp now))
      /\ (forall old k,
             PyDict.get instance (observer_state self) = Some old ->
             k <> "connection" -> k <> "fetch_time" ->
             PyDict.get k r = PyDict.get k old)
      /\ cluster_state (fetch_and_store self instance now http)
         = cluster_state self.
Proof.
  intros self instance now http Hfail.
  unfold fetch_observer_state. rewrite (fetch_failures _ _ Hfail).
  cbn [truthy observer_state cluster_state].
  destruct (PyDict.get instance (observer_state self)) as [old|] eqn:Eold;
    rewrite get_set_same; eexists; (split; [reflexivity|]).
  - rewrite !get_update. repeat split.
    intros old' k [= <-] Hc Hf. rewrite get_update.
    unfold PyDict.last_value. cbn.
    destruct (String.eqb_spec k "fetch_time"); [contradiction|].
    destruct (String.eqb_spec k "connection"); [contradiction|].
    reflexivity.
  - repeat split. intros old k [=].
Qed.

(** X19.  A fetch that succeeds, its date not more than five seconds
    behind the own clock, stores what the observer says: every key of the
    body is in the record with the value the body gives it, the record is
    marked as connected and stamped with the time of the fetch unless the
    body itself has these keys, and keys that the body does not have stay
    as they were. *)
Theorem successful_fetch_stores_the_body :
  forall (self : ClusterMonitor) (instance : string) (now remote : datetime)
         (body : record),
    parse_iso_datetime (get_iso_timestamp now) = Some now ->
    now - remote <= timedelta_seconds 5 ->
    exists r,
      PyDict.get instance
        (observer_state
           (fetch_and_store self instance now
              (HttpResponse (Some remote) (Some body)))) = Some r
      /\ (forall k,
             PyDict.get k r
             = match PyDict.last_value k body with
               | Some v => Some v
               | None =>
                   if String.eqb k "fetch_time"
                   then Some (VStr (get_iso_timestamp now))
                   else if String.eqb k "connection"
                        then Some (VBool true)
                        else match PyDict.get instance (observer_state self) with
                             | Some old => PyDict.get k old
                             | None => None
                             end
               end).
Proof.
  intros self instance now remote body Hparse Hle.
  unfold fetch_observer_state, _fetch_observer_state. rewrite Hparse.
  replace (timedelta_seconds 5 <? now - remote) with false
    by (symmetry; apply Z.ltb_ge; exact Hle).
  set (stamped := [("fetch_time", VStr (get_iso_timestamp now));
                   ("connection", VBool true)]).
  assert (Htruthy : truthy (VDict (PyDict.update stamped body)) = true).
  { assert (Hget : PyDict.get "fetch_time" (PyDict.update stamped body)
                   <> None).
    { rewrite get_update. destruct (PyDict.last_value _ body); discriminate. }
    destruct (PyDict.update stamped body); [contradiction | reflexivity]. }
  rewrite Htruthy. cbn [observer_state].
  assert (Hstamped : forall k,
             PyDict.get k (PyDict.update stamped body)
             = match PyDict.last_value k body with
               | Some v => Some v
               | None =>
                   if String.eqb k "fetch_time"
                   then Some (VStr (get_iso_timestamp now))
                   else if String.eqb k "connection"
                        then Some (VBool true)
                        else None
               end).
  { intros k. rewrite get_update. subst stamped. cbn. reflexivity. }
  assert (Hlast : forall k,
             PyDict.last_value k (PyDict.update stamped body)
             = PyDict.get k (PyDict.update stamped body)).
  { intros k. apply last_value_update_unique. subst stamped.
    repeat constructor; cbn; intuition discriminate. }
  destruct (PyDict.get instance (observer_state self)) as [old|];
    rewrite get_set_same; eexists; (split; [reflexivity|]); intros k.
  - rewrite get_update, Hlast, Hstamped.
    destruct (PyDict.last_value k body); [reflexivity|].
    destruct (String.eqb k "fetch_time"); [reflexivity|].
    destruct (String.eqb k "connection"); reflexivity.
  - apply Hstamped.
Qed.

End FetchProperties.

(** ** The supervisor *)

Lemma and_then_return {A} (first : list event * option A) :
  and_then first (fun a => ([], Some a)) = first.
Proof.
  destruct first as [events [a|]]; cbn; [|reflexivity].
  now rewrite app_nil_r.
Qed.

Lemma Qle_bool_false (a b : Q) : Qle_bool a b = false <-> (b < a)%Q.
Proof.
  split.
  - intros Hf. apply Qnot_le_lt. intros Hle.
    apply Qle_bool_iff in Hle. congruence.
  - intros Hlt. destruct (Qle_bool a b) eqn:E; [|reflexivity].
    apply Qle_bool_iff in E. exfalso. now apply (Qlt_not_le b a).
Qed.

(** The first [if]/[elif] of [check_replication_lag] by itself: the
    over-warning flag follows the lag across the boundary, with the alert
    made on the way up and removed on the way down. *)
Lemma update_lag_warning_edges :
  forall (self : PgLookout) (w : world) (lag : Q),
    let over := Qle_bool (replication_lag_warning_boundary self) lag in
    let events := fst (update_lag_warning self w lag) in
    (forall self', snd (update_lag_warning self w lag) = Some self' ->
                   self' = set_over_warning_limit over self
                   \/ (self' = self
                       /\ replication_lag_over_warning_limit self = over))
    /\ (In (CreateAlertFile "replication_delay_warning") events
        <-> replication_lag_over_warning_limit self = false /\ over = true)
    /\ (In (DeleteAlertFile "replication_delay_warning") events
        <-> replication_lag_over_warning_limit self = true /\ over = false)
    /\ (invokes_command events = true ->
        replication_lag_over_warning_limit self = false /\ over = true
        /\ events = [CreateAlertFile "replication_delay_warning";
                     ExecuteExternalCommand
                       match argv_of (over_warning_limit_command self) with
                       | Some argv => argv
                       | None => []
                       end])
    /\ (replication_lag_over_warning_limit self = over ->
        update_lag_warning self w lag = ([], Some self)).
Proof.
  intros self w lag. cbv zeta. unfold update_lag_warning.
  destruct (Qle_bool (replication_lag_warning_boundary self) lag);
    destruct (replication_lag_over_warning_limit self) eqn:Eflag;
    cbn [negb].
  - refine (conj _ (conj _ (conj _ (conj _ _)))); cbn;
      try (intuition discriminate).
    intros self' [= <-]. auto.
  - cbn [over_warning_limit_command set_over_warning_limit].
    destruct (truthy (over_warning_limit_command self)).
    + unfold execute_external_command.
      destruct (argv_of (over_warning_limit_command self)) as [[|a argv]|].
      * refine (conj _ (conj _ (conj _ (conj _ _)))); cbn;
          try (intuition discriminate).
      * destruct (command_result w (a :: argv)) as [rc|];
          (refine (conj _ (conj _ (conj _ (conj _ _)))); cbn;
           try (intuition discriminate));
          try (intros self' [= <-]; auto).
      * refine (conj _ (conj _ (conj _ (conj _ _)))); cbn;
          try (intuition discriminate).
    + refine (conj _ (conj _ (conj _ (conj _ _)))); cbn;
        try (intuition discriminate).
      intros self' [= <-]. auto.
  - refine (conj _ (conj _ (conj _ (conj _ _)))); cbn;
      try (intuition discriminate).
    intros self' [= <-]. auto.
  - refine (conj _ (conj _ (conj _ (conj _ _)))); cbn;
      try (intuition discriminate).
    intros self' [= <-]. auto.
Qed.

Lemma update_lag_warning_state (self self' : PgLookout) (w : world) (lag : Q) :
  snd (update_lag_warning self w lag) = Some self' ->
  self' = self \/ exists b, self' = set_over_warning_limit b self.
Proof.
  unfold update_lag_warning.
  destruct (Qle_bool _ _); destruct (replication_lag_over_warning_limit self);
    cbn [negb].
  - intros [= <-]. now left.
  - cbn [over_warning_limit_command set_over_warning_limit].
    destruct (truthy _).
    + unfold execute_external_command.
      destruct (argv_of _) as [[|a argv]|]; cbn; try discriminate.
      destruct (command_result w (a :: argv)); cbn; try discriminate.
      intros [= <-]. right. now exists true.
    + cbn. intros [= <-]. right. now exists true.
  - cbn. intros [= <-]. right. now exists false.
  - intros [= <-]. now left.
Qed.

Lemma update_lag_warning_events (self : PgLookout) (w : world) (lag : Q)
  (e : event) :
  In e (fst (update_lag_warning self w lag)) -> lag_warning_event self e.
Proof.
  unfold update_lag_warning, lag_warning_event.
  destruct (Qle_bool _ _); destruct (replication_lag_over_warning_limit self);
    cbn [negb].
  - intros [].
  - cbn [over_warning_limit_command set_over_warning_limit].
    destruct (truthy _).
    + unfold execute_external_command.
      destruct (argv_of _) as [[|a argv]|] eqn:Eargv; cbn.
      * intros [<-|[]]. now left.
      * destruct (command_result w (a :: argv)); cbn;
          (intros [<-|[<-|[]]]; [now left|]);
          right; right; now exists (a :: argv).
      * intros [<-|[]]. now left.
    + cbn. intros [<-|[]]. now left.
  - cbn. intros [<-|[]]. right. now left.
  - intros [].
Qed.

Lemma and_then_events {A B} (first : list event * option A)
  (next : A -> list event * option B) (e : event) :
  In e (fst (and_then first next)) ->
  In e (fst first)
  \/ exists a, snd first = Some a /\ In e (fst (next a)).
Proof.
  destruct first as [events [a|]]; cbn.
  - destruct (next a) as [events' b] eqn:En. cbn. intros Hin.
    apply in_app_or in Hin. destruct Hin as [Hin|Hin]; [now left|].
    right. exists a. rewrite En. now split.
  - intros Hin. now left.
Qed.

Lemma and_then_state {A B} (first : list event * option A)
  (next : A -> list event * option B) (b : B) :
  snd (and_then first next) = Some b ->
  exists a, snd first = Some a /\ snd (next a) = Some b.
Proof.
  destruct first as [events [a|]]; cbn; [|discriminate].
  destruct (next a) as [events' b'] eqn:En. cbn. intros [= ->].
  exists a. rewrite En. now split.
Qed.

Section SupervisorProperties.

Variable parse_iso_datetime : string -> option datetime.
Variable get_iso_timestamp : datetime -> string.
Variable convert_xlog_location_to_offset : string -> option Z.
Variable start_following_new_master :
  PgLookout -> string -> list event * option unit.

Local Abbreviation decide :=
  (do_failover_decision parse_iso_datetime get_iso_timestamp
     convert_xlog_location_to_offset).
Local Abbreviation check_lag :=
  (check_replication_lag parse_iso_datetime get_iso_timestamp
     convert_xlog_location_to_offset).
Local Abbreviation consider :=
  (consider_failover parse_iso_datetime get_iso_timestamp
     convert_xlog_location_to_offset).
Local Abbreviation check_state :=
  (check_cluster_state parse_iso_datetime get_iso_timestamp
     convert_xlog_location_to_offset start_following_new_master).
Local Abbreviation node_map :=
  (create_node_map parse_iso_datetime get_iso_timestamp).

Lemma connected_master_stops (self : PgLookout) (w : world)
  (own_state : option record) (standby_nodes : dict record) :
  0 < PyDict.len (connected_master_nodes self) ->
  decide self w own_state standby_nodes = ([], Some self).
Proof.
  intros Hlen. unfold do_failover_decision.
  apply Z.ltb_lt in Hlen. now rewrite Hlen.
Qed.

(** The decision leaves the object as it is, or clears the over-warning
    flag. *)
Lemma decision_state (self self' : PgLookout) (w : world)
  (own_state : option record) (standby_nodes : dict record) :
  snd (decide self w own_state standby_nodes) = Some self' ->
  self' = self \/ self' = set_over_warning_limit false self.
Proof.
  unfold do_failover_decision.
  destruct (if 0 <? _ then _ else _) as [[|]|]; cbn [snd]; try discriminate.
  { intros [= <-]. now left. }
  destruct (get_replication_positions _ _ _ _ _) as [[|kv p]|]; cbn [snd];
    try discriminate.
  { intros [= <-]. now left. }
  destruct (furthest_along (kv :: p)) as [host|]; cbn [snd]; try discriminate.
  destruct (PyDict.get host standby_nodes) as [st|]; cbn [snd]; try discriminate.
  destruct (record_eq_opt st own_state); cbn [snd];
    [|intros [= <-]; now left].
  destruct (check_for_maintenance_mode_file self w) as [[|]|]; cbn [snd];
    try discriminate.
  { intros [= <-]. now left. }
  destruct (match own_db self with Some o => _ | None => false end); cbn [snd].
  { intros [= <-]. now left. }
  destruct (Qltb _ _); cbn [snd].
  { intros [= <-]. now left. }
  unfold run_failover.
  destruct (command_result w (failover_command self)) as [rc|]; cbn [snd];
    try discriminate.
  destruct (num_of _) as [q|]; cbn [snd]; try discriminate.
  destruct (Qltb q 0); cbn [snd]; try discriminate.
  destruct (rc =? 0); cbn [snd]; intros [= <-]; [now right|now left].
Qed.

(** The check of the lag changes nothing of the object but the
    over-warning flag. *)
Lemma check_lag_state (self self' : PgLookout) (w : world)
  (own_state : option record) (standby_nodes : dict record) :
  snd (check_lag self w own_state standby_nodes) = Some self' ->
  self' = self \/ exists b, self' = set_over_warning_limit b self.
Proof.
  unfold check_replication_lag.
  destruct own_state as [own|]; [|discriminate].
  destruct (negb (truthy _)); [intros [= <-]; now left|].
  destruct (num_of _) as [lag|]; [|discriminate].
  intros Hs. apply and_then_state in Hs. destruct Hs as [self1 [H1 H2]].
  apply update_lag_warning_state in H1.
  assert (H2' : self' = self1 \/ self' = set_over_warning_limit false self1).
  { destruct (Qle_bool _ lag).
    - now apply decision_state in H2.
    - cbn in H2. injection H2 as <-. now left. }
  destruct H1 as [->|[b ->]]; destruct H2' as [->| ->]; auto.
  - right. now exists false.
  - right. now exists b.
  - right. exists false. reflexivity.
Qed.

Lemma consider_state (self self' : PgLookout) (w : world) (time : Q)
  (own_state master_node : option record) (standby_nodes : dict record) :
  snd (consider self w time own_state master_node standby_nodes)
  = Some self' ->
  self' = self \/ exists b, self' = set_over_warning_limit b self.
Proof.
  unfold consider_failover. intros Hs.
  assert (Hd : forall s, snd (decide self w own_state standby_nodes) = Some s ->
                         s = self \/ exists b, s = set_over_warning_limit b self).
  { intros s Hd. apply decision_state in Hd. destruct Hd as [->| ->]; auto.
    right. now exists false. }
  destruct (match master_node with Some r => _ | None => true end).
  - destruct (name_truthy (current_master self)); [now apply Hd|].
    destruct (Qle_bool _ _); [now apply Hd|].
    now apply check_lag_state in Hs.
  - now apply check_lag_state in Hs.
Qed.

(** Below the failover timeout the check of the lag ends after its
    warning part; a lag of zero counts as no lag at all. *)
Lemma check_lag_under_timeout (self : PgLookout) (w : world)
  (own_state : record) (standby_nodes : dict record) (lag : Q) :
  PyDict.get "replication_time_lag" own_state = Some (VNum lag) ->
  (lag < replication_lag_failover_timeout self)%Q ->
  check_lag self w (Some own_state) standby_nodes
  = if Qeq_bool lag 0 then ([], Some self)
    else update_lag_warning self w lag.
Proof.
  intros Hlag Hlt.
  unfold check_replication_lag, get_or_None, get_default.
  rewrite Hlag. cbn [truthy num_of].
  destruct (Qeq_bool lag 0); cbn [negb]; [reflexivity|].
  rewrite <- (and_then_return (update_lag_warning self w lag)) at 2.
  destruct (update_lag_warning self w lag) as [events [self1|]] eqn:Eu;
    [|reflexivity].
  assert (H1 : snd (update_lag_warning self w lag) = Some self1)
    by now rewrite Eu.
  apply update_lag_warning_state in H1.
  assert (Ht : replication_lag_failover_timeout self1
               = replication_lag_failover_timeout self)
    by (destruct H1 as [->|[b ->]]; reflexivity).
  cbn [and_then]. rewrite Ht.
  apply Qle_bool_false in Hlt. rewrite Hlt. reflexivity.
Qed.

(** X20.  The lag warning of [check_replication_lag] is edge-triggered,
    for a lag below the failover timeout (at or above it the failover
    decision follows, which may run its own command and clear the flag).
    A lag of zero returns at once: nothing happens and the over-warning
    flag stays as it was, set or not.  For any other lag the flag says
    afterwards whether the lag is at or above the warning boundary; the
    alert [replication_delay_warning] is created only on the way up (flag
    unset, lag at or above the boundary) and deleted only on the way down
    (flag set, lag below); the over-warning command is run only on the
    way up, right after the alert; and a lag on the same side as the flag
    causes nothing at all. *)
Theorem lag_warning_is_edge_triggered :
  forall (self : PgLookout) (w : world) (own_state : record)
         (standby_nodes : dict record) (lag : Q),
    PyDict.get "replication_time_lag" own_state = Some (VNum lag) ->
    (lag < replication_lag_failover_timeout self)%Q ->
    let over := Qle_bool (replication_lag_warning_boundary self) lag in
    let result := check_lag self w (Some own_state) standby_nodes in
    let events := fst result in
    if Qeq_bool lag 0 then result = ([], Some self)
    else
      (forall self', snd result = Some self' ->
                     self' = set_over_warning_limit over self
                     \/ (self' = self
                         /\ replication_lag_over_warning_limit self = over))
      /\ (In (CreateAlertFile "replication_delay_warning") events
          <-> replication_lag_over_warning_limit self = false /\ over = true)
      /\ (In (DeleteAlertFile "replication_delay_warning") events
          <-> replication_lag_over_warning_limit self = true /\ over = false)
      /\ (invokes_command events = true ->
          replication_lag_over_warning_limit self = false /\ over = true
          /\ events = [CreateAlertFile "replication_delay_warning";
                       ExecuteExternalCommand
                         match argv_of (over_warning_limit_command self) with
                         | Some argv => argv
                         | None => []
                         end])
      /\ (replication_lag_over_warning_limit self = over ->
          result = ([], Some self)).
Proof.
  intros self w own_state standby_nodes lag Hlag Hlt. cbv zeta.
  rewrite (@check_lag_under_timeout self w own_state standby_nodes lag
             Hlag Hlt).
  destruct (Qeq_bool lag 0); [reflexivity|].
  apply update_lag_warning_edges.
Qed.

(** With a master in the node map, a standby whose lag is below the
    failover timeout is only checked against the warning boundary; a lag
    of zero counts as no lag at all. *)
Lemma lag_under_timeout_skips_decision :
  forall (self : PgLookout) (w : world) (time : Q)
         (own_state master_node : record) (standby_nodes : dict record)
         (lag : Q),
    master_node <> [] ->
    PyDict.get "replication_time_lag" own_state = Some (VNum lag) ->
    (lag < replication_lag_failover_timeout self)%Q ->
    consider self w time (Some own_state) (Some master_node) standby_nodes
    = if Qeq_bool lag 0 then ([], Some self)
      else update_lag_warning self w lag.
Proof.
  intros self w time own_state master_node standby_nodes lag Hm Hlag Hlt.
  unfold consider_failover.
  destruct master_node as [|kv master_node]; [contradiction|].
  cbn [truthy negb]. unfold check_replication_lag, get_or_None, get_default.
  rewrite Hlag. cbn [truthy num_of].
  destruct (Qeq_bool lag 0); cbn [negb]; [reflexivity|].
  rewrite <- (and_then_return (update_lag_warning self w lag)) at 2.
  destruct (update_lag_warning self w lag) as [events [self1|]] eqn:Eu;
    [|reflexivity].
  assert (H1 : snd (update_lag_warning self w lag) = Some self1)
    by now rewrite Eu.
  apply update_lag_warning_state in H1.
  assert (Ht : replication_lag_failover_timeout self1
               = replication_lag_failover_timeout self)
    by (destruct H1 as [->|[b ->]]; reflexivity).
  cbn [and_then]. rewrite Ht.
  apply Qle_bool_false in Hlt. rewrite Hlt. reflexivity.
Qed.

(** X21.  No failover under a master.  While at least one master is
    connected, and also while the node map has a master and the lag of the
    own node is below the failover timeout, [consider_failover] causes
    nothing but the events of the lag warning: it makes no
    [failover_has_happened] alert, does not sleep, and runs no command
    other than the over-warning command. *)
Theorem no_failover_under_a_master :
  forall (self : PgLookout) (w : world) (time : Q)
         (own_state master_node : option record)
         (standby_nodes : dict record) (e : event),
    0 < PyDict.len (connected_master_nodes self)
    \/ (exists own master lag,
           own_state = Some own
           /\ master_node = Some master
           /\ master <> []
           /\ PyDict.get "replication_time_lag" own = Some (VNum lag)
           /\ (lag < replication_lag_failover_timeout self)%Q) ->
    In e (fst (consider self w time own_state master_node standby_nodes)) ->
    lag_warning_event self e.
Proof.
  intros self w time own_state master_node standby_nodes e
         [Hlen|[own [master [lag [-> [-> [Hm [Hlag Hlt]]]]]]]].
  - assert (Hcheck : In e (fst (check_lag self w own_state standby_nodes)) ->
                     lag_warning_event self e).
    { unfold check_replication_lag.
      destruct own_state as [own|]; [|intros []].
      destruct (negb (truthy _)); [intros []|].
      destruct (num_of _) as [lag|]; [|intros []].
      intros Hin. apply and_then_events in Hin.
      destruct Hin as [Hin|[self1 [H1 Hin]]].
      - now apply update_lag_warning_events in Hin.
      - destruct (Qle_bool _ lag); [|destruct Hin].
        rewrite connected_master_stops in Hin; [destruct Hin|].
        apply update_lag_warning_state in H1.
        destruct H1 as [->|[b ->]]; exact Hlen. }
    unfold consider_failover.
    rewrite (@connected_master_stops self w own_state standby_nodes Hlen).
    destruct (match master_node with Some r => _ | None => true end); auto.
    destruct (name_truthy (current_master self)); [intros []|].
    destruct (Qle_bool _ _); [intros []|auto].
  - rewrite (@lag_under_timeout_skips_decision self w time own master
               standby_nodes lag Hm Hlag Hlt).
    destruct (Qeq_bool lag 0); [intros []|].
    apply update_lag_warning_events.
Qed.

Lemma name_eqb_eq (a b : option string) : name_eqb a b = true <-> a = b.
Proof.
  destruct a as [x|], b as [y|]; cbn; split; intros Heq;
    try discriminate; try reflexivity.
  - apply String.eqb_eq in Heq. now subst.
  - injection Heq as ->. apply String.eqb_refl.
Qed.

Lemma set_current_master_same (self : PgLookout) :
  set_current_master (current_master self) self = self.
Proof. destruct self. reflexivity. Qed.

(** The node map changes neither the name of the own node nor the
    remembered master, and runs no command. *)
Lemma node_map_frame (self self1 : PgLookout)
  (cluster_state observer_state : dict record) (events : list event)
  (master_host : option string) (master_node : option record)
  (standby_nodes : dict record) :
  node_map self cluster_state observer_state
  = Some (self1, events, (master_host, master_node, standby_nodes)) ->
  own_db self1 = own_db self
  /\ current_master self1 = current_master self
  /\ invokes_command events = false.
Proof.
  unfold create_node_map.
  destruct (collect_node_sets _ _ _ _ _) as [a|]; [|discriminate].
  cbn [bind]. unfold pick_master.
  destruct (PyDict.len (ns_connected_master_nodes a) =? 0).
  - destruct (first_item _) as [[h r]|]; intros [= <- <- <- <- <-];
      repeat split.
  - destruct (PyDict.len (ns_connected_master_nodes a) =? 1).
    + destruct (first_item _) as [[h r]|]; intros [= <- <- <- <- <-];
        repeat split.
    + intros [= <- <- <- <- <-]. repeat split.
Qed.

(** The first half of [check_cluster_state], up to the reading of
    [own_state]: the new master is remembered; the events are those of the
    node map and of [start_following_new_master]. *)
Lemma check_state_master (self self' self1 : PgLookout) (w : world) (time : Q)
  (cluster_state observer_state live : dict record) (events : list event)
  (master_host : option string) (master_node : option record)
  (standby_nodes : dict record) :
  cluster_state <> [] ->
  node_map self cluster_state observer_state
  = Some (self1, events, (master_host, master_node, standby_nodes)) ->
  snd (check_state self w time cluster_state observer_state live)
  = Some self' ->
  own_db self' = own_db self
  /\ current_master self' = remembered_master master_host self.
Proof.
  intros Hne Hmap. unfold check_cluster_state.
  destruct cluster_state as [|kv rest]; [contradiction|].
  rewrite Hmap. apply node_map_frame in Hmap.
  destruct Hmap as [Hown [Hcur _]].
  intros Hs. apply and_then_state in Hs. destruct Hs as [self2 [H2 Hs]].
  apply and_then_state in H2. destruct H2 as [[] [_ H2]].
  assert (Hself2 : own_db self2 = own_db self
                   /\ current_master self2 = remembered_master master_host self).
  { unfold remembered_master.
    destruct (name_truthy master_host); cbn [andb] in H2.
    - destruct (name_eqb master_host (current_master self1)) eqn:Eeq;
        cbn [negb] in H2.
      + cbn [snd] in H2. injection H2 as <-.
        apply name_eqb_eq in Eeq. now rewrite Eeq.
      + cbv zeta in H2. destruct (_ && _ && _) in H2.
        * apply and_then_state in H2. destruct H2 as [[] [_ H2]].
          cbn [snd] in H2. injection H2 as <-. now split.
        * cbn [snd] in H2. injection H2 as <-. now split.
    - cbn [snd] in H2. injection H2 as <-. now split. }
  destruct Hself2 as [Hown2 Hcur2].
  assert (Hfinal : self' = self2
                   \/ exists b, self' = set_over_warning_limit b self2).
  { destruct (name_truthy (own_db self2));
      [|cbn [snd] in Hs; injection Hs as <-; now left].
    destruct (name_eqb (own_db self2) (current_master self2));
      [cbn [snd] in Hs; injection Hs as <-; now left|].
    destruct standby_nodes as [|s standby_nodes];
      [cbn [snd] in Hs; injection Hs as <-; now left|].
    now apply consider_state in Hs. }
  destruct Hfinal as [->|[b ->]]; now split.
Qed.

(** X22.  A daemon without a database of its own (an observer), and the
    daemon of the node that is the remembered master, only keep track of
    the master: [check_cluster_state] makes the node map, remembers the
    master it shows, and does nothing else.  No command is run, the
    recovery configuration is not touched and no failover is
    considered. *)
Theorem passive_daemon_only_tracks_the_master :
  forall (self self1 : PgLookout) (w : world) (time : Q)
         (cluster_state observer_state live : dict record)
         (events : list event) (master_host : option string)
         (master_node : option record) (standby_nodes : dict record),
    cluster_state <> [] ->
    node_map self cluster_state observer_state
    = Some (self1, events, (master_host, master_node, standby_nodes)) ->
    name_truthy (own_db self) = false
    \/ own_db self = remembered_master master_host self ->
    check_state self w time cluster_state observer_state live
    = (events,
       Some (set_current_master (remembered_master master_host self) self1))
    /\ invokes_command events = false.
Proof.
  intros self self1 w time cluster_state observer_state live events
         master_host master_node standby_nodes Hne Hmap Hpassive.
  unfold check_cluster_state.
  destruct cluster_state as [|kv rest]; [contradiction|].
  rewrite Hmap. apply node_map_frame in Hmap.
  destruct Hmap as [Hown [Hcur Hev]]. split; [|exact Hev].
  set (new := remembered_master master_host self).
  assert (Hfirst :
            (if name_truthy master_host
                && negb (name_eqb master_host (current_master self1))
             then
               let self0 := set_current_master master_host self1 in
               if name_truthy (own_db self0)
                  && negb (name_eqb (own_db self0) master_host)
                  && truthy (get_or_None "autofollow" (config self0))
               then
                 and_then
                   (start_following_new_master self0
                      match master_host with Some h => h | None => "" end)
                   (fun _ => ([], Some self0))
               else ([], Some self0)
             else ([], Some self1))
            = ([], Some (set_current_master new self1))).
  { unfold new, remembered_master in *.
    destruct (name_truthy master_host) eqn:Em; cbn [andb].
    - destruct (name_eqb master_host (current_master self1)) eqn:Eeq;
        cbn [negb].
      + apply name_eqb_eq in Eeq. rewrite Eeq.
        now rewrite set_current_master_same.
      + cbv zeta. cbn [own_db set_current_master]. rewrite Hown.
        destruct Hpassive as [Hobs| ->].
        * rewrite Hobs. reflexivity.
        * replace (name_eqb master_host master_host) with true
            by (symmetry; now apply name_eqb_eq).
          rewrite Em. reflexivity.
    - rewrite <- Hcur. now rewrite set_current_master_same. }
  cbv zeta in Hfirst. cbn [and_then]. rewrite Hfirst. cbn [and_then app].
  cbn [own_db current_master set_current_master]. rewrite Hown.
  destruct Hpassive as [Hobs|Hmaster].
  - rewrite Hobs. now rewrite !app_nil_r.
  - fold new in Hmaster. rewrite Hmaster.
    replace (name_eqb new new) with true
      by (symmetry; now apply name_eqb_eq).
    destruct (name_truthy new); now rewrite !app_nil_r.
Qed.

(** X23.  The remembered master follows the node map and is never
    forgotten: after [check_cluster_state] it is the master of the node
    map when the map shows one, and the one remembered before otherwise.
    So once a master has been seen, [current_master] stays set, whatever
    the later states of the cluster; the name of the own node never
    changes. *)
Theorem current_master_is_never_forgotten :
  forall (self self' : PgLookout) (w : world) (time : Q)
         (cluster_state observer_state live : dict record),
    snd (check_state self w time cluster_state observer_state live)
    = Some self' ->
    own_db self' = own_db self
    /\ (name_truthy (current_master self) = true ->
        name_truthy (current_master self') = true)
    /\ (forall self1 events master_host master_node standby_nodes,
           cluster_state <> [] ->
           node_map self cluster_state observer_state
           = Some (self1, events, (master_host, master_node, standby_nodes)) ->
           current_master self' = remembered_master master_host self).
Proof.
  intros self self' w time cluster_state observer_state live Hs.
  destruct cluster_state as [|kv rest] eqn:Ecs.
  { cbn in Hs. injection Hs as <-. repeat split; auto.
    intros ? ? ? ? ? Hne. contradiction. }
  rewrite <- Ecs in *.
  assert (Hne : cluster_state <> []) by (rewrite Ecs; discriminate).
  destruct (node_map self cluster_state observer_state)
    as [[[self1 events] [[master_host master_node] standby_nodes]]|] eqn:Hmap.
  - assert (Hc : own_db self' = own_db self
                 /\ current_master self' = remembered_master master_host self)
      by (eapply check_state_master; eauto).
    destruct Hc as [Hown Hcur].
    split; [exact Hown|]. split.
    + intros Hseen. rewrite Hcur. unfold remembered_master.
      destruct (name_truthy master_host) eqn:Em; auto.
    + intros self1' events' master_host' master_node' standby_nodes' _
             [= <- <- <- <- <-]. exact Hcur.
  - unfold check_cluster_state in Hs. rewrite Ecs in Hs.
    rewrite <- Ecs in Hs. rewrite Hmap in Hs. discriminate.
Qed.

End SupervisorProperties.

(** ** Connection strings *)

Section PgutilProperties.

Import Pgutil.

Lemma string_length_append (a b : string) :
  String.length (a ++ b)%string = (String.length a + String.length b)%nat.
Proof. induction a as [|c a IH]; cbn; [reflexivity|]. now rewrite IH. Qed.

Lemma string_append_assoc (a b c : string) :
  ((a ++ b) ++ c)%string = (a ++ (b ++ c))%string.
Proof. induction a as [|x a IH]; cbn; [reflexivity|]. now rewrite IH. Qed.

Lemma string_append_empty (a : string) : (a ++ "")%string = a.
Proof. induction a as [|x a IH]; cbn; [reflexivity|]. now rewrite IH. Qed.

Lemma length_lstrip (s : string) :
  (String.length (lstrip s) <= String.length s)%nat.
Proof.
  induction s as [|c s IH]; cbn; [lia|].
  destruct (is_space c); cbn; lia.
Qed.

Lemma length_rstrip (s : string) :
  (String.length (rstrip s) <= String.length s)%nat.
Proof.
  induction s as [|c s IH]; cbn; [lia|].
  destruct (rstrip s); [destruct (is_space c)|]; cbn in *; lia.
Qed.

Lemma length_strip (s : string) :
  (String.length (strip s) <= String.length s)%nat.
Proof.
  unfold strip. pose proof (length_rstrip (lstrip s)).
  pose proof (length_lstrip s). lia.
Qed.

Lemma split_at_equals_spec (s key rem : string) :
  split_at_equals s = Some (key, rem) ->
  s = (key ++ String "=" rem)%string /\ split_at_equals key = None.
Proof.
  revert key. induction s as [|c s IH]; intros key; cbn; [discriminate|].
  destruct (Ascii.eqb c "=") eqn:Ec.
  - intros [= <- <-]. apply Ascii.eqb_eq in Ec. subst c. now split.
  - destruct (split_at_equals s) as [[key' rem']|]; [|discriminate].
    intros [= <- <-]. destruct (IH key' eq_refl) as [-> Hk].
    split; [reflexivity|]. cbn. now rewrite Ec, Hk.
Qed.

Lemma split_at_equals_append (key rem : string) :
  split_at_equals key = None ->
  split_at_equals (key ++ String "=" rem) = Some (key, rem).
Proof.
  induction key as [|c key IH]; cbn; [reflexivity|].
  destruct (Ascii.eqb c "="); [discriminate|].
  destruct (split_at_equals key) as [[k r]|]; [discriminate|].
  intros _. now rewrite IH.
Qed.

Lemma quoted_value_length (rem : string) (asis : bool)
  (acc value rest : string) :
  quoted_value rem asis acc = Some (value, rest) ->
  (String.length rest < String.length rem)%nat.
Proof.
  revert asis acc. induction rem as [|c rem IH]; intros asis acc; cbn;
    [discriminate|].
  destruct asis.
  - intros Hq. apply IH in Hq. lia.
  - destruct (Ascii.eqb c "'"); [intros [= <- <-]; lia|].
    destruct (Ascii.eqb c "\"); intros Hq; apply IH in Hq; lia.
Qed.

Lemma token_length (s t r : string) :
  token s = (t, r) ->
  String.length s = (String.length t + String.length r)%nat.
Proof.
  revert t. induction s as [|c s IH]; intros t; cbn.
  - intros [= <- <-]. reflexivity.
  - destruct (is_space c); [intros [= <- <-]; reflexivity|].
    destruct (token s) as [t' r']. intros [= <- <-].
    cbn. now rewrite (IH t' eq_refl).
Qed.

Lemma split_once_length (rem value rest : string) :
  split_once rem = [value; rest] ->
  (String.length rest <= String.length rem)%nat.
Proof.
  unfold split_once. pose proof (length_lstrip rem) as Hl.
  destruct (lstrip rem) as [|c s1]; [discriminate|].
  destruct (token (String c s1)) as [t r] eqn:Et.
  apply token_length in Et. pose proof (length_lstrip r) as Hr.
  destruct (lstrip r) as [|c' r']; [discriminate|].
  intros [= <- <-]. lia.
Qed.

(** Every round leaves a shorter string. *)
Lemma parse_fragment_shortens (cs key value rest : string) :
  parse_fragment cs = Some (key, value, rest) ->
  (String.length rest < String.length cs)%nat.
Proof.
  unfold parse_fragment.
  destruct (split_at_equals cs) as [[k rem]|] eqn:Es; [|discriminate].
  apply split_at_equals_spec in Es. destruct Es as [-> _].
  rewrite string_length_append. cbn [String.length].
  destruct (starts_with_quote rem) eqn:Eq.
  - destruct rem as [|c after]; [discriminate|]. cbn [tail].
    destruct (quoted_value after false "") as [[v r]|] eqn:Ev; [|discriminate].
    intros [= <- <- <-]. apply quoted_value_length in Ev. cbn. lia.
  - destruct (split_once rem) as [|v [|r [|x l]]] eqn:Eo;
      intros [= <- <- <-]; cbn; try lia.
    apply split_once_length in Eo. lia.
Qed.

(** Rounds beyond the length of the string change nothing. *)
Lemma parse_loop_enough (n m : nat) (fields : conninfo) (s : string) :
  (String.length s < n)%nat -> (String.length s < m)%nat ->
  parse_loop n fields s = parse_loop m fields s.
Proof.
  revert m fields s. induction n as [|n IH]; intros m fields s Hn Hm; [lia|].
  destruct m as [|m]; [lia|]. cbn [parse_loop].
  pose proof (length_strip s) as Hs.
  destruct (String.eqb (strip s) ""); [reflexivity|].
  destruct (parse_fragment (strip s)) as [[[key value] rest]|] eqn:Ef;
    [|reflexivity].
  apply parse_fragment_shortens in Ef. apply IH; lia.
Qed.

Lemma parse_loop_finishes (n : nat) (fields : conninfo) (s : string) :
  (String.length s < n)%nat -> parse_loop n fields s <> Unfinished.
Proof.
  revert fields s. induction n as [|n IH]; intros fields s Hn; [lia|].
  cbn [parse_loop]. pose proof (length_strip s) as Hs.
  destruct (String.eqb (strip s) ""); [discriminate|].
  destruct (parse_fragment (strip s)) as [[[key value] rest]|] eqn:Ef;
    [|discriminate].
  apply parse_fragment_shortens in Ef. apply IH. lia.
Qed.

(** X24.  The loop of [parse_connection_string_libpq] ends on every
    string: each round takes at least one character away, so the loop
    never needs more rounds than the string has characters, and with
    that many it reaches a [return] or a [ValueError]. *)
Theorem parse_connection_string_libpq_terminates :
  forall (connection_string : string) (fields : conninfo) (rounds : nat),
    (String.length connection_string < rounds)%nat ->
    parse_loop rounds fields connection_string
    = parse_from fields connection_string
    /\ parse_from fields connection_string <> Unfinished.
Proof.
  intros s fields rounds Hr. unfold parse_from. split.
  - apply parse_loop_enough; lia.
  - apply parse_loop_finishes. lia.
Qed.

Lemma lstrip_plain (key : string) (c : ascii) (t : string) :
  lstrip key = key -> is_space c = false ->
  lstrip (key ++ String c t) = (key ++ String c t)%string.
Proof.
  intros Hk Hc. destruct key as [|x key]; cbn.
  - now rewrite Hc.
  - cbn in Hk. destruct (is_space x); [|reflexivity].
    pose proof (length_lstrip key) as Hl. rewrite Hk in Hl. cbn in Hl. lia.
Qed.

Lemma rstrip_nonspace (a : string) (c : ascii) (t : string) :
  is_space c = false ->
  rstrip (a ++ String c t) = (a ++ String c (rstrip t))%string.
Proof.
  intros Hc. induction a as [|x a IH]; cbn.
  - destruct (rstrip t); [now rewrite Hc|reflexivity].
  - rewrite IH. destruct a; reflexivity.
Qed.

Lemma lstrip_rstrip (s : string) : lstrip (rstrip s) = rstrip (lstrip s).
Proof.
  induction s as [|c s IH]; cbn; [reflexivity|].
  destruct (is_space c) eqn:Ec.
  - rewrite <- IH. destruct (rstrip s); cbn; [reflexivity|now rewrite Ec].
  - cbn. destruct (rstrip s); cbn; now rewrite Ec.
Qed.

Lemma rstrip_rstrip (s : string) : rstrip (rstrip s) = rstrip s.
Proof.
  induction s as [|c s IH]; cbn; [reflexivity|].
  destruct (rstrip s) as [|x r] eqn:Er.
  - destruct (is_space c) eqn:Ec; cbn; [reflexivity|now rewrite Ec].
  - cbn [rstrip] in *. rewrite IH. reflexivity.
Qed.

Lemma strip_rstrip (s : string) : strip (rstrip s) = strip s.
Proof. unfold strip. now rewrite lstrip_rstrip, rstrip_rstrip. Qed.

(** A round looks at the stripped string only. *)
Lemma parse_loop_strip (n : nat) (fields : conninfo) (s s' : string) :
  strip s = strip s' -> parse_loop n fields s = parse_loop n fields s'.
Proof. intros Hs. destruct n; cbn [parse_loop]; [reflexivity|]. now rewrite Hs. Qed.

Lemma parse_from_strip (n : nat) (fields : conninfo) (s s' : string) :
  strip s = strip s' ->
  (String.length s < n)%nat -> (String.length s' < n)%nat ->
  parse_loop n fields s = parse_from fields s'.
Proof.
  intros Hs Hn Hn'. rewrite (@parse_loop_strip n fields s s' Hs).
  unfold parse_from. apply parse_loop_enough; lia.
Qed.

Lemma quoted_value_escape (value rest acc : string) :
  quoted_value (escape value ++ String "'" rest) false acc
  = Some ((acc ++ value)%string, rest).
Proof.
  revert acc. induction value as [|c value IH]; intros acc; cbn.
  - now rewrite string_append_empty.
  - replace (acc ++ String c value)%string
      with ((acc ++ String c "") ++ value)%string
      by (rewrite string_append_assoc; reflexivity).
    destruct (Ascii.eqb c "'") eqn:Eq; cbn.
    + apply IH.
    + destruct (Ascii.eqb c "\") eqn:Eb; cbn.
      * apply IH.
      * rewrite Eq, Eb. apply IH.
Qed.

(** One quoted fragment in front of any string. *)
Lemma quoted_fragment_step (fields : conninfo) (key value rest : string) :
  plain_key key ->
  parse_from fields (key ++ "='" ++ escape value ++ String "'" rest)
  = parse_from (PyDict.set key value fields) rest.
Proof.
  intros [Heq Hstrip]. unfold parse_from at 1.
  set (whole := (key ++ "='" ++ escape value ++ String "'" rest)%string).
  assert (Hwhole : strip whole
                   = (key ++ String "="
                        (String "'" (escape value
                                     ++ String "'" (rstrip rest))))%string).
  { unfold strip, whole. cbn [append].
    rewrite lstrip_plain by (auto; reflexivity).
    replace (key ++ String "=" (String "'" (escape value ++ String "'" rest)))%string
      with ((key ++ String "=" (String "'" (escape value)))
            ++ String "'" rest)%string
      by (rewrite string_append_assoc; reflexivity).
    rewrite rstrip_nonspace by reflexivity.
    rewrite string_append_assoc. reflexivity. }
  cbn [parse_loop]. rewrite Hwhole.
  replace (String.eqb _ "") with false
    by (destruct key; reflexivity).
  unfold parse_fragment. rewrite split_at_equals_append by exact Heq.
  cbn [starts_with_quote tail]. rewrite Ascii.eqb_refl.
  rewrite quoted_value_escape. cbn [append].
  assert (Hlen : (String.length rest < String.length whole)%nat).
  { unfold whole. rewrite !string_length_append. cbn. lia. }
  pose proof (length_rstrip rest).
  apply parse_from_strip; [apply strip_rstrip|lia|lia].
Qed.

Lemma parse_from_empty (fields : conninfo) :
  parse_from fields "" = Returns fields.
Proof. reflexivity. Qed.

Lemma parse_from_leading_space (fields : conninfo) (s : string) :
  parse_from fields (String " " s) = parse_from fields s.
Proof.
  unfold parse_from at 1. apply parse_from_strip; [reflexivity| |]; cbn; lia.
Qed.

(** X25.  Round trip through the quoted form.  Keywords and values
    written as [key='value'] fragments, with a backslash before every
    quote and backslash of the value, are read back exactly, whatever
    the values hold, provided no keyword has a ["="] or starts with
    whitespace: the result is the dict obtained by assigning the pairs in
    order.  In front of any other text, the fragments are consumed and
    the rest is parsed with these assignments made. *)
Theorem quoted_fragments_are_read_back :
  forall (pairs : list (string * string)) (fields : conninfo) (rest : string),
    (forall key value, In (key, value) pairs -> plain_key key) ->
    parse_from fields (quoted_fragments pairs ++ rest)
    = parse_from (PyDict.update fields pairs) rest
    /\ parse_connection_string_libpq (quoted_fragments pairs)
       = Returns (PyDict.update [] pairs).
Proof.
  intros pairs fields rest Hkeys.
  assert (Hgen : forall fields rest,
             parse_from fields (quoted_fragments pairs ++ rest)
             = parse_from (PyDict.update fields pairs) rest).
  { clear fields rest.
    induction pairs as [|[key value] pairs IH]; intros fields rest.
    - reflexivity.
    - cbn [quoted_fragments].
      replace ((key ++ "='" ++ escape value ++ "' " ++ quoted_fragments pairs)
               ++ rest)%string
        with (key ++ "='" ++ escape value
              ++ String "'" (String " " (quoted_fragments pairs ++ rest)))%string
        by (rewrite !string_append_assoc; reflexivity).
      rewrite quoted_fragment_step by (apply (Hkeys key value); now left).
      rewrite parse_from_leading_space.
      rewrite IH by (intros k v Hin; apply (Hkeys k v); now right).
      reflexivity. }
  split; [apply Hgen|].
  unfold parse_connection_string_libpq.
  rewrite <- (string_append_empty (quoted_fragments pairs)).
  rewrite Hgen. apply parse_from_empty.
Qed.

Lemma split_at_equals_None (s : string) :
  split_at_equals s = None <-> ~ In "="%char (list_ascii_of_string s).
Proof.
  induction s as [|c s IH]; cbn.
  - split; [intros _ []|reflexivity].
  - destruct (Ascii.eqb c "=") eqn:Ec.
    + apply Ascii.eqb_eq in Ec. subst c. split; [discriminate|].
      intros Hn. exfalso. apply Hn. now left.
    + apply Ascii.eqb_neq in Ec.
      destruct (split_at_equals s) as [[k r]|].
      * split; [discriminate|]. intros Hn. exfalso.
        assert (Hs : ~ In "="%char (list_ascii_of_string s))
          by (intros Hin; apply Hn; now right).
        apply IH in Hs. discriminate.
      * split; [|reflexivity]. intros _ [Heq|Hin]; [congruence|].
        destruct IH as [IH _]. now apply IH.
Qed.

Lemma lstrip_chars (c : ascii) (s : string) :
  In c (list_ascii_of_string (lstrip s)) -> In c (list_ascii_of_string s).
Proof.
  induction s as [|x s IH]; cbn; [auto|].
  destruct (is_space x); cbn; auto.
Qed.

Lemma rstrip_chars (c : ascii) (s : string) :
  In c (list_ascii_of_string (rstrip s)) -> In c (list_ascii_of_string s).
Proof.
  induction s as [|x s IH]; cbn; [auto|].
  destruct (rstrip s) as [|y r].
  - destruct (is_space x); cbn; [intros []|]. intros [Hx|[]]. now left.
  - cbn in *. intros [Hx|Hin]; [now left|right; now apply IH].
Qed.

Lemma strip_chars (c : ascii) (s : string) :
  In c (list_ascii_of_string (strip s)) -> In c (list_ascii_of_string s).
Proof. intros Hin. now apply lstrip_chars, rstrip_chars. Qed.

Lemma quoted_value_no_quote (body : string) (asis : bool) (acc : string) :
  ~ In "'"%char (list_ascii_of_string body) ->
  quoted_value body asis acc = None.
Proof.
  revert asis acc. induction body as [|c body IH]; intros asis acc Hn; cbn;
    [reflexivity|].
  assert (Hb : ~ In "'"%char (list_ascii_of_string body))
    by (intros Hin; apply Hn; now right).
  destruct asis; [now apply IH|].
  destruct (Ascii.eqb c "'") eqn:Ec.
  - apply Ascii.eqb_eq in Ec. exfalso. apply Hn. now left.
  - destruct (Ascii.eqb c "\"); now apply IH.
Qed.

(** X26.  A fragment that is not of the form [key=value] makes the whole
    call raise [ValueError]: a string that is not blank and has no ["="]
    at all, and a quoted value whose closing quote is missing. *)
Theorem malformed_fragment_raises_ValueError :
  forall (fields : conninfo) (s : string),
    strip s <> ""%string ->
    ~ In "="%char (list_ascii_of_string s)
    \/ (exists key body,
           s = (key ++ "='" ++ body)%string
           /\ plain_key key
           /\ ~ In "'"%char (list_ascii_of_string body)) ->
    parse_from fields s = ValueError.
Proof.
  intros fields s Hblank Hbad. unfold parse_from. cbn [parse_loop].
  destruct (String.eqb (strip s) "") eqn:Ee;
    [apply String.eqb_eq in Ee; contradiction|].
  destruct Hbad as [Hno|[key [body [-> [[Heq Hstrip] Hno]]]]].
  - unfold parse_fragment.
    replace (split_at_equals (strip s)) with (@None (string * string));
      [reflexivity|].
    symmetry. apply split_at_equals_None. intros Hin.
    apply Hno. now apply strip_chars.
  - assert (Hs : strip (key ++ "='" ++ body)
                 = (key ++ String "=" (String "'" (rstrip body)))%string).
    { unfold strip. cbn [append].
      rewrite lstrip_plain by (auto; reflexivity).
      replace (key ++ String "=" (String "'" body))%string
        with ((key ++ String "=" "") ++ String "'" body)%string
        by (rewrite string_append_assoc; reflexivity).
      rewrite rstrip_nonspace by reflexivity.
      rewrite string_append_assoc. reflexivity. }
    rewrite Hs. unfold parse_fragment.
    rewrite split_at_equals_append by exact Heq.
    cbn [starts_with_quote tail]. rewrite Ascii.eqb_refl.
    rewrite quoted_value_no_quote; [reflexivity|].
    intros Hin. apply Hno. now apply rstrip_chars.
Qed.

Lemma lstrip_lstrip (s : string) : lstrip (lstrip s) = lstrip s.
Proof.
  induction s as [|c s IH]; cbn; [reflexivity|].
  destruct (is_space c) eqn:Ec; [exact IH|]. cbn. now rewrite Ec.
Qed.

Lemma lstrip_strip (s : string) : lstrip (strip s) = strip s.
Proof. unfold strip. now rewrite lstrip_rstrip, lstrip_lstrip. Qed.

(** The keyword of a fragment is plain. *)
Lemma parse_fragment_key (s key value rest : string) :
  parse_fragment (strip s) = Some (key, value, rest) -> plain_key key.
Proof.
  unfold parse_fragment.
  destruct (split_at_equals (strip s)) as [[k rem]|] eqn:Es; [|discriminate].
  apply split_at_equals_spec in Es. destruct Es as [Hs Hk].
  intros Hf.
  assert (key = k).
  { destruct (starts_with_quote rem).
    - destruct (quoted_value _ _ _) as [[v r]|]; [|discriminate].
      now injection Hf.
    - destruct (split_once rem) as [|v [|r [|x l]]]; now injection Hf. }
  subst k. clear Hf. split; [exact Hk|].
  pose proof (lstrip_strip s) as Hl. rewrite Hs in Hl.
  destruct key as [|x key]; [reflexivity|]. cbn in Hl |- *.
  destruct (is_space x); [|reflexivity].
  pose proof (length_lstrip (key ++ String "=" rem)) as Hlen.
  rewrite Hl in Hlen. cbn in Hlen. lia.
Qed.

Lemma set_not_empty (key value : string) (fields : conninfo) :
  PyDict.set key value fields <> [].
Proof.
  destruct fields as [|[k v] fields]; cbn [PyDict.set]; [discriminate|].
  destruct (key_eqb key k); discriminate.
Qed.

(** What the loop returns holds the fields it started from and the
    keywords of the fragments. *)
Lemma parse_loop_invariant (n : nat) (fields result : conninfo) (s : string) :
  parse_loop n fields s = Returns result ->
  (fields <> [] -> result <> [])
  /\ (forall key value,
         In (key, value) result ->
         plain_key key \/ In key (PyDict.keys fields)).
Proof.
  revert fields s. induction n as [|n IH]; intros fields s; cbn [parse_loop];
    [discriminate|].
  destruct (String.eqb (strip s) "").
  - intros [= <-]. split; [auto|]. intros key value Hin. right.
    unfold PyDict.keys. change key with (fst (key, value)). now apply in_map.
  - destruct (parse_fragment (strip s)) as [[[k v] rest]|] eqn:Ef;
      [|discriminate].
    intros Hr. apply IH in Hr. destruct Hr as [Hne Hkeys]. split.
    + intros _. apply Hne. apply set_not_empty.
    + intros key value Hin. destruct (Hkeys key value Hin) as [Hp|Hk];
        [now left|].
      rewrite keys_set in Hk.
      destruct (PyDict.contains k fields).
      * now right.
      * apply in_app_or in Hk. destruct Hk as [Hk|[<-|[]]]; [now right|].
        left. now apply parse_fragment_key in Ef.
Qed.

(** X27.  What [parse_connection_string_libpq] returns.  The result is
    the empty dict exactly when the string is blank; and every keyword of
    a result is free of ["="] and has no whitespace in front (whitespace
    behind it is kept). *)
Theorem parsed_keywords_are_plain :
  forall (connection_string : string),
    (parse_connection_string_libpq connection_string = Returns []
     <-> strip connection_string = ""%string)
    /\ (forall result key value,
           parse_connection_string_libpq connection_string = Returns result ->
           In (key, value) result -> plain_key key).
Proof.
  intros s. unfold parse_connection_string_libpq, parse_from. split.
  - cbn [parse_loop]. destruct (String.eqb (strip s) "") eqn:Ee.
    + apply String.eqb_eq in Ee. now split.
    + split; [|intros Hs; rewrite Hs in Ee; discriminate].
      destruct (parse_fragment (strip s)) as [[[k v] rest]|];
        [|discriminate].
      intros Hr. apply parse_loop_invariant in Hr. destruct Hr as [Hne _].
      exfalso. apply Hne; [apply set_not_empty|reflexivity].
  - intros result key value Hr Hin.
    apply parse_loop_invariant in Hr. destruct Hr as [_ Hkeys].
    destruct (Hkeys key value Hin) as [Hp|[]]. exact Hp.
Qed.

Lemma without_last_append (s : string) (c : ascii) :
  without_last (s ++ String c "") = s.
Proof.
  induction s as [|x s IH]; cbn; [reflexivity|].
  rewrite IH. destruct s; reflexivity.
Qed.

Lemma replace_two_quotes_double (s : string) :
  replace_two_quotes (double_quotes s) = s.
Proof.
  induction s as [|c s IH]; [reflexivity|]. cbn [double_quotes].
  destruct (Ascii.eqb c "'") eqn:Ec.
  - apply Ascii.eqb_eq in Ec. subst c. cbn. now rewrite IH.
  - cbn [replace_two_quotes]. rewrite Ec. cbn [andb]. rewrite IH.
    destruct (double_quotes s) eqn:Ed; [|reflexivity].
    destruct s as [|y s]; [reflexivity|]. cbn in Ed.
    destruct (Ascii.eqb y "'"); discriminate.
Qed.

Section ConfigLine.

Variable parse_connection_string_url : string -> outcome conninfo.

(** X28.  A configuration line is read back.  For a line
    [name = 'text'], where [text] has every quote written twice and
    [name] has no ["="], [get_connection_info_from_config_line] gives
    what [get_connection_info] gives for the text with single quotes;
    a line without ["="] raises [ValueError]. *)
Theorem config_line_is_read_back :
  forall (name dsn line : string),
    ~ In "="%char (list_ascii_of_string name) ->
    get_connection_info_from_config_line parse_connection_string_url
      (name ++ "= '" ++ double_quotes dsn ++ "'")
    = get_connection_info parse_connection_string_url (VStr dsn)
    /\ (~ In "="%char (list_ascii_of_string line) ->
        get_connection_info_from_config_line parse_connection_string_url line
        = ValueError).
Proof.
  intros name dsn line Hname. split.
  - unfold get_connection_info_from_config_line.
    apply split_at_equals_None in Hname.
    change (name ++ "= '" ++ double_quotes dsn ++ "'")%string
      with (name ++ String "=" (String " " (String "'"
              (double_quotes dsn ++ "'"))))%string.
    rewrite split_at_equals_append by exact Hname.
    assert (Hs : strip (String " " (String "'" (double_quotes dsn ++ "'")))
                 = String "'" (double_quotes dsn ++ "'")).
    { unfold strip. cbn [lstrip].
      change (is_space " ") with true. change (is_space "'") with false.
      cbn iota.
      change (String "'" (double_quotes dsn ++ "'"))
        with ((String "'" (double_quotes dsn)) ++ String "'" "")%string.
      now rewrite rstrip_nonspace. }
    rewrite Hs. cbn [slice_1_m1].
    now rewrite without_last_append, replace_two_quotes_double.
  - intros Hline. unfold get_connection_info_from_config_line.
    apply split_at_equals_None in Hline. now rewrite Hline.
Qed.

End ConfigLine.

End PgutilProperties.

(** ** Following a new master *)

Lemma timeline_line_is_not_primary (line : string) :
  is_recovery_target_timeline line = true -> is_primary_conninfo line = false.
Proof.
  unfold is_recovery_target_timeline, is_primary_conninfo.
  destruct line as [|c line]; [discriminate|]. cbn [String.prefix].
  destruct (ascii_dec "r" c) as [<-|]; [|discriminate].
  intros _. reflexivity.
Qed.

Lemma filter_filter_negb {A} (p : A -> bool) (l : list A) :
  filter p (filter (fun a => negb (p a)) l) = [].
Proof.
  induction l as [|a l IH]; cbn; [reflexivity|].
  destruct (p a) eqn:Ep; cbn; [exact IH|]. now rewrite Ep.
Qed.

Lemma argv_of_strings (l : list string) :
  argv_of (VList (map VStr l)) = Some l.
Proof.
  cbn [argv_of].
  assert (Hgen : forall acc,
             for_each (fun acc x => match x with
                                    | VStr s => Some (acc ++ [s])
                                    | _ => None
                                    end) (map VStr l) acc
             = Some (acc ++ l)).
  { induction l as [|s l IH]; intros acc; cbn [map for_each bind].
    - now rewrite app_nil_r.
    - rewrite IH, <- app_assoc. reflexivity. }
  apply (Hgen []).
Qed.

Lemma execute_strings (w : world) (l : list string) :
  execute_external_command w (VList (map VStr l))
  = match l with
    | [] => ([], None)
    | _ => ([ExecuteExternalCommand l], command_result w l)
    end.
Proof.
  unfold execute_external_command. rewrite argv_of_strings. reflexivity.
Qed.

Section FollowProperties.

Variable get_iso_timestamp : datetime -> string.
Variable get_connection_info_from_config_line :
  string -> Pgutil.outcome record.
Variable adapted_connection_string : record -> option string.

Local Abbreviation scan :=
  (scan_line get_connection_info_from_config_line).
Local Abbreviation modify :=
  (modify_recovery_conf_to_point_at_new_master_host get_iso_timestamp
     get_connection_info_from_config_line adapted_connection_string).
Local Abbreviation follow :=
  (start_following_new_master get_iso_timestamp
     get_connection_info_from_config_line adapted_connection_string).

(** The loop over the lines in closed form. *)
Lemma scan_lines_spec (old_conf : list string) (st0 st : conf_scan) :
  for_each scan old_conf st0 = Some st ->
  new_conf st
  = new_conf st0 ++ filter (fun l => negb (is_primary_conninfo l)) old_conf
  /\ has_recovery_target_timeline st
     = has_recovery_target_timeline st0
       || existsb is_recovery_target_timeline old_conf
  /\ (forall old,
         old_conn_info st = Some old ->
         old_conn_info st0 = Some old
         \/ exists line,
              In line old_conf
              /\ is_primary_conninfo line = true
              /\ get_connection_info_from_config_line line
                 = Pgutil.Returns old).
Proof.
  revert st0. induction old_conf as [|line old_conf IH]; intros st0;
    cbn [for_each bind].
  - intros [= <-]. rewrite app_nil_r, orb_false_r. auto.
  - destruct (scan st0 line) as [st1|] eqn:E1; [|discriminate].
    cbn [bind]. intros Hrest. apply IH in Hrest.
    destruct Hrest as [Hconf [Hhas Hold]].
    unfold scan_line in E1. cbn [filter existsb].
    assert (Hhas1 : has_recovery_target_timeline st1
                    = has_recovery_target_timeline st0
                      || is_recovery_target_timeline line).
    { destruct (is_primary_conninfo line).
      - destruct (get_connection_info_from_config_line line);
          try discriminate; injection E1 as <-; cbn;
          destruct (is_recovery_target_timeline line);
          now rewrite ?orb_true_r, ?orb_false_r.
      - injection E1 as <-; cbn;
          destruct (is_recovery_target_timeline line);
          now rewrite ?orb_true_r, ?orb_false_r. }
    rewrite Hconf, Hhas, Hhas1, orb_assoc. clear Hconf Hhas Hhas1.
    destruct (is_primary_conninfo line) eqn:Ep; cbn [negb].
    + destruct (get_connection_info_from_config_line line) as [info| | |]
        eqn:Eg; try discriminate; injection E1 as <-; cbn;
        (split; [reflexivity|]); (split; [reflexivity|]);
        intros old Ho; destruct (Hold old Ho) as [H0|[l [Hin Hl]]].
      * cbn in H0. injection H0 as <-. right. exists line. auto.
      * right. exists l. auto.
      * now left.
      * right. exists l. auto.
    + injection E1 as <-. cbn. rewrite <- app_assoc.
      split; [reflexivity|]. split; [reflexivity|].
      intros old Ho. destruct (Hold old Ho) as [H0|[l [Hin Hl]]];
        [now left|]. right. exists l. auto.
Qed.

(** X29.  What becomes of [recovery.conf].  When
    [modify_recovery_conf_to_point_at_new_master_host] writes the file,
    the new content is a tag line, then every old line that is not a
    [primary_conninfo] line, in the old order, then the new
    [primary_conninfo] line, then a [recovery_target_timeline] line if the
    file had none: so exactly one [primary_conninfo] line is left and a
    [recovery_target_timeline] line is always there.  It leaves the file
    alone only when the file has a [recovery_target_timeline] line and a
    [primary_conninfo] line that parses to the new connection info. *)
Theorem recovery_conf_is_rewritten :
  forall (self : PgLookout) (now : datetime) (old_conf : list string)
         (new_master_host : string) (result : option (list string)),
    modify self now old_conf new_master_host = Some result ->
    exists template,
      primary_conninfo_template self = Some template
      /\ let new_conn_info :=
           PyDict.set "host" (VStr new_master_host) template in
         match result with
         | Some lines =>
             exists tag adapted,
               adapted_connection_string new_conn_info = Some adapted
               /\ lines
                  = tag
                    :: filter (fun l => negb (is_primary_conninfo l)) old_conf
                    ++ ("primary_conninfo = " ++ adapted)%string
                    :: (if existsb is_recovery_target_timeline old_conf
                        then []
                        else ["recovery_target_timeline = 'latest'"%string])
               /\ filter is_primary_conninfo lines
                  = [("primary_conninfo = " ++ adapted)%string]
               /\ existsb is_recovery_target_timeline lines = true
         | None =>
             existsb is_recovery_target_timeline old_conf = true
             /\ exists line old,
                  In line old_conf
                  /\ is_primary_conninfo line = true
                  /\ get_connection_info_from_config_line line
                     = Pgutil.Returns old
                  /\ record_eqb new_conn_info old = true
         end.
Proof.
  intros self now old_conf new_master_host result.
  unfold modify_recovery_conf_to_point_at_new_master_host.
  destruct (PyDict.get "pg_data_directory" (config self)) as [[| | |dir| |]|];
    try discriminate.
  destruct (for_each scan old_conf _) as [st|] eqn:Escan; [|discriminate].
  cbn [bind]. apply scan_lines_spec in Escan. cbn in Escan.
  destruct Escan as [Hconf [Hhas Hold]].
  destruct (primary_conninfo_template self) as [template|]; [|discriminate].
  cbn [bind]. cbv zeta.
  set (new_conn_info := PyDict.set "host" (VStr new_master_host) template).
  destruct (match old_conn_info st with
            | Some old => record_eqb new_conn_info old
            | None => false
            end && has_recovery_target_timeline st) eqn:Esame.
  - intros [= <-]. exists template. split; [reflexivity|]. cbv zeta.
    fold new_conn_info.
    apply andb_prop in Esame. destruct Esame as [Heq Ht].
    split; [now rewrite <- Hhas|].
    destruct (old_conn_info st) as [old|] eqn:Eo; [|discriminate].
    destruct (Hold old eq_refl) as [H0|[line [Hin [Hp Hg]]]];
      [discriminate|].
    exists line, old. auto.
  - destruct (adapted_connection_string new_conn_info) as [adapted|]
      eqn:Eadapted; [|discriminate].
    cbn [bind]. intros [= <-]. rewrite Hconf, Hhas.
    exists template. split; [reflexivity|]. cbv zeta. fold new_conn_info.
    rewrite Eadapted.
    eexists. exists adapted. split; [reflexivity|].
    set (kept := filter (fun l => negb (is_primary_conninfo l)) old_conf).
    assert (Hlines : forall (x last : string) (b : bool),
               (if b then kept ++ [x] else (kept ++ [x]) ++ [last])
               = kept ++ x :: (if b then [] else [last])).
    { intros x last [|]; [reflexivity|]. now rewrite <- app_assoc. }
    rewrite Hlines. split; [reflexivity|]. split.
    + cbn [filter]. change (is_primary_conninfo (String "#" ?s)) with false.
      cbn iota. rewrite filter_app. unfold kept.
      rewrite filter_filter_negb. cbn [app filter].
      change (is_primary_conninfo ("primary_conninfo = " ++ adapted))
        with true. cbn iota.
      destruct (existsb is_recovery_target_timeline old_conf); reflexivity.
    + cbn [existsb]. rewrite existsb_app. cbn [existsb].
      destruct (existsb is_recovery_target_timeline old_conf) eqn:Et.
      * apply existsb_exists in Et. destruct Et as [l [Hin Hl]].
        replace (existsb is_recovery_target_timeline kept) with true;
          [now rewrite orb_true_r|].
        symmetry. apply existsb_exists. exists l. split; [|exact Hl].
        apply filter_In. split; [exact Hin|].
        now rewrite (timeline_line_is_not_primary l Hl).
      * cbn. now rewrite !orb_true_r.
Qed.

(** X30.  PostgreSQL is restarted only after [recovery.conf] has been
    rewritten, and in one order: [start_following_new_master] runs
    nothing when the file is left alone; otherwise it runs the stop
    command, then the start command, and nothing else; and when it
    returns after a rewrite both have been run, whatever the stop command
    returned. *)
Theorem restart_only_after_rewrite :
  forall (self : PgLookout) (w : world) (now : datetime)
         (old_conf : list string) (new_master_host : string)
         (stop_command start_command : list string),
    command_of "pg_stop_command" self = Some stop_command ->
    command_of "pg_start_command" self = Some start_command ->
    let after := follow self w now old_conf new_master_host in
    (recovery_conf after = None -> follow_events after = [])
    /\ (forall lines,
           recovery_conf after = Some lines <->
           modify self now old_conf new_master_host = Some (Some lines))
    /\ (follow_events after = []
        \/ follow_events after = [ExecuteExternalCommand stop_command]
        \/ follow_events after = [ExecuteExternalCommand stop_command;
                                  ExecuteExternalCommand start_command])
    /\ (follow_returns after = true ->
        recovery_conf after <> None ->
        follow_events after = [ExecuteExternalCommand stop_command;
                               ExecuteExternalCommand start_command]).
Proof.
  intros self w now old_conf new_master_host stop_command start_command
         Hstop Hstart. cbv zeta. unfold start_following_new_master.
  destruct (modify self now old_conf new_master_host) as [[lines|]|].
  - rewrite Hstop, Hstart, !execute_strings.
    cbn [recovery_conf follow_events follow_returns].
    split; [discriminate|].
    split; [intros l; split; intros [= ->]; reflexivity|].
    destruct stop_command as [|s0 stop]; [cbn; split; [auto|discriminate]|].
    destruct (command_result w (s0 :: stop)) as [rc|];
      [|cbn; split; [auto|discriminate]].
    destruct start_command as [|s1 start]; [cbn; split; [auto|discriminate]|].
    destruct (command_result w (s1 :: start)) as [rc'|]; cbn;
      (split; [auto|]); intros; try discriminate; reflexivity.
  - cbn. split; [reflexivity|].
    split; [intros l; split; discriminate|].
    split; [auto|]. intros _ Hn. now contradiction Hn.
  - cbn. split; [reflexivity|].
    split; [intros l; split; discriminate|].
    split; [auto|]. discriminate.
Qed.

End FollowProperties.

(* ================================================================== *)
(** * Worked instances *)

Lemma create_node_map_keeps_connected_master_witness :
  Cluster.create_node_map (Cluster.running "s") Cluster.healthy []
  = Some (fst Cluster.healthy_map, [],
          (Some "m", PyDict.get "m" Cluster.healthy, snd Cluster.healthy_map))
  /\ locally_connected_master Cluster.healthy "m"
  /\ PyDict.contains "m" (connected_master_nodes (fst Cluster.healthy_map))
     = true.
Proof.
  assert (Hmap : Cluster.create_node_map (Cluster.running "s")
                   Cluster.healthy []
                 = Some (fst Cluster.healthy_map, [],
                         (Some "m", PyDict.get "m" Cluster.healthy,
                          snd Cluster.healthy_map)))
    by (vm_compute; reflexivity).
  assert (Hlocal : locally_connected_master Cluster.healthy "m").
  { exists (Worked.record_of "m" Cluster.healthy), (VBool false), (VBool true).
    repeat split; try (vm_compute; reflexivity).
    apply get_In. vm_compute; reflexivity. }
  split; [exact Hmap|]. split; [exact Hlocal|].
  eapply create_node_map_keeps_connected_master; [exact Hmap|exact Hlocal].
Defined.

Lemma create_node_map_only_own_cluster_witness :
  Cluster.create_node_map (Cluster.running "s") Cluster.healthy []
  = Some (fst Cluster.healthy_map, [],
          (Some "m", PyDict.get "m" Cluster.healthy, snd Cluster.healthy_map))
  /\ PyDict.contains "s" (snd Cluster.healthy_map) = true
  /\ PyDict.contains "s" Cluster.healthy = true.
Proof.
  assert (Hmap : Cluster.create_node_map (Cluster.running "s")
                   Cluster.healthy []
                 = Some (fst Cluster.healthy_map, [],
                         (Some "m", PyDict.get "m" Cluster.healthy,
                          snd Cluster.healthy_map)))
    by (vm_compute; reflexivity).
  split; [exact Hmap|]. split; [vm_compute; reflexivity|].
  eapply create_node_map_only_own_cluster; [exact Hmap|].
  vm_compute; reflexivity.
Defined.

Lemma create_node_map_trusts_own_state_witness :
  exists self' events master_host master_node standby_nodes,
    Cluster.create_node_map (Cluster.running "A") Cluster.s4_cluster_state
      Cluster.s4_observer_state
    = Some (self', events, (master_host, master_node, standby_nodes))
    /\ own_db (Cluster.running "A") = Some "A"
    /\ exists self0 events0 master_host0 master_node0 standby_nodes0,
         Cluster.create_node_map (Cluster.running "A")
           Cluster.s4_cluster_state []
         = Some (self0, events0,
                 (master_host0, master_node0, standby_nodes0))
         /\ PyDict.get "A" standby_nodes = PyDict.get "A" standby_nodes0
         /\ PyDict.get "A" (connected_master_nodes self')
            = PyDict.get "A" (connected_master_nodes self0)
         /\ PyDict.get "A" (disconnected_master_nodes self')
            = PyDict.get "A" (disconnected_master_nodes self0).
Proof.
  assert (Hmap : exists r,
             Cluster.create_node_map (Cluster.running "A")
               Cluster.s4_cluster_state Cluster.s4_observer_state = Some r)
    by (vm_compute; eexists; reflexivity).
  destruct Hmap as [[[self' events] [[master_host master_node] standby_nodes]]
                      Hmap].
  exists self', events, master_host, master_node, standby_nodes.
  split; [exact Hmap|]. split; [reflexivity|].
  eapply create_node_map_trusts_own_state; [exact Hmap|reflexivity].
Defined.

Lemma create_node_map_master_selection_witness :
  Cluster.create_node_map (Cluster.running "s") Cluster.healthy []
  = Some (fst Cluster.healthy_map, [],
          (Some "m", PyDict.get "m" Cluster.healthy, snd Cluster.healthy_map))
  /\ PyDict.len (connected_master_nodes (fst Cluster.healthy_map)) = 1
  /\ exists host state,
       connected_master_nodes (fst Cluster.healthy_map) = [(host, state)]
       /\ Some "m" = Some host
       /\ PyDict.get "m" Cluster.healthy = Some state
       /\ @nil event = [].
Proof.
  assert (Hmap : Cluster.create_node_map (Cluster.running "s")
                   Cluster.healthy []
                 = Some (fst Cluster.healthy_map, [],
                         (Some "m", PyDict.get "m" Cluster.healthy,
                          snd Cluster.healthy_map)))
    by (vm_compute; reflexivity).
  split; [exact Hmap|]. split; [vm_compute; reflexivity|].
  pose proof Hmap as Hsel.
  apply create_node_map_master_selection in Hsel.
  apply (proj1 Hsel). vm_compute; reflexivity.
Defined.

Lemma get_replication_positions_sound_witness :
  Cluster.get_replication_positions (fst Cluster.twins_at_b) Cluster.quiet
    (snd Cluster.twins_at_b)
  = Some [(4294967298, ["a"; "b"])]
  /\ furthest_along [(4294967298, ["a"; "b"])] = Some "a"
  /\ name_in "a" (never_promote_these_nodes (fst Cluster.twins_at_b)) = false.
Proof.
  assert (Hp : Cluster.get_replication_positions (fst Cluster.twins_at_b)
                 Cluster.quiet (snd Cluster.twins_at_b)
               = Some [(4294967298, ["a"; "b"])]) by (vm_compute; reflexivity).
  split; [exact Hp|]. split; [vm_compute; reflexivity|].
  pose proof Hp as Hsound.
  apply get_replication_positions_sound in Hsound.
  apply (proj2 Hsound). vm_compute; reflexivity.
Defined.

Lemma get_replication_positions_complete_witness :
  Cluster.get_replication_positions (fst Cluster.twins_at_b) Cluster.quiet
    (snd Cluster.twins_at_b)
  = Some [(4294967298, ["a"; "b"])]
  /\ In ("a", Worked.record_of "a" (snd Cluster.twins_at_b))
        (snd Cluster.twins_at_b)
  /\ eligible_standby Common.parse_iso_datetime (fst Cluster.twins_at_b)
       Cluster.quiet "a" (Worked.record_of "a" (snd Cluster.twins_at_b))
  /\ exists k,
       standby_offset Common.convert_xlog_location_to_offset
         (Worked.record_of "a" (snd Cluster.twins_at_b)) = Some k
       /\ recorded [(4294967298, ["a"; "b"])] k "a".
Proof.
  assert (Hp : Cluster.get_replication_positions (fst Cluster.twins_at_b)
                 Cluster.quiet (snd Cluster.twins_at_b)
               = Some [(4294967298, ["a"; "b"])]) by (vm_compute; reflexivity).
  assert (Hin : In ("a", Worked.record_of "a" (snd Cluster.twins_at_b))
                   (snd Cluster.twins_at_b))
    by (apply get_In; vm_compute; reflexivity).
  assert (He : eligible_standby Common.parse_iso_datetime
                 (fst Cluster.twins_at_b) Cluster.quiet "a"
                 (Worked.record_of "a" (snd Cluster.twins_at_b))).
  { exists (VBool true), (VStr (Common.get_iso_timestamp Cluster.now)),
           Cluster.now.
    repeat split; vm_compute; reflexivity. }
  split; [exact Hp|]. split; [exact Hin|]. split; [exact He|].
  eapply get_replication_positions_complete; [exact Hp|exact Hin|exact He].
Defined.

Lemma never_promoted_node_never_fails_over_witness :
  own_db Worked.shy = Some "s"
  /\ name_in "s" (never_promote_these_nodes Worked.shy) = true
  /\ invokes_command
       (fst (Cluster.do_failover_decision Worked.shy Cluster.quiet
               (PyDict.get "s" Cluster.one_standby)
               (snd Cluster.one_standby_map))) = false.
Proof.
  split; [vm_compute; reflexivity|]. split; [vm_compute; reflexivity|].
  eapply never_promoted_node_never_fails_over; vm_compute; reflexivity.
Defined.

Lemma maintenance_mode_blocks_failover_witness :
  get_default "maintenance_mode_file"
    (VStr "/tmp/pglookout_maintenance_mode_file")
    (config (fst Cluster.one_standby_map))
  = VStr "/tmp/pglookout_maintenance_mode_file"
  /\ path_exists Worked.maintenance "/tmp/pglookout_maintenance_mode_file"
     = true
  /\ invokes_command
       (fst (Cluster.do_failover_decision (fst Cluster.one_standby_map)
               Worked.maintenance (PyDict.get "s" Cluster.one_standby)
               (snd Cluster.one_standby_map))) = false.
Proof.
  split; [vm_compute; reflexivity|]. split; [reflexivity|].
  eapply maintenance_mode_blocks_failover; [vm_compute; reflexivity|].
  reflexivity.
Defined.

Lemma failover_candidate_is_eligible_witness :
  invokes_command
    (fst (Cluster.do_failover_decision (fst Cluster.one_standby_map)
            Cluster.quiet (PyDict.get "s" Cluster.one_standby)
            (snd Cluster.one_standby_map))) = true
  /\ exists candidate node_state own,
       In (candidate, node_state) (snd Cluster.one_standby_map)
       /\ eligible_standby Common.parse_iso_datetime
            (fst Cluster.one_standby_map) Cluster.quiet candidate node_state
       /\ PyDict.get "s" Cluster.one_standby = Some own.
Proof.
  assert (Hrun : invokes_command
                   (fst (Cluster.do_failover_decision
                           (fst Cluster.one_standby_map) Cluster.quiet
                           (PyDict.get "s" Cluster.one_standby)
                           (snd Cluster.one_standby_map))) = true)
    by (vm_compute; reflexivity).
  split; [exact Hrun|].
  apply failover_candidate_is_eligible in Hrun. exact Hrun.
Defined.

Lemma failover_aftermath_witness :
  invokes_command
    (fst (Cluster.do_failover_decision (fst Cluster.one_standby_map)
            Cluster.quiet (PyDict.get "s" Cluster.one_standby)
            (snd Cluster.one_standby_map))) = true
  /\ command_result Cluster.quiet (failover_command (fst Cluster.one_standby_map))
     = Some 0
  /\ In (DeleteAlertFile "replication_delay_warning")
        (fst (Cluster.do_failover_decision (fst Cluster.one_standby_map)
                Cluster.quiet (PyDict.get "s" Cluster.one_standby)
                (snd Cluster.one_standby_map))).
Proof.
  assert (Hrun : invokes_command
                   (fst (Cluster.do_failover_decision
                           (fst Cluster.one_standby_map) Cluster.quiet
                           (PyDict.get "s" Cluster.one_standby)
                           (snd Cluster.one_standby_map))) = true)
    by (vm_compute; reflexivity).
  assert (Hrc : command_result Cluster.quiet
                  (failover_command (fst Cluster.one_standby_map)) = Some 0)
    by reflexivity.
  split; [exact Hrun|]. split; [exact Hrc|].
  pose proof Hrun as Hafter.
  apply failover_aftermath with (return_code := 0) in Hafter; [|exact Hrc].
  apply (proj1 (proj2 Hafter)).
  split; [reflexivity|]. vm_compute. discriminate.
Defined.

Lemma promoted_master_looks_like_born_master_witness :
  pg_is_in_recovery Worked.promoted_row = false
  /\ PyDict.get "replication_time_lag"
       (_parse_status_query_result Common.get_iso_timestamp
          (Some Worked.promoted_row)) = Some VNone.
Proof.
  split; [reflexivity|].
  apply (promoted_master_looks_like_born_master Common.get_iso_timestamp
           Worked.promoted_row eq_refl).
Defined.

Lemma probe_touches_one_member_witness :
  exists self',
    Cluster.update_cluster_member_state Cluster.probed_once "t"
      (Cluster.now + Cluster.seconds 5) 5
      (Some (Cluster.master_row (Cluster.now + Cluster.seconds 5)))
    = Some self'
    /\ PyDict.get "s" (cluster_state self')
       = PyDict.get "s" (cluster_state Cluster.probed_once)
    /\ PyDict.keys (cluster_state self') = ["s"; "t"].
Proof.
  assert (Hstep : exists self',
             Cluster.update_cluster_member_state Cluster.probed_once "t"
               (Cluster.now + Cluster.seconds 5) 5
               (Some (Cluster.master_row (Cluster.now + Cluster.seconds 5)))
             = Some self')
    by (vm_compute; eexists; reflexivity).
  destruct Hstep as [self' Hstep]. exists self'. split; [exact Hstep|].
  apply probe_touches_one_member in Hstep.
  destruct Hstep as (_ & Hother & Hkeys). split.
  - apply Hother. discriminate.
  - rewrite Hkeys. vm_compute; reflexivity.
Defined.

Lemma recorded_lag_is_never_negative_witness :
  monitor_reachable Common.parse_iso_datetime Common.get_iso_timestamp
    Cluster.probed_once
  /\ In ("s", Worked.record_of "s" (cluster_state Cluster.probed_once))
        (cluster_state Cluster.probed_once)
  /\ lag_not_negative
       (Worked.record_of "s" (cluster_state Cluster.probed_once)).
Proof.
  assert (Hreach : monitor_reachable Common.parse_iso_datetime
                     Common.get_iso_timestamp Cluster.probed_once).
  { apply (@reach_update Common.parse_iso_datetime Common.get_iso_timestamp
             new_monitor "s" Cluster.now 0
             (Some (Cluster.standby_row Cluster.now
                      (Cluster.now - Cluster.seconds 3) "1/2"))
             Cluster.probed_once).
    - apply reach_new.
    - vm_compute; reflexivity. }
  assert (Hin : In ("s", Worked.record_of "s"
                           (cluster_state Cluster.probed_once))
                   (cluster_state Cluster.probed_once))
    by (apply get_In; vm_compute; reflexivity).
  split; [exact Hreach|]. split; [exact Hin|].
  eapply recorded_lag_is_never_negative; [exact Hreach|exact Hin].
Defined.

Lemma replication_slots_are_remembered_witness :
  exists self',
    Cluster.update_cluster_member_state Cluster.probed_once "s"
      (Cluster.now + Cluster.seconds 5) 5 None = Some self'
    /\ known_replication_slots self'
       = known_replication_slots Cluster.probed_once.
Proof.
  assert (Hstep : exists self',
             Cluster.update_cluster_member_state Cluster.probed_once "s"
               (Cluster.now + Cluster.seconds 5) 5 None = Some self')
    by (vm_compute; eexists; reflexivity).
  destruct Hstep as [self' Hstep]. exists self'. split; [exact Hstep|].
  apply replication_slots_are_remembered in Hstep. exact Hstep.
Defined.

Lemma replication_start_time_only_at_creation_witness :
  exists self' entry,
    Cluster.update_cluster_member_state Cluster.probed_once "s"
      (Cluster.now + Cluster.seconds 5) 5
      (Some (Cluster.standby_row (Cluster.now + Cluster.seconds 5)
               (Cluster.now + Cluster.seconds 4) "1/2")) = Some self'
    /\ PyDict.get "s" (cluster_state self') = Some entry
    /\ PyDict.get "replication_start_time" entry = Some (VNum 0).
Proof.
  assert (Hstep : exists self',
             Cluster.update_cluster_member_state Cluster.probed_once "s"
               (Cluster.now + Cluster.seconds 5) 5
               (Some (Cluster.standby_row (Cluster.now + Cluster.seconds 5)
                        (Cluster.now + Cluster.seconds 4) "1/2"))
             = Some self'
             /\ exists entry, PyDict.get "s" (cluster_state self') = Some entry)
    by (vm_compute; eexists; split; [reflexivity|eexists; reflexivity]).
  destruct Hstep as [self' [Hstep [entry Hentry]]].
  exists self', entry. split; [exact Hstep|]. split; [exact Hentry|].
  pose proof Hstep as Hstart. unfold Cluster.update_cluster_member_state in Hstart.
  rewrite (@replication_start_time_only_at_creation Common.get_iso_timestamp
             _ _ _ _ _ _ _ Hstart Hentry).
  vm_compute; reflexivity.
Defined.

Lemma fetch_returns_None_only_on_skew_witness :
  Common.parse_iso_datetime (Common.get_iso_timestamp Cluster.now)
  = Some Cluster.now
  /\ Cluster._fetch_observer_state Cluster.now
       (HttpResponse (Some (Cluster.now - Cluster.seconds 10)) (Some []))
     = None.
Proof.
  assert (Hclock : Common.parse_iso_datetime
                     (Common.get_iso_timestamp Cluster.now)
                   = Some Cluster.now) by (vm_compute; reflexivity).
  split; [exact Hclock|].
  apply (@fetch_returns_None_only_on_skew Common.parse_iso_datetime
           Common.get_iso_timestamp Cluster.now
           (HttpResponse (Some (Cluster.now - Cluster.seconds 10)) (Some []))
           Hclock).
  exists (Cluster.now - Cluster.seconds 10), []. split; [reflexivity|].
  vm_compute; reflexivity.
Defined.

Lemma failed_fetch_keeps_earlier_views_witness :
  exists r,
    PyDict.get "o1"
      (observer_state
         (Cluster.fetch_observer_state Cluster.observed_once "o1" Cluster.now
            HttpConnectionError)) = Some r
    /\ PyDict.get "connection" r = Some (VBool false)
    /\ PyDict.get "B" r
       = PyDict.get "B"
           (Worked.record_of "o1" (observer_state Cluster.observed_once)).
Proof.
  destruct (@failed_fetch_keeps_earlier_views Common.parse_iso_datetime
              Common.get_iso_timestamp Cluster.observed_once "o1" Cluster.now
              HttpConnectionError I)
    as (r & Hr & Hconnection & _ & Hkept & _).
  exists r. split; [exact Hr|]. split; [exact Hconnection|].
  apply Hkept; [vm_compute; reflexivity|discriminate|discriminate].
Defined.

Lemma successful_fetch_stores_the_body_witness :
  Common.parse_iso_datetime (Common.get_iso_timestamp Cluster.now)
  = Some Cluster.now
  /\ Cluster.now - Cluster.now <= timedelta_seconds 5
  /\ exists r,
       PyDict.get "o1"
         (observer_state
            (Cluster.fetch_observer_state Cluster.monitor "o1" Cluster.now
               (HttpResponse (Some Cluster.now)
                  (Some Cluster.s4_observer_view)))) = Some r
       /\ PyDict.get "connection" r = Some (VBool true).
Proof.
  assert (Hclock : Common.parse_iso_datetime
                     (Common.get_iso_timestamp Cluster.now)
                   = Some Cluster.now) by (vm_compute; reflexivity).
  assert (Hskew : Cluster.now - Cluster.now <= timedelta_seconds 5)
    by (vm_compute; discriminate).
  split; [exact Hclock|]. split; [exact Hskew|].
  destruct (@successful_fetch_stores_the_body Common.parse_iso_datetime
              Common.get_iso_timestamp Cluster.monitor "o1" Cluster.now
              Cluster.now Cluster.s4_observer_view Hclock Hskew)
    as (r & Hr & Hkeys).
  exists r. split; [exact Hr|]. rewrite Hkeys. vm_compute; reflexivity.
Defined.

Lemma no_failover_under_a_master_witness :
  0 < PyDict.len (connected_master_nodes (fst Worked.lagging_map))
  /\ In (CreateAlertFile "replication_delay_warning")
        (fst (Worked.consider_failover (fst Worked.lagging_map) Cluster.quiet
                0 (PyDict.get "s" Worked.lagging)
                (PyDict.get "m" Worked.lagging) (snd Worked.lagging_map)))
  /\ lag_warning_event (fst Worked.lagging_map)
       (CreateAlertFile "replication_delay_warning").
Proof.
  assert (Hconnected :
            0 < PyDict.len (connected_master_nodes (fst Worked.lagging_map)))
    by (vm_compute; reflexivity).
  assert (Hevent :
            In (CreateAlertFile "replication_delay_warning")
               (fst (Worked.consider_failover (fst Worked.lagging_map)
                       Cluster.quiet 0 (PyDict.get "s" Worked.lagging)
                       (PyDict.get "m" Worked.lagging)
                       (snd Worked.lagging_map))))
    by (vm_compute; left; reflexivity).
  split; [exact Hconnected|]. split; [exact Hevent|].
  unfold Worked.consider_failover in Hevent.
  eapply no_failover_under_a_master; [left; exact Hconnected|exact Hevent].
Defined.

Lemma passive_daemon_only_tracks_the_master_witness :
  Cluster.healthy <> []
  /\ Cluster.create_node_map (Cluster.running "m") Cluster.healthy []
     = Some (fst (Cluster.node_map (Cluster.running "m") Cluster.healthy []),
             [],
             (Some "m", PyDict.get "m" Cluster.healthy,
              snd (Cluster.node_map (Cluster.running "m") Cluster.healthy [])))
  /\ own_db (Cluster.running "m")
     = remembered_master (Some "m") (Cluster.running "m")
  /\ Worked.check_cluster_state (Cluster.running "m") Cluster.quiet 0
       Cluster.healthy [] Cluster.healthy
     = ([],
        Some (set_current_master
                (remembered_master (Some "m") (Cluster.running "m"))
                (fst (Cluster.node_map (Cluster.running "m")
                        Cluster.healthy [])))).
Proof.
  assert (Hne : Cluster.healthy <> []) by (vm_compute; discriminate).
  assert (Hmap :
            create_node_map Common.parse_iso_datetime Common.get_iso_timestamp
              (Cluster.running "m") Cluster.healthy []
            = Some (fst (Cluster.node_map (Cluster.running "m")
                           Cluster.healthy []),
                    [],
                    (Some "m", PyDict.get "m" Cluster.healthy,
                     snd (Cluster.node_map (Cluster.running "m")
                            Cluster.healthy []))))
    by (vm_compute; reflexivity).
  assert (Hown : own_db (Cluster.running "m")
                 = remembered_master (Some "m") (Cluster.running "m"))
    by (vm_compute; reflexivity).
  split; [exact Hne|]. split; [exact Hmap|]. split; [exact Hown|].
  apply (@passive_daemon_only_tracks_the_master
           Common.parse_iso_datetime Common.get_iso_timestamp
           Common.convert_xlog_location_to_offset (fun _ _ => ([], Some tt))
           (Cluster.running "m") _ Cluster.quiet 0 Cluster.healthy []
           Cluster.healthy [] (Some "m") _ _ Hne Hmap (or_intror Hown)).
Defined.

Lemma current_master_is_never_forgotten_witness :
  snd (Worked.check_cluster_state (Cluster.running "m") Cluster.quiet 0
         Cluster.healthy [] Cluster.healthy)
  = Some (set_current_master (Some "m")
            (fst (Cluster.node_map (Cluster.running "m") Cluster.healthy [])))
  /\ own_db (set_current_master (Some "m")
               (fst (Cluster.node_map (Cluster.running "m")
                       Cluster.healthy [])))
     = own_db (Cluster.running "m").
Proof.
  assert (Hcheck :
            snd (check_cluster_state Common.parse_iso_datetime
                   Common.get_iso_timestamp
                   Common.convert_xlog_location_to_offset
                   (fun _ _ => ([], Some tt))
                   (Cluster.running "m") Cluster.quiet 0
                   Cluster.healthy [] Cluster.healthy)
            = Some (set_current_master (Some "m")
                      (fst (Cluster.node_map (Cluster.running "m")
                              Cluster.healthy []))))
    by (vm_compute; reflexivity).
  split; [exact Hcheck|].
  apply current_master_is_never_forgotten in Hcheck. exact (proj1 Hcheck).
Defined.

Lemma parse_connection_string_libpq_terminates_witness :
  (String.length "host=db1 port=5432" < 100)%nat
  /\ Pgutil.parse_loop 100 [] "host=db1 port=5432"
     = Pgutil.parse_from [] "host=db1 port=5432".
Proof.
  assert (Hrounds : (String.length "host=db1 port=5432" < 100)%nat)
    by (cbn; lia).
  split; [exact Hrounds|].
  apply (proj1 (@parse_connection_string_libpq_terminates
                  "host=db1 port=5432" [] 100 Hrounds)).
Defined.

Lemma quoted_fragments_are_read_back_witness :
  (forall key value,
      In (key, value) [("host", "db1"); ("password", "it's")] ->
      Pgutil.plain_key key)
  /\ Pgutil.parse_connection_string_libpq
       (Pgutil.quoted_fragments [("host", "db1"); ("password", "it's")])
     = Pgutil.Returns [("host", "db1"); ("password", "it's")].
Proof.
  assert (Hkeys : forall key value : string,
             In (key, value) [("host", "db1"); ("password", "it's")] ->
             Pgutil.plain_key key).
  { intros key value [Hin|[Hin|[]]]; injection Hin as <- <-;
      split; vm_compute; reflexivity. }
  split; [exact Hkeys|].
  apply (proj2 (@quoted_fragments_are_read_back
                  [("host", "db1"); ("password", "it's")] [] "" Hkeys)).
Defined.

Lemma malformed_fragment_raises_ValueError_witness :
  Pgutil.strip "host='db1" <> ""%string
  /\ Pgutil.plain_key "host"
  /\ ~ In "'"%char (list_ascii_of_string "db1")
  /\ Pgutil.parse_from [] "host='db1" = Pgutil.ValueError.
Proof.
  assert (Hblank : Pgutil.strip "host='db1" <> ""%string)
    by (vm_compute; discriminate).
  assert (Hkey : Pgutil.plain_key "host") by (split; vm_compute; reflexivity).
  assert (Hbody : ~ In "'"%char (list_ascii_of_string "db1"))
    by (vm_compute; intuition discriminate).
  split; [exact Hblank|]. split; [exact Hkey|]. split; [exact Hbody|].
  apply (@malformed_fragment_raises_ValueError [] "host='db1" Hblank).
  right. exists "host"%string, "db1"%string. split; [reflexivity|].
  split; [exact Hkey|exact Hbody].
Defined.

Lemma config_line_is_read_back_witness :
  ~ In "="%char (list_ascii_of_string "primary_conninfo ")
  /\ Worked.get_connection_info_from_config_line
       "primary_conninfo = 'host=''db1'' user=replication'"
     = Pgutil.Returns [("host", VStr "db1"); ("user", VStr "replication")].
Proof.
  assert (Hname : ~ In "="%char (list_ascii_of_string "primary_conninfo "))
    by (vm_compute; intuition discriminate).
  split; [exact Hname|].
  unfold Worked.get_connection_info_from_config_line.
  change "primary_conninfo = 'host=''db1'' user=replication'"%string
    with ("primary_conninfo " ++ "= '"
          ++ Pgutil.double_quotes "host='db1' user=replication" ++ "'")%string.
  rewrite (proj1 (@config_line_is_read_back (fun _ => Pgutil.OtherError)
                    "primary_conninfo " "host='db1' user=replication" ""
                    Hname)).
  vm_compute; reflexivity.
Defined.

Lemma recovery_conf_is_rewritten_witness :
  exists lines,
    Worked.modify_recovery_conf_to_point_at_new_master_host Worked.follower
      Cluster.now Worked.old_conf "new" = Some (Some lines)
    /\ filter is_primary_conninfo lines
       = ["primary_conninfo = 'user=replication host=new'"%string]
    /\ existsb is_recovery_target_timeline lines = true.
Proof.
  assert (Hmodify : exists lines,
             Worked.modify_recovery_conf_to_point_at_new_master_host
               Worked.follower Cluster.now Worked.old_conf "new"
             = Some (Some lines))
    by (vm_compute; eexists; reflexivity).
  destruct Hmodify as [lines Hmodify]. exists lines.
  split; [exact Hmodify|].
  unfold Worked.modify_recovery_conf_to_point_at_new_master_host in Hmodify.
  apply recovery_conf_is_rewritten in Hmodify.
  destruct Hmodify as (template & Htemplate & Hlines). cbv zeta in Hlines.
  destruct Hlines as (tag & adapted & Hadapted & _ & Hone & Htimeline).
  split; [|exact Htimeline].
  rewrite Hone. vm_compute in Htemplate. injection Htemplate as <-.
  vm_compute in Hadapted. injection Hadapted as <-. reflexivity.
Defined.

Lemma restart_only_after_rewrite_witness :
  command_of "pg_stop_command" Worked.follower = Some ["pg_ctl"; "stop"]
  /\ command_of "pg_start_command" Worked.follower = Some ["pg_ctl"; "start"]
  /\ follow_returns
       (Worked.start_following_new_master Worked.follower Cluster.quiet
          Cluster.now Worked.old_conf "new") = true
  /\ recovery_conf
       (Worked.start_following_new_master Worked.follower Cluster.quiet
          Cluster.now Worked.old_conf "new") <> None
  /\ follow_events
       (Worked.start_following_new_master Worked.follower Cluster.quiet
          Cluster.now Worked.old_conf "new")
     = [ExecuteExternalCommand ["pg_ctl"; "stop"];
        ExecuteExternalCommand ["pg_ctl"; "start"]].
Proof.
  assert (Hstop : command_of "pg_stop_command" Worked.follower
                  = Some ["pg_ctl"; "stop"]) by (vm_compute; reflexivity).
  assert (Hstart : command_of "pg_start_command" Worked.follower
                   = Some ["pg_ctl"; "start"]) by (vm_compute; reflexivity).
  assert (Hreturns :
            follow_returns
              (Worked.start_following_new_master Worked.follower Cluster.quiet
                 Cluster.now Worked.old_conf "new") = true)
    by (vm_compute; reflexivity).
  assert (Hwritten :
            recovery_conf
              (Worked.start_following_new_master Worked.follower Cluster.quiet
                 Cluster.now Worked.old_conf "new") <> None)
    by (vm_compute; discriminate).
  split; [exact Hstop|]. split; [exact Hstart|]. split; [exact Hreturns|].
  split; [exact Hwritten|].
  apply (@restart_only_after_rewrite Common.get_iso_timestamp
           Worked.get_connection_info_from_config_line
           Worked.adapted_connection_string Worked.follower Cluster.quiet
           Cluster.now Worked.old_conf "new" _ _ Hstop Hstart);
    [exact Hreturns|exact Hwritten].
Defined.

Lemma lag_warning_is_edge_triggered_witness :
  PyDict.get "replication_time_lag" (Worked.record_of "s" Worked.lagging)
  = Some (VNum (total_seconds (Cluster.seconds 40)))
  /\ (total_seconds (Cluster.seconds 40)
      < replication_lag_failover_timeout (fst Worked.lagging_map))%Q
  /\ replication_lag_over_warning_limit (fst Worked.lagging_map) = false
  /\ In (CreateAlertFile "replication_delay_warning")
        (fst (check_replication_lag Common.parse_iso_datetime
                Common.get_iso_timestamp
                Common.convert_xlog_location_to_offset
                (fst Worked.lagging_map) Cluster.quiet
                (Some (Worked.record_of "s" Worked.lagging))
                (snd Worked.lagging_map))).
Proof.
  assert (Hlag : PyDict.get "replication_time_lag"
                   (Worked.record_of "s" Worked.lagging)
                 = Some (VNum (total_seconds (Cluster.seconds 40))))
    by (vm_compute; reflexivity).
  assert (Hlt : (total_seconds (Cluster.seconds 40)
                 < replication_lag_failover_timeout (fst Worked.lagging_map))%Q)
    by (vm_compute; reflexivity).
  split; [exact Hlag|]. split; [exact Hlt|]. split; [reflexivity|].
  pose proof (@lag_warning_is_edge_triggered
                Common.parse_iso_datetime Common.get_iso_timestamp
                Common.convert_xlog_location_to_offset
                (fst Worked.lagging_map) Cluster.quiet
                (Worked.record_of "s" Worked.lagging)
                (snd Worked.lagging_map)
                (total_seconds (Cluster.seconds 40)) Hlag Hlt) as Hedge.
  cbv zeta in Hedge.
  change (Qeq_bool (total_seconds (Cluster.seconds 40)) 0) with false in Hedge.
  cbv iota in Hedge.
  apply (proj1 (proj2 Hedge)). split; vm_compute; reflexivity.
Defined.
